(** * LeaseUp: a shallow embedding of [app.py]

    The application is a set of Flask request handlers over a relational
    store.  Every handler is embedded as a function from the current
    principal, the request and the store to a response and the committed
    store.  A handler that raises before [db.session.commit()] leaves the
    store as it was: the session is discarded at the end of the request. *)

From Stdlib Require Import ZArith Ascii String List Bool Lia Sorted.
From Stdlib Require DecimalString DecimalZ.
From stdpp Require Import base option list gmap strings.
Import ListNotations.
Local Open Scope Z_scope.

(** ** Values *)

(** [datetime.date]: the fields the handlers read. *)
Record date := Date { year : Z; month : Z; day : Z }.

(** [datetime.datetime]: a calendar date and the time of day. *)
Record datetime := DateTime { date_part : date; time_part : Z }.

(** What a [db.Integer] column holds.  The booking workflow stores Python
    ints; the form handlers assign the submitted string as it is, and the
    store keeps an integer when the text is one and the text otherwise. *)
Inductive Integer := Null | Int (n : Z) | Raw (s : string).

#[global] Instance Integer_eq_dec : EqDecision Integer.
Proof. solve_decision. Defined.

#[global] Instance Integer_countable : Countable Integer.
Proof.
  refine (inj_countable'
    (fun i => match i with
              | Null => None | Int n => Some (inl n) | Raw s => Some (inr s)
              end)
    (fun o => match o with
              | None => Null | Some (inl n) => Int n | Some (inr s) => Raw s
              end) _).
  intros []; reflexivity.
Defined.

(** An ASCII letter. *)
Definition is_letter (c : ascii) : bool :=
  let n := nat_of_ascii c in
  ((65 <=? n) && (n <=? 90) || (97 <=? n) && (n <=? 122))%nat.

(** ** The runtime the handlers run on

    Builtins and library calls whose code is not part of the repository are
    taken as they come: number arithmetic on [db.Float] values, [int()],
    [str()], [float()], [datetime.fromisoformat(...).date()], werkzeug's
    password hashing, and what the store makes of a string assigned to an
    Integer or Date column and of a NaN assigned to a Float column.
    Python ints that meet floats are read through [float_of_int].  Two
    facts about [int] are assumed: it reads back what [str] writes, and it
    refuses a string that starts with a letter. *)
Class Runtime := {
  Float : Type;
  float_of_int : Z -> Float;
  fadd : Float -> Float -> Float;
  fsub : Float -> Float -> Float;
  fmul : Float -> Float -> Float;
  (** [int(s)]; [None] when it raises *)
  py_int : string -> option Z;
  (** [str(n)], as in [f'user_{self.id}'] *)
  py_str : Z -> string;
  (** [float(s)]; [None] when it raises *)
  py_float : string -> option Float;
  (** [datetime.fromisoformat(s).date()]; [None] when it raises *)
  fromisoformat : string -> option date;
  (** [generate_password_hash(password)], the salt drawn made explicit *)
  generate_password_hash : string -> string -> string;
  (** [check_password_hash(pwhash, password)] *)
  check_password_hash : string -> string -> bool;
  (** a string assigned to an Integer column, as read back *)
  bind_Integer : string -> Integer;
  (** a string assigned to a Date column; [None] when the flush raises *)
  bind_Date : string -> option date;
  (** the floats that are no number: the store keeps a NaN as NULL *)
  is_nan : Float -> bool;
  py_int_str : forall n, py_int (py_str n) = Some n;
  py_int_letter : forall c s, is_letter c = true -> py_int (String c s) = None
}.

(** ** Rows *)

Module User.
Record t := Build { id : Z; username : string; password_hash : string }.
End User.

Module TenantUser.
Record t := Build {
  id : Z; username : string; email : string; password_hash : string;
  phone : option string; created_at : datetime }.
End TenantUser.

Module Property.
Record t := Build { id : Z; name : string; address : option string }.
End Property.

Module Unit.
Record t := Build {
  id : Z; number : string; status : option string; property_id : Integer }.
End Unit.

Module Tenant.
Record t := Build {
  id : Z; name : string; phone : option string; email : option string }.
End Tenant.

Module Lease.
Record t {R : Runtime} := Build {
  id : Z; unit_id : Integer; tenant_id : Integer;
  start_date : option date; end_date : option date;
  monthly_rent : option Float }.
End Lease.

Module Payment.
Record t {R : Runtime} := Build {
  id : Z; lease_id : Integer; amount : Float; date : datetime }.
End Payment.

Module MaintenanceRequest.
Record t := Build {
  id : Z; unit_id : Integer; description : option string;
  status : option string; created_at : datetime }.
End MaintenanceRequest.

Module LeaseRequest.
Record t := Build {
  id : Z; unit_id : Z; tenant_user_id : Z;
  start_date : option date; end_date : option date;
  notes : string; status : string; created_at : datetime }.
End LeaseRequest.

Module EmergencyContact.
Record t := Build {
  id : Z; unit_identifier : option string; name : option string;
  phone : option string }.
End EmergencyContact.

(** ** The store *)

(** A model class with an integer primary key. *)
Class Model (A : Type) := pk : A -> Z.

#[global] Instance User_model : Model User.t := User.id.
#[global] Instance TenantUser_model : Model TenantUser.t := TenantUser.id.
#[global] Instance Property_model : Model Property.t := Property.id.
#[global] Instance Unit_model : Model Unit.t := Unit.id.
#[global] Instance Tenant_model : Model Tenant.t := Tenant.id.
#[global] Instance Lease_model {R : Runtime} : Model Lease.t := Lease.id.
#[global] Instance Payment_model {R : Runtime} : Model Payment.t := Payment.id.
#[global] Instance MaintenanceRequest_model : Model MaintenanceRequest.t :=
  MaintenanceRequest.id.
#[global] Instance LeaseRequest_model : Model LeaseRequest.t := LeaseRequest.id.
#[global] Instance EmergencyContact_model : Model EmergencyContact.t :=
  EmergencyContact.id.

(** [Model.query.get(k)] for a key the store can bind: the row with
    primary key [k], if there is one. *)
Definition query_get {A} `{Model A} (k : Z) (tbl : list A) : option A :=
  List.find (fun r => pk r =? k) tbl.

(** The store keeps integers in 64 bits; a Python int outside that range
    cannot be bound to a statement ([OverflowError]). *)
Definition int64 (k : Z) : bool := (- 2 ^ 63 <=? k) && (k <? 2 ^ 63).

Inductive lookup (A : Type) := Found (r : A) | Missing | Overflow.
Arguments Found {A} r.
Arguments Missing {A}.
Arguments Overflow {A}.

(** [Model.query.get(k)] for a key that comes from the caller (a route
    parameter, a form field, the session identifier): the row, no row, or
    the [OverflowError] of a key that does not fit.  The keys of stored rows
    fit, so a key that is found fits and the table is looked at first. *)
Definition query_lookup {A} `{Model A} (k : Z) (tbl : list A) : lookup A :=
  match query_get k tbl with
  | Some r => Found r
  | None => if int64 k then Missing else Overflow
  end.

(** The key the store gives the next inserted row: one past the largest. *)
Definition next_id {A} `{Model A} (tbl : list A) : Z :=
  1 + fold_right (fun r m => Z.max (pk r) m) 0 tbl.

(** Write an attribute change of the row with key [k] back. *)
Definition update {A} `{Model A} (k : Z) (f : A -> A) (tbl : list A) : list A :=
  List.map (fun r => if pk r =? k then f r else r) tbl.

(** [db.session.delete(row)] *)
Definition delete_row {A} `{Model A} (k : Z) (tbl : list A) : list A :=
  List.filter (fun r => negb (pk r =? k)) tbl.

(** [Model.query.get] with a column value as key. *)
Definition query_get_col {A} `{Model A} (k : Integer) (tbl : list A) : option A :=
  match k with Int n => query_get n tbl | _ => None end.

Record db {R : Runtime} := Db {
  users : list User.t;
  tenant_users : list TenantUser.t;
  properties : list Property.t;
  units : list Unit.t;
  tenants : list Tenant.t;
  leases : list Lease.t;
  payments : list Payment.t;
  maintenance_requests : list MaintenanceRequest.t;
  lease_requests : list LeaseRequest.t;
  emergency_contacts : list EmergencyContact.t }.

(** ** Requests, principals and responses *)

Inductive http_method := GET | POST.

(** A request: the method, the submitted fields ([request.form], or the JSON
    body of [admin_autologin]), and the two things a handler draws from its
    environment: the clock and the salt of a new password hash. *)
Record request := Request {
  method : http_method;
  form : gmap string string;
  utcnow : datetime;
  salt : string }.

(** [current_user]: an administrator, a tenant account, or nobody. *)
Inductive principal := Admin (u : User.t) | TenantAccount (t : TenantUser.t).

Definition caller := option principal.

(** A flashed notice, quoted without its leading pictograph. *)
Inductive flash :=
| Flash (message : string)
| FlashApproved (unit_number : string)
| FlashPurged (deleted : nat).

Inductive response :=
| Json (code : Z) (ok : bool) (message : string)
| Redirect (endpoint : string) (notice : option flash)
| Template (name : string) (notice : option flash)
| LoginRedirect
| Abort (code : Z)
| ServerError.

(** ** Python idioms *)

(** Truth value of an optional string: [None] and [''] are false. *)
Definition truthy (o : option string) : bool :=
  match o with Some (String _ _) => true | _ => false end.

(** [x or None] *)
Definition or_None (o : option string) : option string :=
  if truthy o then o else None.

(** [s.split('_', 1)] when ['_' in s]: the text before the first underscore
    and the text after it; [None] when [s] has no underscore. *)
Fixpoint split_underscore (s : string) : option (string * string) :=
  match s with
  | EmptyString => None
  | String c rest =>
    if Ascii.eqb c "_"%char then Some (EmptyString, rest)
    else match split_underscore rest with
         | Some (prefix, uid) => Some (String c prefix, uid)
         | None => None
         end
  end.

(** [a == b] on an optional column and a string: NULL equals nothing. *)
Definition col_eqb (a : option string) (b : string) : bool :=
  match a with Some x => String.eqb x b | None => false end.

Section Handlers.
Context {R : Runtime}.

(** ** Identity and access *)

(** [get_id] of [User] and of [TenantUser]. *)
Definition get_id (p : principal) : string :=
  match p with
  | Admin u => String.append "user_" (py_str (User.id u))
  | TenantAccount t => String.append "tenant_" (py_str (TenantUser.id t))
  end.

(** [current_user.id] *)
Definition principal_id (p : principal) : Z :=
  match p with Admin u => User.id u | TenantAccount t => TenantUser.id t end.

(** [current_user.password_hash], as [check_password] reads it. *)
Definition principal_hash (p : principal) : string :=
  match p with
  | Admin u => User.password_hash u
  | TenantAccount t => TenantUser.password_hash t
  end.

(** The anonymous user's [get_id()] is [None]. *)
Definition is_admin_user (c : caller) : bool :=
  match c with Some p => String.prefix "user_" (get_id p) | None => false end.

Definition is_tenant_user (c : caller) : bool :=
  match c with Some p => String.prefix "tenant_" (get_id p) | None => false end.

(** [current_user.__class__.__name__ != 'User'] *)
Definition class_is_User (c : caller) : bool :=
  match c with Some (Admin _) => true | _ => false end.

(** [@login_required]: nobody logged in is sent to the login view and the
    handler body does not run. *)
Definition login_required {S} (c : caller) (st : S) (body : response * S)
  : response * S :=
  match c with None => (LoginRedirect, st) | Some _ => body end.

(** The lookups [load_user] issues, in order. *)
Inductive query := QueryUser (uid : Z) | QueryTenantUser (uid : Z).

(** How [load_user] ends: it returns a principal or [None], or an
    exception leaves it. *)
Inductive restored := Restored (p : option principal) | Raised.

(** The second half of [load_user]: [int(user_id)], then the administrator
    table, then the tenant-account table.  The two lookups are outside
    every [try]. *)
Definition load_user_fallback (st : db) (user_id : string)
  : restored * list query :=
  match py_int user_id with
  | None => (Restored None, [])
  | Some uid =>
    match query_lookup uid (users st) with
    | Found user => (Restored (Some (Admin user)), [QueryUser uid])
    | Overflow => (Raised, [QueryUser uid])
    | Missing =>
      match query_lookup uid (tenant_users st) with
      | Found tenant =>
        (Restored (Some (TenantAccount tenant)),
         [QueryUser uid; QueryTenantUser uid])
      | Missing => (Restored None, [QueryUser uid; QueryTenantUser uid])
      | Overflow => (Raised, [QueryUser uid; QueryTenantUser uid])
      end
    end
  end.

(** The lookups made so far, then the second half. *)
Definition then_fallback (made : list query) (st : db) (user_id : string)
  : restored * list query :=
  ((load_user_fallback st user_id).1, made ++ (load_user_fallback st user_id).2).

(** [load_user]: how it ends and the lookups made.  An exception in the
    first half, the lookup's included, is caught and leads to the second
    half. *)
Definition load_user (st : db) (user_id : string)
  : restored * list query :=
  match split_underscore user_id with
  | Some (prefix, uid) =>
    match py_int uid with
    | Some uid =>
      if String.eqb prefix "user" then
        match query_lookup uid (users st) with
        | Found user => (Restored (Some (Admin user)), [QueryUser uid])
        | Missing => (Restored None, [QueryUser uid])
        | Overflow => then_fallback [QueryUser uid] st user_id
        end
      else if String.eqb prefix "tenant" then
        match query_lookup uid (tenant_users st) with
        | Found tenant =>
          (Restored (Some (TenantAccount tenant)), [QueryTenantUser uid])
        | Missing => (Restored None, [QueryTenantUser uid])
        | Overflow => then_fallback [QueryTenantUser uid] st user_id
        end
      else load_user_fallback st user_id
    | None => load_user_fallback st user_id
    end
  | None => load_user_fallback st user_id
  end.

(** ** Booking workflow *)

Definition set_request_status (s : string) (r : LeaseRequest.t) : LeaseRequest.t :=
  LeaseRequest.Build (LeaseRequest.id r) (LeaseRequest.unit_id r)
    (LeaseRequest.tenant_user_id r) (LeaseRequest.start_date r)
    (LeaseRequest.end_date r) (LeaseRequest.notes r) s
    (LeaseRequest.created_at r).

Definition set_unit_status (s : string) (u : Unit.t) : Unit.t :=
  Unit.Build (Unit.id u) (Unit.number u) (Some s) (Unit.property_id u).

(** [Tenant.query.filter_by(email=e).first()] *)
Definition tenant_by_email (e : string) (tbl : list Tenant.t) : option Tenant.t :=
  List.find (fun t => col_eqb (Tenant.email t) e) tbl.

(** The Tenant row [approve_booking_request] builds for an account. *)
Definition tenant_of_account (k : Z) (a : TenantUser.t) : Tenant.t :=
  Tenant.Build k (TenantUser.username a) (TenantUser.phone a)
    (Some (TenantUser.email a)).

(** The Lease row [approve_booking_request] builds. *)
Definition lease_of_request (k tenant_id : Z) (r : LeaseRequest.t) : Lease.t :=
  Lease.Build _ k (Int (LeaseRequest.unit_id r)) (Int tenant_id)
    (LeaseRequest.start_date r) (LeaseRequest.end_date r)
    (Some (float_of_int 0)).

Definition approve_booking_request (c : caller) (request_id : Z) (st : db)
  : response * db :=
  login_required c st
  (if negb (is_admin_user c) then (Json 403 false "Admin access only", st)
   else
   match query_lookup request_id (lease_requests st) with
   | Overflow => (ServerError, st)
   | Missing =>
     (Redirect "booking_requests" (Some (Flash "Booking request not found.")), st)
   | Found lease_req =>
     let lease_requests' :=
       update request_id (set_request_status "approved") (lease_requests st) in
     (* lease_req.tenant_user; [.email] on None raises *)
     match query_get (LeaseRequest.tenant_user_id lease_req) (tenant_users st) with
     | None => (ServerError, st)
     | Some tenant_user =>
       let '(tenant_id, tenants') :=
         match tenant_by_email (TenantUser.email tenant_user) (tenants st) with
         | Some tenant => (Tenant.id tenant, tenants st)
         | None =>
           let k := next_id (tenants st) in
           (k, tenants st ++ [tenant_of_account k tenant_user])
         end in
       (* lease_req.unit; [.status = ...] on None raises *)
       match query_get (LeaseRequest.unit_id lease_req) (units st) with
       | None => (ServerError, st)
       | Some unit =>
         let units' :=
           update (Unit.id unit) (set_unit_status "occupied") (units st) in
         let lease := lease_of_request (next_id (leases st)) tenant_id lease_req in
         (Redirect "booking_requests" (Some (FlashApproved (Unit.number unit))),
          Db _ (users st) (tenant_users st) (properties st) units' tenants'
            (leases st ++ [lease]) (payments st) (maintenance_requests st)
            lease_requests' (emergency_contacts st))
       end
     end
   end).

Definition reject_booking_request (c : caller) (request_id : Z) (st : db)
  : response * db :=
  login_required c st
  (if negb (is_admin_user c) then (Json 403 false "Admin access only", st)
   else
   match query_lookup request_id (lease_requests st) with
   | Overflow => (ServerError, st)
   | Missing =>
     (Redirect "booking_requests" (Some (Flash "Booking request not found.")), st)
   | Found lease_req =>
     (Redirect "booking_requests" (Some (Flash "Booking request rejected.")),
      Db _ (users st) (tenant_users st) (properties st) (units st) (tenants st)
        (leases st) (payments st) (maintenance_requests st)
        (update request_id (set_request_status "rejected") (lease_requests st))
        (emergency_contacts st))
   end).

(** What the store does with the bulk delete and its commit: both go
    through, the DELETE statement raises, or the commit raises. *)
Inductive persistence := Commits | DeleteRaises | CommitRaises.

Definition is_rejected (r : LeaseRequest.t) : bool :=
  String.eqb (LeaseRequest.status r) "rejected".

Definition purge_rejected_requests (c : caller) (outcome : persistence) (st : db)
  : response * db :=
  login_required c st
  (if negb (is_admin_user c) then (Json 403 false "Admin access only", st)
   else
   let failed :=
     (* except: db.session.rollback() drops what the transaction holds *)
     (Redirect "booking_requests" (Some (Flash "Error purging rejected requests.")),
      st) in
   match outcome with
   | DeleteRaises => failed
   | _ =>
     let deleted := length (List.filter is_rejected (lease_requests st)) in
     let pending :=
       Db _ (users st) (tenant_users st) (properties st) (units st) (tenants st)
         (leases st) (payments st) (maintenance_requests st)
         (List.filter (fun r => negb (is_rejected r)) (lease_requests st))
         (emergency_contacts st) in
     match outcome with
     | CommitRaises => failed
     | _ => (Redirect "booking_requests" (Some (FlashPurged deleted)), pending)
     end
   end).

(** The date fields of [book_unit]: an empty field is left [None], a filled
    one is parsed; the outer [None] is the raised exception. *)
Definition parse_date_field (s : option string) : option (option date) :=
  match s with
  | Some v => if truthy s then Some <$> fromisoformat v else Some None
  | None => Some None
  end.

(** The tenant id [book_unit] derives from [current_user]. *)
Definition tenant_uid_of (p : principal) : option Z :=
  match split_underscore (get_id p) with
  | Some (_, uid) => py_int uid
  | None => Some (principal_id p)
  end.

Definition book_unit (c : caller) (req : request) (st : db) : response * db :=
  login_required c st
  (if negb (is_tenant_user c) then (Json 403 false "Only tenants can book units", st)
   else
   let start_date := form req !! "start_date" in
   let end_date := form req !! "end_date" in
   let notes := default EmptyString (form req !! "notes") in
   match form req !! "unit_id" ≫= py_int with
   | None => (Json 400 false "Invalid unit id", st)
   | Some unit_id =>
     match parse_date_field start_date, parse_date_field end_date with
     | Some start_date_obj, Some end_date_obj =>
       if negb (negb (unit_id =? 0) && truthy start_date && truthy end_date)
       then (Json 400 false "All fields required", st)
       else
       match query_lookup unit_id (units st) with
       | Overflow => (ServerError, st)
       | Missing => (Json 400 false "Unit is not available", st)
       | Found unit =>
         if negb (col_eqb (Unit.status unit) "vacant")
         then (Json 400 false "Unit is not available", st)
         else
         match c ≫= tenant_uid_of with
         | None => (Json 400 false "Unable to identify tenant user id", st)
         | Some tenant_uid =>
           let lease_req :=
             LeaseRequest.Build (next_id (lease_requests st)) unit_id tenant_uid
               start_date_obj end_date_obj notes "pending" (utcnow req) in
           (Json 200 true "Booking request created successfully",
            Db _ (users st) (tenant_users st) (properties st) (units st)
              (tenants st) (leases st) (payments st) (maintenance_requests st)
              (lease_requests st ++ [lease_req]) (emergency_contacts st))
         end
       end
     | _, _ => (Json 400 false "Invalid date format", st)
     end
   end).

End Handlers.

Section Dashboard.
Context {R : Runtime}.

(** ** Reporting *)

(** [sum(xs)]: from 0, adding left to right. *)
Definition py_sum (xs : list Float) : Float :=
  fold_left fadd xs (float_of_int 0).

(** [l.payments]: the payments whose [lease_id] is the lease's key. *)
Definition lease_payments (st : db) (l : Lease.t) : list Payment.t :=
  List.filter (fun p => bool_decide (Payment.lease_id p = Int (Lease.id l)))
    (payments st).

(** [l.tenant] *)
Definition lease_tenant (st : db) (l : Lease.t) : option Tenant.t :=
  query_get_col (Lease.tenant_id l) (tenants st).

(** [(today.year - start.year) * 12 + (today.month - start.month)],
    floored at zero. *)
Definition months_elapsed (today start : date) : Z :=
  Z.max 0 ((year today - year start) * 12 + (month today - month start)).

(** One entry of [balances]. *)
Record balance_entry := BalanceEntry {
  entry_lease : Lease.t;
  expected : Float;
  paid : Float;
  balance : Float }.

(** The body of the balance loop for a lease that has a start date;
    [l.monthly_rent or 0] is 0 for a missing rent. *)
Definition lease_balance (st : db) (today start : date) (l : Lease.t)
  : balance_entry :=
  let months := months_elapsed today start in
  let expected := fmul (float_of_int months)
                       (default (float_of_int 0) (Lease.monthly_rent l)) in
  let paid := py_sum (Payment.amount <$> lease_payments st l) in
  BalanceEntry l expected paid (fsub expected paid).

(** The balance loop: [balances] and [unit_balances] after the leases seen. *)
Definition balances_step (st : db) (today : date)
    (acc : list balance_entry * gmap Integer Float) (l : Lease.t)
  : list balance_entry * gmap Integer Float :=
  match Lease.start_date l with
  | None => acc
  | Some start =>
    let e := lease_balance st today start l in
    (acc.1 ++ [e], <[Lease.unit_id l := balance e]> (acc.2))
  end.

Definition compute_balances (st : db) (today : date) (ls : list Lease.t)
  : list balance_entry * gmap Integer Float :=
  fold_left (balances_step st today) ls ([], ∅).

(** A value of the intermediate [unit_tenants] dict. *)
Record tenant_entry := TenantEntry {
  tenant_name : option string;
  lease_id : Z }.

(** [hasattr(existing, 'id')]: [existing] is a dict, it has keys and no
    attribute of that name. *)
Definition hasattr_id (existing : tenant_entry) : bool := false.

(** The body of the latest-tenant loop. *)
Definition unit_tenants_step (st : db) (acc : gmap Integer tenant_entry)
    (l : Lease.t) : gmap Integer tenant_entry :=
  let name := Tenant.name <$> lease_tenant st l in
  let overwrite :=
    match acc !! Lease.unit_id l with
    | None => true
    | Some existing =>
      negb (Lease.id l =? 0)
      && (negb (hasattr_id existing) || (lease_id existing <? Lease.id l))
    end in
  if overwrite then <[Lease.unit_id l := TenantEntry name (Lease.id l)]> acc
  else acc.

(** [unit_tenants] as handed to the template: unit key to tenant name. *)
Definition unit_tenants (st : db) (ls : list Lease.t)
  : gmap Integer (option string) :=
  tenant_name <$> fold_left (unit_tenants_step st) ls ∅.

(** [Lease.query.filter_by(unit_id=k).order_by(Lease.id.desc()).first()] *)
Definition latest_lease (k : Z) (ls : list Lease.t) : option Lease.t :=
  fold_left
    (fun best l =>
       if bool_decide (Lease.unit_id l = Int k) then
         match best with
         | Some b => if Lease.id b <? Lease.id l then Some l else best
         | None => Some l
         end
       else best)
    ls None.

(** The value of [unit_latest_rent] for one unit: the latest lease's rent
    column, or 0 when there is no lease. *)
Definition latest_rent (st : db) (k : Z) : option Float :=
  match latest_lease k (leases st) with
  | Some l => Lease.monthly_rent l
  | None => Some (float_of_int 0)
  end.

Definition unit_latest_rent (st : db) : gmap Z (option Float) :=
  fold_left (fun m u => <[Unit.id u := latest_rent st (Unit.id u)]> m)
    (units st) ∅.

(** What [dashboard] computes for the template from [Lease.query.all()]
    in the order [ls] the store returns it. *)
Record dashboard_data := DashboardData {
  dash_balances : list balance_entry;
  dash_unit_balances : gmap Integer Float;
  dash_unit_tenants : gmap Integer (option string);
  dash_unit_latest_rent : gmap Z (option Float) }.

Definition dashboard (st : db) (today : date) (ls : list Lease.t)
  : dashboard_data :=
  let b := compute_balances st today ls in
  DashboardData b.1 b.2 (unit_tenants st ls) (unit_latest_rent st).

End Dashboard.

Section Authentication.
Context {R : Runtime}.

(** ** Authentication

    The login handlers return the response and the principal handed to
    [login_user], if any.  A [next] query argument only changes where the
    redirect after a login points. *)

(** [Model.query.filter_by(username=name).first()]; a missing form field
    compares against NULL and finds nothing. *)
Definition user_by_username (name : option string) (tbl : list User.t)
  : option User.t :=
  match name with
  | Some n => List.find (fun u => String.eqb (User.username u) n) tbl
  | None => None
  end.

Definition tenant_user_by_username (name : option string)
    (tbl : list TenantUser.t) : option TenantUser.t :=
  match name with
  | Some n => List.find (fun u => String.eqb (TenantUser.username u) n) tbl
  | None => None
  end.

Definition tenant_user_by_email (e : option string) (tbl : list TenantUser.t)
  : option TenantUser.t :=
  match e with
  | Some n => List.find (fun u => String.eqb (TenantUser.email u) n) tbl
  | None => None
  end.

(** [account.check_password(password)]; hashing [None] raises. *)
Definition check_password (pwhash : string) (password : option string)
  : option bool :=
  check_password_hash pwhash <$> password.

Definition login (req : request) (st : db) : response * option principal :=
  match method req with
  | GET => (Template "login.html" None, None)
  | POST =>
    match user_by_username (form req !! "username") (users st) with
    | None => (Template "login.html" (Some (Flash "Invalid credentials.")), None)
    | Some user =>
      match check_password (User.password_hash user) (form req !! "password") with
      | None => (ServerError, None)
      | Some true =>
        (Redirect "dashboard" (Some (Flash "Logged in.")), Some (Admin user))
      | Some false =>
        (Template "login.html" (Some (Flash "Invalid credentials.")), None)
      end
    end
  end.

Definition tenant_login (req : request) (st : db)
  : response * option principal :=
  match method req with
  | GET => (Template "tenant_login.html" None, None)
  | POST =>
    match tenant_user_by_username (form req !! "username") (tenant_users st) with
    | None =>
      (Template "tenant_login.html" (Some (Flash "Invalid credentials.")), None)
    | Some tenant =>
      match check_password (TenantUser.password_hash tenant)
              (form req !! "password") with
      | None => (ServerError, None)
      | Some true =>
        (Redirect "dashboard" (Some (Flash "Logged in as tenant.")),
         Some (TenantAccount tenant))
      | Some false =>
        (Template "tenant_login.html" (Some (Flash "Invalid credentials.")), None)
      end
    end
  end.

Definition admin_autologin (req : request) (st : db)
  : response * option principal :=
  let pw := form req !! "password" in
  if negb (truthy pw) then (Json 400 false "Password required.", None)
  else if bool_decide (pw = Some "admin1234") then
    match user_by_username (Some "admin") (users st) with
    | Some admin => (Json 200 true "", Some (Admin admin))
    | None => (Json 404 false "Admin user not found.", None)
    end
  else (Json 401 false "Incorrect password.", None).

Definition set_user_password (h : string) (u : User.t) : User.t :=
  User.Build (User.id u) (User.username u) h.

Definition change_password (c : caller) (req : request) (st : db)
  : response * db :=
  match method req with
  | GET => (Template "change_password.html" None, st)
  | POST =>
    let new := form req !! "new_password" in
    let confirm := form req !! "confirm_password" in
    (* the anonymous user has no [check_password] *)
    match c with
    | None => (ServerError, st)
    | Some p =>
      match check_password (principal_hash p) (form req !! "current_password") with
      | None => (ServerError, st)
      | Some false =>
        (Redirect "change_password" (Some (Flash "Current password is incorrect.")),
         st)
      | Some true =>
        if negb (bool_decide (new = confirm)) then
          (Redirect "change_password" (Some (Flash "New passwords do not match.")),
           st)
        else
        match new with
        | None => (ServerError, st)
        | Some new =>
          if (String.length new <? 6)%nat then
            (Redirect "change_password"
               (Some (Flash "New password must be at least 6 characters.")), st)
          else
          (* u = User.query.get(current_user.id); u.set_password(new) *)
          match query_get (principal_id p) (users st) with
          | None => (ServerError, st)
          | Some u =>
            (Redirect "dashboard" (Some (Flash "Password changed successfully.")),
             Db _ (update (User.id u)
                     (set_user_password (generate_password_hash (salt req) new))
                     (users st))
               (tenant_users st) (properties st) (units st) (tenants st)
               (leases st) (payments st) (maintenance_requests st)
               (lease_requests st) (emergency_contacts st))
          end
        end
      end
    end
  end.

Definition tenant_signup (req : request) (st : db) : response * db :=
  match method req with
  | GET => (Template "tenant_signup.html" None, st)
  | POST =>
    let username := form req !! "username" in
    let email := form req !! "email" in
    let password := form req !! "password" in
    let confirm := form req !! "confirm_password" in
    match username, email, password with
    | Some (String _ _ as username'), Some (String _ _ as email'),
      Some (String _ _ as password') =>
      if negb (bool_decide (password = confirm)) then
        (Redirect "tenant_signup" (Some (Flash "Passwords do not match.")), st)
      else if (String.length password' <? 6)%nat then
        (Redirect "tenant_signup"
           (Some (Flash "Password must be at least 6 characters.")), st)
      else if bool_decide
                (is_Some (tenant_user_by_username username (tenant_users st))) then
        (Redirect "tenant_signup" (Some (Flash "Username already exists.")), st)
      else if bool_decide
                (is_Some (tenant_user_by_email email (tenant_users st))) then
        (Redirect "tenant_signup" (Some (Flash "Email already registered.")), st)
      else
        let tenant_user :=
          TenantUser.Build (next_id (tenant_users st)) username' email'
            (generate_password_hash (salt req) password')
            (form req !! "phone") (utcnow req) in
        (Redirect "tenant_login" (Some (Flash "Account created! Please log in.")),
         Db _ (users st) (tenant_users st ++ [tenant_user]) (properties st)
           (units st) (tenants st) (leases st) (payments st)
           (maintenance_requests st) (lease_requests st)
           (emergency_contacts st))
    | _, _, _ =>
      (Redirect "tenant_signup"
         (Some (Flash "Username, email, and password are required.")), st)
    end
  end.

End Authentication.

Section Records.
Context {R : Runtime}.

(** ** Tenants, leases, payments, maintenance requests, emergency contacts *)

(** A Date column assigned [field or None]: the outer [None] is a flush that
    raises. *)
Definition bind_date_field (field : option string) : option (option date) :=
  match or_None field with
  | Some s => Some <$> bind_Date s
  | None => Some None
  end.

(** An Integer column assigned an optional form field. *)
Definition bind_integer_field (field : option string) : Integer :=
  match field with Some s => bind_Integer s | None => Null end.

(** [float(field or 0)]; [None] when [float] raises. *)
Definition float_field (field : option string) : option Float :=
  match or_None field with
  | Some s => py_float s
  | None => Some (float_of_int 0)
  end.

(** A float assigned to a Float column, as read back: a NaN is kept as
    NULL. *)
Definition store_Float (x : Float) : option Float :=
  if is_nan x then None else Some x.

Definition with_tenants (st : db) (tbl : list Tenant.t) : db :=
  Db _ (users st) (tenant_users st) (properties st) (units st) tbl (leases st)
    (payments st) (maintenance_requests st) (lease_requests st)
    (emergency_contacts st).

Definition with_maintenance_requests (st : db) (tbl : list MaintenanceRequest.t)
  : db :=
  Db _ (users st) (tenant_users st) (properties st) (units st) (tenants st)
    (leases st) (payments st) tbl (lease_requests st) (emergency_contacts st).

Definition with_emergency_contacts (st : db) (tbl : list EmergencyContact.t)
  : db :=
  Db _ (users st) (tenant_users st) (properties st) (units st) (tenants st)
    (leases st) (payments st) (maintenance_requests st) (lease_requests st) tbl.

Definition with_payments (st : db) (tbl : list Payment.t) : db :=
  Db _ (users st) (tenant_users st) (properties st) (units st) (tenants st)
    (leases st) tbl (maintenance_requests st) (lease_requests st)
    (emergency_contacts st).

Definition with_units_leases (st : db) (us : list Unit.t) (ls : list Lease.t)
  : db :=
  Db _ (users st) (tenant_users st) (properties st) us (tenants st) ls
    (payments st) (maintenance_requests st) (lease_requests st)
    (emergency_contacts st).

(** Set the status of the unit a column value points at, if there is one. *)
Definition mark_unit (k : Integer) (s : string) (us : list Unit.t) : list Unit.t :=
  match query_get_col k us with
  | Some u => update (Unit.id u) (set_unit_status s) us
  | None => us
  end.

Definition tenant_create (c : caller) (req : request) (st : db) : response * db :=
  match method req with
  | GET => (Template "tenant_form.html" None, st)
  | POST =>
    match form req !! "name" with
    | None => (Abort 400, st)
    | Some name =>
      let t := Tenant.Build (next_id (tenants st)) name (form req !! "phone")
                 (form req !! "email") in
      (Redirect "tenants_list" (Some (Flash "Tenant created.")),
       with_tenants st (tenants st ++ [t]))
    end
  end.

Definition tenant_edit (c : caller) (tid : Z) (req : request) (st : db)
  : response * db :=
  match query_lookup tid (tenants st) with
  | Overflow => (ServerError, st)
  | Missing => (Abort 404, st)
  | Found tenant =>
    match method req with
    | GET => (Template "tenant_form.html" None, st)
    | POST =>
      match form req !! "name" with
      | None => (Abort 400, st)
      | Some name =>
        (Redirect "tenants_list" (Some (Flash "Tenant updated.")),
         with_tenants st
           (update tid
              (fun t => Tenant.Build (Tenant.id t) name (form req !! "phone")
                          (form req !! "email"))
              (tenants st)))
      end
    end
  end.

(** Deleting a row that others point at through a relationship without a
    delete cascade: the session empties their reference. *)
Definition orphan_leases (tid : Z) (ls : list Lease.t) : list Lease.t :=
  List.map
    (fun l =>
       if bool_decide (Lease.tenant_id l = Int tid)
       then Lease.Build _ (Lease.id l) (Lease.unit_id l) Null (Lease.start_date l)
              (Lease.end_date l) (Lease.monthly_rent l)
       else l) ls.

Definition orphan_payments (lid : Z) (ps : list Payment.t) : list Payment.t :=
  List.map
    (fun p =>
       if bool_decide (Payment.lease_id p = Int lid)
       then Payment.Build _ (Payment.id p) Null (Payment.amount p) (Payment.date p)
       else p) ps.

Definition tenant_delete (c : caller) (tid : Z) (st : db) : response * db :=
  login_required c st
  (if negb (class_is_User c) then
     (Redirect "dashboard"
        (Some (Flash "Admin access only. You cannot delete tenants.")), st)
   else
   match query_lookup tid (tenants st) with
   | Overflow => (ServerError, st)
   | Missing => (Abort 404, st)
   | Found tenant =>
     (Redirect "tenants_list" (Some (Flash "Tenant deleted successfully.")),
      Db _ (users st) (tenant_users st) (properties st) (units st)
        (delete_row tid (tenants st)) (orphan_leases tid (leases st))
        (payments st) (maintenance_requests st) (lease_requests st)
        (emergency_contacts st))
   end).

Definition lease_create (c : caller) (req : request) (st : db) : response * db :=
  match method req with
  | GET => (Template "lease_form.html" None, st)
  | POST =>
    match form req !! "unit_id", form req !! "tenant_id" with
    | Some unit_id, Some tenant_id =>
      match float_field (form req !! "monthly_rent"),
            bind_date_field (form req !! "start_date"),
            bind_date_field (form req !! "end_date") with
      | Some monthly_rent, Some start_date, Some end_date =>
        let lease :=
          Lease.Build _ (next_id (leases st)) (bind_Integer unit_id)
            (bind_Integer tenant_id) start_date end_date
            (store_Float monthly_rent) in
        (Redirect "leases_list" (Some (Flash "Lease created.")),
         with_units_leases st
           (mark_unit (bind_Integer unit_id) "occupied" (units st))
           (leases st ++ [lease]))
      | _, _, _ => (ServerError, st)
      end
    | _, _ => (Abort 400, st)
    end
  end.

Definition lease_edit (c : caller) (lid : Z) (req : request) (st : db)
  : response * db :=
  match query_lookup lid (leases st) with
  | Overflow => (ServerError, st)
  | Missing => (Abort 404, st)
  | Found lease =>
    match method req with
    | GET => (Template "lease_form.html" None, st)
    | POST =>
      match form req !! "unit_id", form req !! "tenant_id" with
      | Some unit_id, Some tenant_id =>
        match float_field (form req !! "monthly_rent"),
              bind_date_field (form req !! "start_date"),
              bind_date_field (form req !! "end_date") with
        | Some monthly_rent, Some start_date, Some end_date =>
          (Redirect "leases_list" (Some (Flash "Lease updated.")),
           with_units_leases st (units st)
             (update lid
                (fun l => Lease.Build _ (Lease.id l) (bind_Integer unit_id)
                            (bind_Integer tenant_id) start_date end_date
                            (store_Float monthly_rent))
                (leases st)))
        | _, _, _ => (ServerError, st)
        end
      | _, _ => (Abort 400, st)
      end
    end
  end.

Definition lease_delete (c : caller) (lid : Z) (st : db) : response * db :=
  login_required c st
  (if negb (class_is_User c) then
     (Redirect "dashboard"
        (Some (Flash "Admin access only. You cannot delete leases.")), st)
   else
   match query_lookup lid (leases st) with
   | Overflow => (ServerError, st)
   | Missing => (Abort 404, st)
   | Found lease =>
     (Redirect "leases_list" (Some (Flash "Lease deleted.")),
      Db _ (users st) (tenant_users st) (properties st)
        (mark_unit (Lease.unit_id lease) "vacant" (units st)) (tenants st)
        (delete_row lid (leases st)) (orphan_payments lid (payments st))
        (maintenance_requests st) (lease_requests st) (emergency_contacts st))
   end).

Definition payment_create (c : caller) (req : request) (st : db)
  : response * db :=
  match method req with
  | GET => (Template "payment_form.html" None, st)
  | POST =>
    match form req !! "lease_id", form req !! "amount" with
    | Some lease_id, Some amount =>
      match float_field (Some amount) ≫= store_Float with
      | None =>
        (* float() raises, or the commit refuses NULL in a NOT NULL column *)
        (ServerError, st)
      | Some amount =>
        let p := Payment.Build _ (next_id (payments st)) (bind_Integer lease_id)
                   amount (utcnow req) in
        (Redirect "payments_list" (Some (Flash "Payment logged.")),
         with_payments st (payments st ++ [p]))
      end
    | _, _ => (Abort 400, st)
    end
  end.

Definition maintenance_create (c : caller) (req : request) (st : db)
  : response * db :=
  match method req with
  | GET => (Template "maintenance_form.html" None, st)
  | POST =>
    let mr :=
      MaintenanceRequest.Build (next_id (maintenance_requests st))
        (bind_integer_field (form req !! "unit_id")) (form req !! "description")
        (Some "open") (utcnow req) in
    (Redirect "maintenance_list" (Some (Flash "Maintenance request created.")),
     with_maintenance_requests st (maintenance_requests st ++ [mr]))
  end.

Definition maintenance_edit (c : caller) (mid : Z) (req : request) (st : db)
  : response * db :=
  match query_lookup mid (maintenance_requests st) with
  | Overflow => (ServerError, st)
  | Missing => (Abort 404, st)
  | Found _ =>
    match method req with
    | GET => (Template "maintenance_form.html" None, st)
    | POST =>
      (Redirect "maintenance_list" (Some (Flash "Maintenance request updated.")),
       with_maintenance_requests st
         (update mid
            (fun m => MaintenanceRequest.Build (MaintenanceRequest.id m)
                        (MaintenanceRequest.unit_id m) (form req !! "description")
                        (form req !! "status") (MaintenanceRequest.created_at m))
            (maintenance_requests st)))
    end
  end.

Definition maintenance_delete (c : caller) (mid : Z) (st : db) : response * db :=
  login_required c st
  (if negb (class_is_User c) then
     (Redirect "dashboard"
        (Some (Flash "Admin access only. You cannot delete maintenance requests.")),
      st)
   else
   match query_lookup mid (maintenance_requests st) with
   | Overflow => (ServerError, st)
   | Missing => (Abort 404, st)
   | Found _ =>
     (Redirect "maintenance_list"
        (Some (Flash "Maintenance request deleted successfully.")),
      with_maintenance_requests st (delete_row mid (maintenance_requests st)))
   end).

Definition emergency_contact_create (c : caller) (req : request) (st : db)
  : response * db :=
  match method req with
  | GET => (Template "emergency_contact_form.html" None, st)
  | POST =>
    let ec :=
      EmergencyContact.Build (next_id (emergency_contacts st))
        (form req !! "unit_identifier") (form req !! "name")
        (form req !! "phone") in
    (Redirect "emergency_contacts_list" (Some (Flash "Emergency contact added.")),
     with_emergency_contacts st (emergency_contacts st ++ [ec]))
  end.

Definition emergency_contact_edit (c : caller) (cid : Z) (req : request) (st : db)
  : response * db :=
  match query_lookup cid (emergency_contacts st) with
  | Overflow => (ServerError, st)
  | Missing => (Abort 404, st)
  | Found _ =>
    match method req with
    | GET => (Template "emergency_contact_form.html" None, st)
    | POST =>
      (Redirect "emergency_contacts_list"
         (Some (Flash "Emergency contact updated.")),
       with_emergency_contacts st
         (update cid
            (fun e => EmergencyContact.Build (EmergencyContact.id e)
                        (form req !! "unit_identifier") (form req !! "name")
                        (form req !! "phone"))
            (emergency_contacts st)))
    end
  end.

Definition emergency_contact_delete (c : caller) (cid : Z) (st : db)
  : response * db :=
  match query_lookup cid (emergency_contacts st) with
  | Overflow => (ServerError, st)
  | Missing => (Abort 404, st)
  | Found _ =>
    (Redirect "emergency_contacts_list" (Some (Flash "Emergency contact deleted.")),
     with_emergency_contacts st (delete_row cid (emergency_contacts st)))
  end.

End Records.

Section Operations.
Context {R : Runtime}.

(** ** The handlers that write to the store *)

Inductive operation :=
| ApproveBookingRequest (request_id : Z)
| RejectBookingRequest (request_id : Z)
| PurgeRejectedRequests (outcome : persistence)
| BookUnit
| TenantSignup
| ChangePassword
| MaintenanceCreate
| MaintenanceEdit (mid : Z)
| MaintenanceDelete (mid : Z)
| EmergencyContactCreate
| EmergencyContactEdit (cid : Z)
| EmergencyContactDelete (cid : Z)
| TenantCreate
| TenantEdit (tid : Z)
| TenantDelete (tid : Z)
| LeaseCreate
| LeaseEdit (lid : Z)
| LeaseDelete (lid : Z)
| PaymentCreate.

(** Route dispatch. *)
Definition handle (o : operation) (c : caller) (req : request) (st : db)
  : response * db :=
  match o with
  | ApproveBookingRequest k => approve_booking_request c k st
  | RejectBookingRequest k => reject_booking_request c k st
  | PurgeRejectedRequests outcome => purge_rejected_requests c outcome st
  | BookUnit => book_unit c req st
  | TenantSignup => tenant_signup req st
  | ChangePassword => change_password c req st
  | MaintenanceCreate => maintenance_create c req st
  | MaintenanceEdit k => maintenance_edit c k req st
  | MaintenanceDelete k => maintenance_delete c k st
  | EmergencyContactCreate => emergency_contact_create c req st
  | EmergencyContactEdit k => emergency_contact_edit c k req st
  | EmergencyContactDelete k => emergency_contact_delete c k st
  | TenantCreate => tenant_create c req st
  | TenantEdit k => tenant_edit c k req st
  | TenantDelete k => tenant_delete c k st
  | LeaseCreate => lease_create c req st
  | LeaseEdit k => lease_edit c k req st
  | LeaseDelete k => lease_delete c k st
  | PaymentCreate => payment_create c req st
  end.

(** The handlers declared without [@login_required] and without a role
    test in their body that add, change or remove tenants, leases,
    payments, maintenance requests and emergency contacts. *)
Definition unguarded (o : operation) : bool :=
  match o with
  | TenantCreate | TenantEdit _ | LeaseCreate | LeaseEdit _ | PaymentCreate
  | MaintenanceCreate | MaintenanceEdit _ | EmergencyContactCreate
  | EmergencyContactEdit _ | EmergencyContactDelete _ => true
  | _ => false
  end.

(** A response that turns the caller away for who they are. *)
Definition denies (r : response) : bool :=
  match r with
  | LoginRedirect => true
  | Json code _ _ => (code =? 401) || (code =? 403)
  | Abort code => (code =? 401) || (code =? 403)
  | Redirect _ (Some (Flash m)) => String.prefix "Admin access only" m
  | _ => false
  end.

End Operations.

(** ** A runtime to evaluate the handlers on

    Numbers are exact integers, [int] and [str] read and write decimal
    numerals, dates are read as YYYY-MM-DD, a password hash is the salt, a
    dollar sign and the password, a Date column refuses a string and no
    number is a NaN. *)

Definition decimal_str (n : Z) : string :=
  DecimalString.NilEmpty.string_of_int (Z.to_int n).

Definition decimal_int (s : string) : option Z :=
  Z.of_int <$> DecimalString.NilEmpty.int_of_string s.

Definition field_nat (s : string) : option Z :=
  match s with
  | EmptyString => None
  | _ => (fun u => Z.of_int (Decimal.Pos u)) <$> DecimalString.NilEmpty.uint_of_string s
  end.

Definition iso_date (s : string) : option date :=
  if negb (String.length s =? 10)%nat then None
  else if negb (String.eqb (substring 4 1 s) "-" && String.eqb (substring 7 1 s) "-")
  then None
  else
    y ← field_nat (substring 0 4 s);
    m ← field_nat (substring 5 2 s);
    d ← field_nat (substring 8 2 s);
    if (1 <=? m) && (m <=? 12) && (1 <=? d) && (d <=? 31)
    then Some (Date y m d) else None.

Fixpoint after_dollar (s : string) : option string :=
  match s with
  | EmptyString => None
  | String c rest => if Ascii.eqb c "$"%char then Some rest else after_dollar rest
  end.

#[global, refine] Instance exact_runtime : Runtime := {|
  Float := Z;
  float_of_int := fun n => n;
  fadd := Z.add;
  fsub := Z.sub;
  fmul := Z.mul;
  py_int := decimal_int;
  py_str := decimal_str;
  py_float := decimal_int;
  fromisoformat := iso_date;
  generate_password_hash := fun salt pw => String.append salt (String "$"%char pw);
  check_password_hash := fun h pw =>
    match after_dollar h with Some p => String.eqb p pw | None => false end;
  bind_Integer := fun s =>
    match decimal_int s with Some n => Int n | None => Raw s end;
  bind_Date := fun _ => None;
  is_nan := fun _ => false
|}.
Proof.
  - intros n. unfold decimal_int, decimal_str.
    rewrite DecimalString.NilEmpty.isi. simpl. f_equal. apply DecimalZ.of_to.
  - intros c s Hc. unfold decimal_int.
    destruct c as [[] [] [] [] [] [] [] []]; try discriminate Hc; cbn;
      destruct (DecimalString.NilEmpty.uint_of_string s); reflexivity.
Defined.

(** ** Sample data *)

Module Sample.

Definition noon (d : date) : datetime := DateTime d 43200.

Definition admin : User.t := User.Build 1 "admin" "pepper$admin1234".

Definition account : TenantUser.t :=
  TenantUser.Build 7 "tenant" "tenant@example.com" "pepper$tenant123" None
    (noon (Date 2025 1 10)).

Definition room1 : Unit.t := Unit.Build 1 "Room 1" (Some "occupied") (Int 1).
Definition room5 : Unit.t := Unit.Build 5 "Room 5" (Some "vacant") (Int 1).

Definition juan : Tenant.t :=
  Tenant.Build 1 "Juan Dela Cruz" (Some "09171234567") (Some "juan@example.com").
Definition maria : Tenant.t :=
  Tenant.Build 2 "Maria Santos" (Some "09187654321") (Some "maria@example.com").

Definition lease1 : Lease.t (R := exact_runtime) :=
  Lease.Build _ 1 (Int 1) (Int 1) (Some (Date 2025 3 15)) (Some (Date 2026 3 15))
    (Some 5000).
Definition lease2 : Lease.t (R := exact_runtime) :=
  Lease.Build _ 2 (Int 1) (Int 2) (Some (Date 2025 5 1)) (Some (Date 2026 5 1))
    (Some 6500).

Definition payment1 : Payment.t (R := exact_runtime) :=
  Payment.Build _ 1 (Int 1) 5000 (noon (Date 2025 4 1)).
Definition payment2 : Payment.t (R := exact_runtime) :=
  Payment.Build _ 2 (Int 1) 3000 (noon (Date 2025 5 1)).

Definition pending_request : LeaseRequest.t :=
  LeaseRequest.Build 1 5 7 (Some (Date 2025 7 1)) (Some (Date 2026 7 1))
    "first floor" "pending" (noon (Date 2025 6 1)).
Definition rejected_request : LeaseRequest.t :=
  LeaseRequest.Build 2 5 7 (Some (Date 2025 8 1)) (Some (Date 2026 8 1))
    "" "rejected" (noon (Date 2025 6 2)).

Definition contact : EmergencyContact.t :=
  EmergencyContact.Build 1 (Some "Room 1") (Some "Juan Dela Cruz")
    (Some "09171234567").

Definition ticket : MaintenanceRequest.t :=
  MaintenanceRequest.Build 1 (Int 1) (Some "Leaky faucet") (Some "open")
    (noon (Date 2025 6 3)).

Definition store : db (R := exact_runtime) :=
  Db _ [admin] [account] [Property.Build 1 "Greenfield Heights" (Some "123 Main St")]
    [room1; room5] [juan; maria] [lease1; lease2] [payment1; payment2] [ticket]
    [pending_request; rejected_request] [contact].

Definition today : date := Date 2025 6 15.

Definition post (fields : list (string * string)) : request :=
  Request POST (list_to_map fields) (noon today) "salt".

End Sample.

(** ** Listings and seeding *)

(** [a <= b] on [datetime] values: by year, month, day, then time of day. *)
Definition datetime_leb (a b : datetime) : bool :=
  match year (date_part a) ?= year (date_part b) with
  | Lt => true
  | Gt => false
  | Eq =>
    match month (date_part a) ?= month (date_part b) with
    | Lt => true
    | Gt => false
    | Eq =>
      match day (date_part a) ?= day (date_part b) with
      | Lt => true
      | Gt => false
      | Eq => time_part a <=? time_part b
      end
    end
  end.

(** [order_by(LeaseRequest.created_at.desc())]: newest first; rows with
    equal timestamps stay in table order. *)
Fixpoint insert_newest_first (r : LeaseRequest.t) (rows : list LeaseRequest.t)
  : list LeaseRequest.t :=
  match rows with
  | [] => [r]
  | x :: rest =>
    if datetime_leb (LeaseRequest.created_at x) (LeaseRequest.created_at r)
    then r :: x :: rest
    else x :: insert_newest_first r rest
  end.

Definition order_by_created_at_desc (rows : list LeaseRequest.t)
  : list LeaseRequest.t :=
  fold_right insert_newest_first [] rows.

Section Listings.
Context {R : Runtime}.

(** The administrator's booking-request screen: the response and the rows
    given to the template. *)
Definition booking_requests (c : caller) (st : db)
  : response * list LeaseRequest.t :=
  login_required c []
  (if negb (is_admin_user c) then
     (Redirect "dashboard" (Some (Flash "Admin access only.")), [])
   else
     (Template "booking_requests.html" None,
      order_by_created_at_desc
        (List.filter (fun r => negb (is_rejected r)) (lease_requests st)))).

(** One entry of [available_units]. *)
Record available_unit := AvailableUnit {
  available_unit_row : Unit.t;
  available_monthly_rent : option Float;
  available_property_name : string }.

(** [unit.property] *)
Definition unit_property (st : db) (u : Unit.t) : option Property.t :=
  query_get_col (Unit.property_id u) (properties st).

(** The tenant half of [dashboard]: the vacant units, each with
    [unit_latest_rent.get(unit.id, 0)] and its property's name. *)
Definition available_units (st : db) : list available_unit :=
  flat_map
    (fun u =>
       if col_eqb (Unit.status u) "vacant" then
         [AvailableUnit u
            (default (Some (float_of_int 0)) (unit_latest_rent st !! Unit.id u))
            (match unit_property st u with
             | Some p => Property.name p
             | None => "Unknown"
             end)]
       else [])
    (units st).

(** What [init_db] draws from its environment: the clock, the date a year
    (365 days) from now, and the salts of the two password hashes. *)
Record seed_env := SeedEnv {
  seed_now : datetime;
  seed_next_year : date;
  seed_admin_salt : string;
  seed_tenant_salt : string }.

(** The first block of [init_db], run when there is no property yet. *)
Definition seed_properties (env : seed_env) (st : db) : db :=
  let today := date_part (seed_now env) in
  let ps0 := properties st in
  let p1 := Property.Build (next_id ps0) "Greenfield Heights" (Some "123 Main St") in
  let ps1 := ps0 ++ [p1] in
  let p2 := Property.Build (next_id ps1) "Sunrise Residences" (Some "456 Oak Ave") in
  let ps2 := ps1 ++ [p2] in
  let p3 := Property.Build (next_id ps2) "Urban Plaza Apts" (Some "789 Pine Blvd") in
  let ps3 := ps2 ++ [p3] in
  let p4 := Property.Build (next_id ps3) "Riverside Towers" (Some "321 Elm Way") in
  let ps4 := ps3 ++ [p4] in
  let room (i : Z) := String.append "Room " (py_str i) in
  let us0 := units st in
  let u1 := Unit.Build (next_id us0) (room 1) (Some "vacant") (Int (Property.id p1)) in
  let us1 := us0 ++ [u1] in
  let u2 := Unit.Build (next_id us1) (room 2) (Some "vacant") (Int (Property.id p2)) in
  let us2 := us1 ++ [u2] in
  let u3 := Unit.Build (next_id us2) (room 3) (Some "vacant") (Int (Property.id p3)) in
  let us3 := us2 ++ [u3] in
  let u4 := Unit.Build (next_id us3) (room 4) (Some "vacant") (Int (Property.id p4)) in
  let us4 := us3 ++ [u4] in
  let ts0 := tenants st in
  let t1 := Tenant.Build (next_id ts0) "Juan Dela Cruz" (Some "09171234567")
              (Some "juan@example.com") in
  let ts1 := ts0 ++ [t1] in
  let t2 := Tenant.Build (next_id ts1) "Maria Santos" (Some "09187654321")
              (Some "maria@example.com") in
  let ts2 := ts1 ++ [t2] in
  let us5 := update (Unit.id u1) (set_unit_status "occupied") us4 in
  let ls0 := leases st in
  let lease1 := Lease.Build _ (next_id ls0) (Int (Unit.id u1)) (Int (Tenant.id t1))
                  (Some today) (Some (seed_next_year env))
                  (Some (float_of_int 5000)) in
  let ls1 := ls0 ++ [lease1] in
  let us6 := update (Unit.id u4) (set_unit_status "occupied") us5 in
  let lease2 := Lease.Build _ (next_id ls1) (Int (Unit.id u4)) (Int (Tenant.id t2))
                  (Some today) (Some (seed_next_year env))
                  (Some (float_of_int 6500)) in
  let ls2 := ls1 ++ [lease2] in
  let manager (i : Z) := String.append "Property Manager " (py_str i) in
  let manager_phone (i : Z) := String.append "0917123456" (py_str i) in
  let es0 := emergency_contacts st in
  let e1 := EmergencyContact.Build (next_id es0) (Some (room 1))
              (Some (Tenant.name t1)) (Tenant.phone t1) in
  let es1 := es0 ++ [e1] in
  let e2 := EmergencyContact.Build (next_id es1) (Some (room 2))
              (Some (manager 2)) (Some (manager_phone 2)) in
  let es2 := es1 ++ [e2] in
  let e3 := EmergencyContact.Build (next_id es2) (Some (room 3))
              (Some (manager 3)) (Some (manager_phone 3)) in
  let es3 := es2 ++ [e3] in
  let e4 := EmergencyContact.Build (next_id es3) (Some (room 4))
              (Some (manager 4)) (Some (manager_phone 4)) in
  let es4 := es3 ++ [e4] in
  let mr := MaintenanceRequest.Build (next_id (maintenance_requests st))
              (Int (Unit.id u4))
              (Some "Leaky faucet reported in Room 4. Needs plumbing attention.")
              (Some "open") (seed_now env) in
  Db _ (users st) (tenant_users st) ps4 us6 ts2 ls2 (payments st)
    (maintenance_requests st ++ [mr]) (lease_requests st) es4.

(** The second block: the administrator account, unless one is named admin. *)
Definition seed_admin (env : seed_env) (st : db) : db :=
  match user_by_username (Some "admin") (users st) with
  | Some _ => st
  | None =>
    let admin :=
      User.Build (next_id (users st)) "admin"
        (generate_password_hash (seed_admin_salt env) "admin1234") in
    Db _ (users st ++ [admin]) (tenant_users st) (properties st) (units st)
      (tenants st) (leases st) (payments st) (maintenance_requests st)
      (lease_requests st) (emergency_contacts st)
  end.

(** The third block: the demonstration tenant account, unless one is named
    tenant.  The email column is unique: with the address taken by another
    account the insert raises and the command stops ([true]), what the
    earlier blocks committed staying in the store. *)
Definition seed_tenant_user (env : seed_env) (st : db) : db * bool :=
  match tenant_user_by_username (Some "tenant") (tenant_users st) with
  | Some _ => (st, false)
  | None =>
    match tenant_user_by_email (Some "tenant@example.com") (tenant_users st) with
    | Some _ => (st, true)
    | None =>
      let tenant_user :=
        TenantUser.Build (next_id (tenant_users st)) "tenant" "tenant@example.com"
          (generate_password_hash (seed_tenant_salt env) "tenant123") None
          (seed_now env) in
      (Db _ (users st) (tenant_users st ++ [tenant_user]) (properties st)
         (units st) (tenants st) (leases st) (payments st)
         (maintenance_requests st) (lease_requests st) (emergency_contacts st),
       false)
    end
  end.

(** The [init-db] command: the store it leaves and whether it raised. *)
Definition init_db (env : seed_env) (st : db) : db * bool :=
  let st1 := match properties st with
             | [] => seed_properties env st
             | _ :: _ => st
             end in
  seed_tenant_user env (seed_admin env st1).

(** A submission that passes every test of [book_unit]. *)
Definition booking_accepted (req : request) (st : db) (uid : Z) (sd ed : date)
  : Prop :=
  exists su unit ss es,
    form req !! "unit_id" = Some su /\ py_int su = Some uid /\ uid <> 0
    /\ query_get uid (units st) = Some unit
    /\ Unit.status unit = Some "vacant"
    /\ form req !! "start_date" = Some ss /\ ss <> EmptyString
    /\ fromisoformat ss = Some sd
    /\ form req !! "end_date" = Some es /\ es <> EmptyString
    /\ fromisoformat es = Some ed.

(** The request row [book_unit] stores for an accepted submission. *)
Definition booked_request (req : request) (st : db) (t : TenantUser.t) (uid : Z)
    (sd ed : date) : LeaseRequest.t :=
  LeaseRequest.Build (next_id (lease_requests st)) uid (TenantUser.id t)
    (Some sd) (Some ed) (default EmptyString (form req !! "notes")) "pending"
    (utcnow req).

(** Every table has pairwise distinct primary keys. *)
Definition keys_unique (st : db) : Prop :=
  NoDup (pk <$> users st)
  /\ NoDup (pk <$> tenant_users st)
  /\ NoDup (pk <$> properties st)
  /\ NoDup (pk <$> units st)
  /\ NoDup (pk <$> tenants st)
  /\ NoDup (pk <$> leases st)
  /\ NoDup (pk <$> payments st)
  /\ NoDup (pk <$> maintenance_requests st)
  /\ NoDup (pk <$> lease_requests st)
  /\ NoDup (pk <$> emergency_contacts st).

(** The handlers that only an administrator may run. *)
Definition admin_only (o : operation) : bool :=
  match o with
  | ApproveBookingRequest _ | RejectBookingRequest _ | PurgeRejectedRequests _
  | MaintenanceDelete _ | TenantDelete _ | LeaseDelete _ => true
  | _ => false
  end.

End Listings.

(** * Properties *)

(** ** Tables *)

Section Tables.
Context {A : Type} `{Model A}.

Lemma query_get_Some (k : Z) (tbl : list A) (r : A) :
  query_get k tbl = Some r -> In r tbl /\ pk r = k.
Proof.
  unfold query_get. intros Hf. apply find_some in Hf as [Hin Hk].
  split; [assumption | lia].
Qed.

Lemma query_get_None (k : Z) (tbl : list A) :
  query_get k tbl = None -> forall r, In r tbl -> pk r <> k.
Proof.
  unfold query_get. intros Hf r Hin Hk.
  pose proof (find_none _ _ Hf r Hin) as Hn. simpl in Hn. lia.
Qed.

Lemma next_id_above (tbl : list A) (r : A) : In r tbl -> pk r < next_id tbl.
Proof.
  unfold next_id. induction tbl as [|x tbl IH]; simpl; [tauto|].
  intros [-> | Hin]; [lia|]. specialize (IH Hin). lia.
Qed.

Lemma next_id_fresh (tbl : list A) : query_get (next_id tbl) tbl = None.
Proof.
  destruct (query_get (next_id tbl) tbl) as [r|] eqn:E; [|reflexivity].
  apply query_get_Some in E as [Hin Hk].
  pose proof (next_id_above tbl r Hin). lia.
Qed.

Lemma query_get_app (k : Z) (tbl : list A) (x : A) :
  query_get k (tbl ++ [x]) =
  match query_get k tbl with
  | Some r => Some r
  | None => if pk x =? k then Some x else None
  end.
Proof.
  unfold query_get. induction tbl as [|y tbl IH]; simpl; [reflexivity|].
  destruct (pk y =? k); [reflexivity | exact IH].
Qed.

Lemma query_get_app_Some (k : Z) (tbl : list A) (x r : A) :
  query_get k tbl = Some r -> query_get k (tbl ++ [x]) = Some r.
Proof. intros E. rewrite query_get_app, E. reflexivity. Qed.

Lemma query_get_update_ne (k k' : Z) (f : A -> A) (tbl : list A) :
  (forall r, pk (f r) = pk r) -> k <> k' ->
  query_get k (update k' f tbl) = query_get k tbl.
Proof.
  intros Hf Hne. unfold query_get, update.
  induction tbl as [|y tbl IH]; simpl; [reflexivity|].
  destruct (pk y =? k') eqn:E.
  - rewrite Hf. apply Z.eqb_eq in E.
    destruct (pk y =? k) eqn:E'; [lia | exact IH].
  - destruct (pk y =? k); [reflexivity | exact IH].
Qed.

Lemma query_get_update_eq (k : Z) (f : A -> A) (tbl : list A) :
  (forall r, pk (f r) = pk r) ->
  query_get k (update k f tbl) = f <$> query_get k tbl.
Proof.
  intros Hf. unfold query_get, update.
  induction tbl as [|y tbl IH]; simpl; [reflexivity|].
  destruct (pk y =? k) eqn:E.
  - rewrite Hf, E. reflexivity.
  - rewrite E. exact IH.
Qed.

Lemma update_length (k : Z) (f : A -> A) (tbl : list A) :
  length (update k f tbl) = length tbl.
Proof. unfold update. apply length_map. Qed.

Lemma query_get_delete_ne (k k' : Z) (tbl : list A) :
  k <> k' -> query_get k (delete_row k' tbl) = query_get k tbl.
Proof.
  intros Hne. unfold query_get, delete_row.
  induction tbl as [|y tbl IH]; simpl; [reflexivity|].
  destruct (pk y =? k') eqn:E; simpl.
  - destruct (pk y =? k) eqn:E'; [lia | exact IH].
  - destruct (pk y =? k); [reflexivity | exact IH].
Qed.

End Tables.

Lemma query_lookup_Some {A} `{Model A} (k : Z) (tbl : list A) (r : A) :
  query_get k tbl = Some r -> query_lookup k tbl = Found r.
Proof. intros E. unfold query_lookup. rewrite E. reflexivity. Qed.

Lemma query_lookup_Found {A} `{Model A} (k : Z) (tbl : list A) (r : A) :
  query_lookup k tbl = Found r -> query_get k tbl = Some r.
Proof.
  unfold query_lookup. destruct (query_get k tbl); [intros [= ->]; reflexivity|].
  destruct (int64 k); discriminate.
Qed.

Lemma query_lookup_None {A} `{Model A} (k : Z) (tbl : list A) :
  query_get k tbl = None ->
  query_lookup k tbl = if int64 k then Missing else Overflow.
Proof. intros E. unfold query_lookup. rewrite E. reflexivity. Qed.

(** ** Principals *)

Section Principals.
Context {R : Runtime}.

Lemma is_admin_user_Admin (u : User.t) : is_admin_user (Some (Admin u)) = true.
Proof. simpl. destruct (py_str _); reflexivity. Qed.

Lemma is_admin_user_TenantAccount (t : TenantUser.t) :
  is_admin_user (Some (TenantAccount t)) = false.
Proof. reflexivity. Qed.

Lemma is_tenant_user_TenantAccount (t : TenantUser.t) :
  is_tenant_user (Some (TenantAccount t)) = true.
Proof. simpl. destruct (py_str _); reflexivity. Qed.

Lemma is_tenant_user_Admin (u : User.t) : is_tenant_user (Some (Admin u)) = false.
Proof. reflexivity. Qed.

Lemma is_admin_user_inv (c : caller) :
  is_admin_user c = true -> exists u, c = Some (Admin u).
Proof.
  destruct c as [[u|t]|]; [eauto | | ]; intros E.
  - rewrite is_admin_user_TenantAccount in E. discriminate.
  - discriminate.
Qed.

Lemma is_tenant_user_inv (c : caller) :
  is_tenant_user c = true -> exists t, c = Some (TenantAccount t).
Proof.
  destruct c as [[u|t]|]; [ | eauto | ]; intros E.
  - rewrite is_tenant_user_Admin in E. discriminate.
  - discriminate.
Qed.

Lemma tenant_uid_of_TenantAccount (t : TenantUser.t) :
  tenant_uid_of (TenantAccount t) = Some (TenantUser.id t).
Proof. unfold tenant_uid_of. simpl. apply py_int_str. Qed.

End Principals.

(** ** Session restore *)

Lemma load_user_fallback_prefixed {R : Runtime} (st : db) (c : ascii) (s : string) :
  is_letter c = true ->
  load_user_fallback st (String c s) = (Restored None, []).
Proof.
  intros Hc. unfold load_user_fallback. rewrite (py_int_letter c s Hc).
  reflexivity.
Qed.

Lemma load_user_prefixed {R : Runtime} (st : db) (s : string) (n : Z) :
  py_int s = Some n ->
  load_user st (String.append "tenant_" s) =
  (Restored (TenantAccount <$> query_get n (tenant_users st)),
   [QueryTenantUser n])
  /\ load_user st (String.append "user_" s) =
     (Restored (Admin <$> query_get n (users st)), [QueryUser n]).
Proof.
  intros Hs.
  pose proof (load_user_fallback_prefixed st "t" (String.append "enant_" s) eq_refl)
    as Ht.
  pose proof (load_user_fallback_prefixed st "u" (String.append "ser_" s) eq_refl)
    as Hu.
  change (String "t" (String.append "enant_" s)) with (String.append "tenant_" s) in Ht.
  change (String "u" (String.append "ser_" s)) with (String.append "user_" s) in Hu.
  split; unfold load_user; simpl;
    change (String.append EmptyString s) with s; rewrite Hs;
    unfold query_lookup, then_fallback; rewrite ?Ht, ?Hu;
    match goal with |- context [query_get n ?tbl] => destruct (query_get n tbl) end;
    try reflexivity; destruct (int64 n); reflexivity.
Qed.

Lemma load_user_unprefixed {R : Runtime} (st : db) (user_id : string) :
  match split_underscore user_id with
  | None => True
  | Some (prefix, _) => prefix <> "user" /\ prefix <> "tenant"
  end ->
  load_user st user_id = load_user_fallback st user_id.
Proof.
  intros Hprefix. unfold load_user.
  destruct (split_underscore user_id) as [[prefix uid]|]; [|reflexivity].
  destruct Hprefix as [Hu Ht].
  destruct (py_int uid); [|reflexivity].
  destruct (String.eqb_spec prefix "user"); [contradiction|].
  destruct (String.eqb_spec prefix "tenant"); [contradiction|].
  reflexivity.
Qed.

(** The dispatch of [load_user] on the text before the first underscore.
    An identifier ["tenant_" ++ s], with [s] a numeral for [n], looks up
    only the tenant-account table at [n]; ["user_" ++ s] looks up only the
    administrator table at [n]; either restores nobody when the table has
    no such row.  An identifier with no underscore, or with another prefix,
    goes through [int(user_id)]: nobody is restored when it is no numeral;
    otherwise the administrator table is probed first, then, for a key of
    64 bits, the tenant-account table, and nobody is restored when neither
    has the key.  For a numeral that does not fit 64 bits the first probe
    raises, and the exception leaves [load_user] instead of a result. *)
Lemma load_user_dispatch {R : Runtime} (st : db) :
  (forall s n, py_int s = Some n ->
     load_user st (String.append "tenant_" s) =
     (Restored (TenantAccount <$> query_get n (tenant_users st)),
      [QueryTenantUser n]))
  /\ (forall s n, py_int s = Some n ->
     load_user st (String.append "user_" s) =
     (Restored (Admin <$> query_get n (users st)), [QueryUser n]))
  /\ (forall user_id,
       match split_underscore user_id with
       | None => True
       | Some (prefix, _) => prefix <> "user" /\ prefix <> "tenant"
       end ->
       load_user st user_id =
       match py_int user_id with
       | None => (Restored None, [])
       | Some n =>
         match query_get n (users st) with
         | Some user => (Restored (Some (Admin user)), [QueryUser n])
         | None =>
           if (- 2 ^ 63 <=? n) && (n <? 2 ^ 63) then
             (Restored (TenantAccount <$> query_get n (tenant_users st)),
              [QueryUser n; QueryTenantUser n])
           else (Raised, [QueryUser n])
         end
       end).
Proof.
  split; [|split].
  - intros s n Hs. apply (load_user_prefixed st s n Hs).
  - intros s n Hs. apply (load_user_prefixed st s n Hs).
  - intros user_id Hprefix. rewrite (load_user_unprefixed st user_id Hprefix).
    unfold load_user_fallback, query_lookup.
    destruct (py_int user_id) as [n|]; [|reflexivity].
    destruct (query_get n (users st)); [reflexivity|].
    fold (int64 n). destruct (int64 n); [|reflexivity].
    destruct (query_get n (tenant_users st)); reflexivity.
Qed.

(** C6 at a failing input: the session identifier 9223372036854775808 has
    no prefix and is a numeral, so [load_user] goes through
    [int(user_id)].  Neither table has a row with that key, and yet
    [load_user] does not restore nobody: the probe of the administrator
    table raises, outside every [try], and the exception leaves
    [load_user].  The same key behind the prefix user_ or tenant_ restores
    nobody, the probe being inside the [try]; so does, without prefix, the
    largest key of 64 bits; and the identifiers the application stores
    restore their principal with one lookup. *)
Theorem load_user_raises_beyond_int64 :
  split_underscore "9223372036854775808" = None
  /\ query_get 9223372036854775808 (users Sample.store) = None
  /\ query_get 9223372036854775808 (tenant_users Sample.store) = None
  /\ load_user Sample.store "9223372036854775808"
     = (Raised, [QueryUser 9223372036854775808])
  /\ load_user Sample.store "user_9223372036854775808"
     = (Restored None, [QueryUser 9223372036854775808])
  /\ load_user Sample.store "tenant_9223372036854775808"
     = (Restored None, [QueryTenantUser 9223372036854775808])
  /\ load_user Sample.store "9223372036854775807"
     = (Restored None,
        [QueryUser 9223372036854775807; QueryTenantUser 9223372036854775807])
  /\ load_user Sample.store "tenant_7"
     = (Restored (Some (TenantAccount Sample.account)), [QueryTenantUser 7])
  /\ load_user Sample.store "user_1"
     = (Restored (Some (Admin Sample.admin)), [QueryUser 1])
  /\ load_user Sample.store "7"
     = (Restored (Some (TenantAccount Sample.account)),
        [QueryUser 7; QueryTenantUser 7]).
Proof. repeat split; vm_compute; reflexivity. Qed.

(** ** Booking workflow *)

Lemma col_eqb_true (a : option string) (b : string) :
  col_eqb a b = true <-> a = Some b.
Proof.
  destruct a as [x|]; simpl; [|split; discriminate].
  rewrite String.eqb_eq. split; [intros ->; reflexivity | intros [= ->]; reflexivity].
Qed.

Lemma tenant_by_email_Some (e : string) (tbl : list Tenant.t) (t : Tenant.t) :
  tenant_by_email e tbl = Some t -> In t tbl /\ Tenant.email t = Some e.
Proof.
  unfold tenant_by_email. intros Hf. apply find_some in Hf as [Hin He].
  split; [assumption | apply col_eqb_true; assumption].
Qed.

Lemma tenant_by_email_None (e : string) (tbl : list Tenant.t) :
  tenant_by_email e tbl = None ->
  ~ exists t, In t tbl /\ Tenant.email t = Some e.
Proof.
  unfold tenant_by_email. intros Hf (t & Hin & He).
  pose proof (find_none _ _ Hf t Hin) as Hn. simpl in Hn.
  apply col_eqb_true in He. congruence.
Qed.

(** What a committed approval writes, whatever the request's status was. *)
Lemma approve_effect {R : Runtime} (c : caller) (request_id : Z) (st : db)
    (lease_req : LeaseRequest.t) (unit : Unit.t) (account : TenantUser.t) :
  is_admin_user c = true ->
  query_get request_id (lease_requests st) = Some lease_req ->
  query_get (LeaseRequest.unit_id lease_req) (units st) = Some unit ->
  query_get (LeaseRequest.tenant_user_id lease_req) (tenant_users st)
    = Some account ->
  exists (st' : db) (tenant_id : Z),
    approve_booking_request c request_id st
    = (Redirect "booking_requests" (Some (FlashApproved (Unit.number unit))), st')
    /\ units st' = update (LeaseRequest.unit_id lease_req)
                     (set_unit_status "occupied") (units st)
    /\ leases st' =
       leases st ++
       [Lease.Build _ (next_id (leases st)) (Int (LeaseRequest.unit_id lease_req))
          (Int tenant_id) (LeaseRequest.start_date lease_req)
          (LeaseRequest.end_date lease_req) (Some (float_of_int 0))]
    /\ lease_requests st' =
       update request_id (set_request_status "approved") (lease_requests st)
    /\ ((exists t, In t (tenants st)
                   /\ Tenant.email t = Some (TenantUser.email account)) ->
        tenants st' = tenants st
        /\ exists t, In t (tenants st)
                     /\ Tenant.email t = Some (TenantUser.email account)
                     /\ Tenant.id t = tenant_id)
    /\ (~ (exists t, In t (tenants st)
                     /\ Tenant.email t = Some (TenantUser.email account)) ->
        tenant_id = next_id (tenants st)
        /\ tenants st' =
           tenants st ++
           [Tenant.Build tenant_id (TenantUser.username account)
              (TenantUser.phone account) (Some (TenantUser.email account))])
    /\ users st' = users st
    /\ tenant_users st' = tenant_users st
    /\ properties st' = properties st
    /\ payments st' = payments st
    /\ maintenance_requests st' = maintenance_requests st
    /\ emergency_contacts st' = emergency_contacts st.
Proof.
  intros Hadmin Hreq Hunit Hacc.
  destruct (is_admin_user_inv c Hadmin) as [u ->].
  unfold approve_booking_request, login_required.
  rewrite Hadmin, (query_lookup_Some _ _ _ Hreq), Hacc, Hunit. cbn [negb].
  assert (Hk : Unit.id unit = LeaseRequest.unit_id lease_req)
    by (apply query_get_Some in Hunit as [_ Hk]; exact Hk).
  rewrite Hk.
  destruct (tenant_by_email (TenantUser.email account) (tenants st))
    as [t|] eqn:Hfind.
  - apply tenant_by_email_Some in Hfind as [Hin He].
    eexists _, (Tenant.id t). split; [reflexivity|]. cbn.
    do 3 (split; [reflexivity|]).
    split; [intros _; split; [reflexivity | eauto]|].
    split; [intros Hnone; exfalso; apply Hnone; eauto|].
    repeat split.
  - apply tenant_by_email_None in Hfind.
    eexists _, (next_id (tenants st)). split; [reflexivity|]. cbn.
    do 3 (split; [reflexivity|]).
    split; [intros Hsome; contradiction|].
    split; [intros _; split; reflexivity|].
    repeat split.
Qed.

(** C1: approving a pending request whose unit and tenant account exist
    commits, in one step, the unit set to occupied, one new lease for that
    unit with the request's dates and a rent of zero, the request set to
    approved, and a new tenant record only when none carries the account's
    email; every other table and row is as before. *)
Theorem approve_pending_booking_request {R : Runtime} (c : caller)
    (request_id : Z) (st : db) (lease_req : LeaseRequest.t) (unit : Unit.t)
    (account : TenantUser.t) :
  is_admin_user c = true ->
  query_get request_id (lease_requests st) = Some lease_req ->
  LeaseRequest.status lease_req = "pending" ->
  query_get (LeaseRequest.unit_id lease_req) (units st) = Some unit ->
  query_get (LeaseRequest.tenant_user_id lease_req) (tenant_users st)
    = Some account ->
  exists (st' : db) (tenant_id : Z),
    approve_booking_request c request_id st
    = (Redirect "booking_requests" (Some (FlashApproved (Unit.number unit))), st')
    /\ units st' = update (LeaseRequest.unit_id lease_req)
                     (set_unit_status "occupied") (units st)
    /\ Unit.status <$> query_get (LeaseRequest.unit_id lease_req) (units st')
       = Some (Some "occupied")
    /\ leases st' =
       leases st ++
       [Lease.Build _ (next_id (leases st)) (Int (LeaseRequest.unit_id lease_req))
          (Int tenant_id) (LeaseRequest.start_date lease_req)
          (LeaseRequest.end_date lease_req) (Some (float_of_int 0))]
    /\ query_get (next_id (leases st)) (leases st) = None
    /\ lease_requests st' =
       update request_id (set_request_status "approved") (lease_requests st)
    /\ LeaseRequest.status <$> query_get request_id (lease_requests st')
       = Some "approved"
    /\ ((exists t, In t (tenants st)
                   /\ Tenant.email t = Some (TenantUser.email account)) ->
        tenants st' = tenants st
        /\ exists t, In t (tenants st)
                     /\ Tenant.email t = Some (TenantUser.email account)
                     /\ Tenant.id t = tenant_id)
    /\ (~ (exists t, In t (tenants st)
                     /\ Tenant.email t = Some (TenantUser.email account)) ->
        tenant_id = next_id (tenants st)
        /\ tenants st' =
           tenants st ++
           [Tenant.Build tenant_id (TenantUser.username account)
              (TenantUser.phone account) (Some (TenantUser.email account))])
    /\ users st' = users st
    /\ tenant_users st' = tenant_users st
    /\ properties st' = properties st
    /\ payments st' = payments st
    /\ maintenance_requests st' = maintenance_requests st
    /\ emergency_contacts st' = emergency_contacts st.
Proof.
  intros Hadmin Hreq _ Hunit Hacc.
  destruct (approve_effect c request_id st lease_req unit account
              Hadmin Hreq Hunit Hacc)
    as (st' & tenant_id & Hrun & Hu & Hl & Hr & Hold & Hnew & Hrest).
  exists st', tenant_id.
  split; [exact Hrun|]. split; [exact Hu|]. split.
  { rewrite Hu, query_get_update_eq by reflexivity. rewrite Hunit. reflexivity. }
  split; [exact Hl|]. split; [apply next_id_fresh|]. split; [exact Hr|]. split.
  { rewrite Hr, query_get_update_eq by reflexivity. rewrite Hreq. reflexivity. }
  split; [exact Hold|]. split; [exact Hnew | exact Hrest].
Qed.

Lemma approve_pending_booking_request_witness :
  exists st',
    approve_booking_request (Some (Admin Sample.admin)) 1 Sample.store
    = (Redirect "booking_requests" (Some (FlashApproved "Room 5")), st')
    /\ Unit.status <$> query_get 5 (units st') = Some (Some "occupied")
    /\ LeaseRequest.status <$> query_get 1 (lease_requests st') = Some "approved"
    /\ length (leases st') = 3%nat.
Proof.
  destruct (approve_pending_booking_request (Some (Admin Sample.admin)) 1
              Sample.store Sample.pending_request Sample.room5 Sample.account
              eq_refl eq_refl eq_refl eq_refl eq_refl)
    as (st' & tenant_id & Hrun & _ & Hocc & Hl & _ & _ & Happ & _).
  exists st'. split; [exact Hrun|]. split; [exact Hocc|]. split; [exact Happ|].
  rewrite Hl. reflexivity.
Defined.

(** What a committed rejection writes, whatever the request's status was. *)
Lemma reject_effect {R : Runtime} (c : caller) (request_id : Z) (st : db)
    (lease_req : LeaseRequest.t) :
  is_admin_user c = true ->
  query_get request_id (lease_requests st) = Some lease_req ->
  exists st' : db,
    reject_booking_request c request_id st
    = (Redirect "booking_requests" (Some (Flash "Booking request rejected.")), st')
    /\ lease_requests st' =
       update request_id (set_request_status "rejected") (lease_requests st)
    /\ users st' = users st
    /\ tenant_users st' = tenant_users st
    /\ properties st' = properties st
    /\ units st' = units st
    /\ tenants st' = tenants st
    /\ leases st' = leases st
    /\ payments st' = payments st
    /\ maintenance_requests st' = maintenance_requests st
    /\ emergency_contacts st' = emergency_contacts st.
Proof.
  intros Hadmin Hreq.
  destruct (is_admin_user_inv c Hadmin) as [u ->].
  unfold reject_booking_request, login_required.
  rewrite Hadmin, (query_lookup_Some _ _ _ Hreq). cbn [negb].
  eexists. split; [reflexivity|]. cbn. repeat split.
Qed.

(** C8: rejecting an existing request rewrites that request's status to
    rejected and nothing else: the other columns of the row, the other
    requests, and the lease, tenant, unit and remaining tables are as
    before. *)
Theorem reject_changes_only_status {R : Runtime} (c : caller) (request_id : Z)
    (st : db) (lease_req : LeaseRequest.t) :
  is_admin_user c = true ->
  query_get request_id (lease_requests st) = Some lease_req ->
  exists st' : db,
    reject_booking_request c request_id st
    = (Redirect "booking_requests" (Some (Flash "Booking request rejected.")), st')
    /\ query_get request_id (lease_requests st')
       = Some (LeaseRequest.Build (LeaseRequest.id lease_req)
                 (LeaseRequest.unit_id lease_req)
                 (LeaseRequest.tenant_user_id lease_req)
                 (LeaseRequest.start_date lease_req)
                 (LeaseRequest.end_date lease_req) (LeaseRequest.notes lease_req)
                 "rejected" (LeaseRequest.created_at lease_req))
    /\ (forall k, k <> request_id ->
          query_get k (lease_requests st') = query_get k (lease_requests st))
    /\ length (lease_requests st') = length (lease_requests st)
    /\ leases st' = leases st
    /\ tenants st' = tenants st
    /\ units st' = units st
    /\ users st' = users st
    /\ tenant_users st' = tenant_users st
    /\ properties st' = properties st
    /\ payments st' = payments st
    /\ maintenance_requests st' = maintenance_requests st
    /\ emergency_contacts st' = emergency_contacts st.
Proof.
  intros Hadmin Hreq.
  destruct (reject_effect c request_id st lease_req Hadmin Hreq)
    as (st' & Hrun & Hr & Hu & Hta & Hp & Hun & Ht & Hl & Hpay & Hm & He).
  exists st'. split; [exact Hrun|]. split.
  { rewrite Hr, query_get_update_eq by reflexivity. rewrite Hreq. reflexivity. }
  split.
  { intros k Hk. rewrite Hr. apply query_get_update_ne; [reflexivity | exact Hk]. }
  split; [rewrite Hr; apply update_length|].
  repeat split; assumption.
Qed.

Lemma reject_changes_only_status_witness :
  exists st',
    reject_booking_request (Some (Admin Sample.admin)) 1 Sample.store
    = (Redirect "booking_requests" (Some (Flash "Booking request rejected.")), st')
    /\ LeaseRequest.status <$> query_get 1 (lease_requests st') = Some "rejected"
    /\ leases st' = leases Sample.store
    /\ tenants st' = tenants Sample.store
    /\ units st' = units Sample.store.
Proof.
  destruct (reject_changes_only_status (Some (Admin Sample.admin)) 1 Sample.store
              Sample.pending_request eq_refl eq_refl)
    as (st' & Hrun & Hrow & _ & _ & Hl & Ht & Hu & _).
  exists st'. split; [exact Hrun|]. split; [rewrite Hrow; reflexivity|].
  repeat split; assumption.
Defined.

(** C5: the purge removes exactly the rows whose status is rejected, keeps
    every other row (in order) and every other table, and reports as many
    deletions as rows are gone; when the delete or the commit raises,
    nothing is removed and the failure notice is shown. *)
Theorem purge_rejected_requests_exact {R : Runtime} (c : caller) (st : db) :
  is_admin_user c = true ->
  (exists (st' : db) (deleted : nat),
     purge_rejected_requests c Commits st
     = (Redirect "booking_requests" (Some (FlashPurged deleted)), st')
     /\ (forall r, In r (lease_requests st') <->
                   In r (lease_requests st) /\ LeaseRequest.status r <> "rejected")
     /\ lease_requests st' =
        List.filter (fun r => negb (String.eqb (LeaseRequest.status r) "rejected"))
          (lease_requests st)
     /\ (deleted + length (lease_requests st') = length (lease_requests st))%nat
     /\ deleted = length (List.filter is_rejected (lease_requests st))
     /\ users st' = users st
     /\ tenant_users st' = tenant_users st
     /\ properties st' = properties st
     /\ units st' = units st
     /\ tenants st' = tenants st
     /\ leases st' = leases st
     /\ payments st' = payments st
     /\ maintenance_requests st' = maintenance_requests st
     /\ emergency_contacts st' = emergency_contacts st)
  /\ (forall outcome, outcome <> Commits ->
      purge_rejected_requests c outcome st
      = (Redirect "booking_requests"
           (Some (Flash "Error purging rejected requests.")), st)).
Proof.
  intros Hadmin.
  destruct (is_admin_user_inv c Hadmin) as [u ->].
  unfold purge_rejected_requests, login_required. rewrite Hadmin. cbn [negb].
  split; [|intros [] Hne; [contradiction | reflexivity | reflexivity]].
  eexists _, _. split; [reflexivity|]. cbn.
  split.
  { intros r. rewrite filter_In. unfold is_rejected.
    destruct (String.eqb_spec (LeaseRequest.status r) "rejected"); simpl;
      intuition congruence. }
  split; [reflexivity|]. split.
  { induction (lease_requests st) as [|r tbl IH]; simpl; [reflexivity|].
    destruct (is_rejected r); simpl; lia. }
  repeat split.
Qed.

Lemma purge_rejected_requests_exact_witness :
  purge_rejected_requests (Some (Admin Sample.admin)) CommitRaises Sample.store
  = (Redirect "booking_requests"
       (Some (Flash "Error purging rejected requests.")), Sample.store)
  /\ exists st',
       purge_rejected_requests (Some (Admin Sample.admin)) Commits Sample.store
       = (Redirect "booking_requests" (Some (FlashPurged 1)), st')
       /\ lease_requests st' = [Sample.pending_request].
Proof.
  destruct (purge_rejected_requests_exact (Some (Admin Sample.admin)) Sample.store
              eq_refl)
    as [(st' & deleted & Hrun & _ & Hrows & _ & Hdel & _) Hraise].
  split; [apply Hraise; discriminate|].
  exists st'. split; [rewrite Hrun, Hdel; reflexivity | rewrite Hrows; reflexivity].
Defined.

Lemma truthy_Some (s : string) : s <> EmptyString -> truthy (Some s) = true.
Proof. destruct s; [contradiction | reflexivity]. Qed.

(** Every way [book_unit] ends for a tenant principal: a 400 answer with
    the store untouched, the exception of a unit id beyond 64 bits with the
    store untouched, or one appended pending request. *)
Lemma book_unit_outcome {R : Runtime} (c : caller) (req : request) (st : db) :
  is_tenant_user c = true ->
  (exists message, book_unit c req st = (Json 400 false message, st))
  \/ (exists uid,
        form req !! "unit_id" ≫= py_int = Some uid
        /\ int64 uid = false /\ query_get uid (units st) = None
        /\ book_unit c req st = (ServerError, st))
  \/ (exists t su uid unit ss sd es ed,
        c = Some (TenantAccount t)
        /\ form req !! "unit_id" = Some su /\ py_int su = Some uid /\ uid <> 0
        /\ query_get uid (units st) = Some unit
        /\ Unit.status unit = Some "vacant"
        /\ form req !! "start_date" = Some ss /\ fromisoformat ss = Some sd
        /\ form req !! "end_date" = Some es /\ fromisoformat es = Some ed
        /\ book_unit c req st =
           (Json 200 true "Booking request created successfully",
            Db _ (users st) (tenant_users st) (properties st) (units st)
              (tenants st) (leases st) (payments st) (maintenance_requests st)
              (lease_requests st ++
               [LeaseRequest.Build (next_id (lease_requests st)) uid
                  (TenantUser.id t) (Some sd) (Some ed)
                  (default EmptyString (form req !! "notes")) "pending"
                  (utcnow req)])
              (emergency_contacts st))).
Proof.
  intros Htenant. destruct (is_tenant_user_inv c Htenant) as [t ->].
  unfold book_unit, login_required. rewrite Htenant. cbn [negb].
  destruct (form req !! "unit_id") as [su|] eqn:Hsu; cbn [mbind option_bind];
    [|left; eauto].
  destruct (py_int su) as [uid|] eqn:Huid; [|left; eauto].
  unfold parse_date_field.
  destruct (form req !! "start_date") as [ss|] eqn:Hss.
  2:{ destruct (form req !! "end_date") as [es|]; [|left; rewrite andb_false_r; eauto].
      destruct (truthy (Some es)); [|left; rewrite andb_false_r; eauto].
      destruct (fromisoformat es); cbn; [|left; eauto].
      left. rewrite andb_false_r. eauto. }
  destruct (truthy (Some ss)) eqn:Hts.
  2:{ destruct (form req !! "end_date") as [es|].
      - destruct (truthy (Some es)).
        + destruct (fromisoformat es); cbn; [|left; eauto].
          left. rewrite andb_false_r. eauto.
        + left. rewrite andb_false_r. eauto.
      - left. rewrite andb_false_r. eauto. }
  destruct (fromisoformat ss) as [sd|] eqn:Hsd; cbn [fmap option_fmap option_map];
    [|left; eauto].
  destruct (form req !! "end_date") as [es|] eqn:Hes;
    [|left; rewrite andb_false_r; eauto].
  destruct (truthy (Some es)) eqn:Hte; [|left; rewrite andb_false_r; eauto].
  destruct (fromisoformat es) as [ed|] eqn:Hed; cbn [fmap option_fmap option_map];
    [|left; eauto].
  destruct (Z.eqb_spec uid 0) as [->|Hnz]; cbn [negb andb]; [left; eauto|].
  unfold query_lookup.
  destruct (query_get uid (units st)) as [unit|] eqn:Hunit.
  2:{ destruct (int64 uid) eqn:Hfit; [left; eauto|].
      right; left. exists uid. repeat split; assumption. }
  destruct (col_eqb (Unit.status unit) "vacant") eqn:Hvac; cbn [negb];
    [|left; eauto].
  apply col_eqb_true in Hvac.
  cbn [mbind option_bind]. rewrite tenant_uid_of_TenantAccount.
  right; right. exists t, su, uid, unit, ss, sd, es, ed.
  repeat (split; [first [reflexivity | assumption]|]). reflexivity.
Qed.

(** C3: a tenant's booking is refused with an error answer, and no request
    is stored, when the unit id is no number, names no unit, or names a unit
    that is not vacant, and when a submitted date does not parse.  The error
    answer is a 400, or the 500 of an uncaught exception, which happens only
    for a unit id that does not fit 64 bits.  When the unit is vacant and
    both dates are given and parse, exactly one request with status pending
    is appended and nothing else changes. *)
Theorem book_unit_validates {R : Runtime} (c : caller) (req : request) (st : db) :
  is_tenant_user c = true ->
  ((form req !! "unit_id" ≫= py_int = None
    \/ (exists uid, form req !! "unit_id" ≫= py_int = Some uid
                    /\ query_get uid (units st) = None)
    \/ (exists uid unit, form req !! "unit_id" ≫= py_int = Some uid
                         /\ query_get uid (units st) = Some unit
                         /\ Unit.status unit <> Some "vacant")
    \/ (exists s, form req !! "start_date" = Some s /\ fromisoformat s = None)
    \/ (exists s, form req !! "end_date" = Some s /\ fromisoformat s = None)) ->
   (exists message, book_unit c req st = (Json 400 false message, st))
   \/ (book_unit c req st = (ServerError, st)
       /\ exists uid, form req !! "unit_id" ≫= py_int = Some uid
                      /\ ((- 2 ^ 63 <=? uid) && (uid <? 2 ^ 63)) = false))
  /\ (forall su uid unit ss sd es ed,
        form req !! "unit_id" = Some su -> py_int su = Some uid -> uid <> 0 ->
        query_get uid (units st) = Some unit ->
        Unit.status unit = Some "vacant" ->
        form req !! "start_date" = Some ss -> ss <> EmptyString ->
        fromisoformat ss = Some sd ->
        form req !! "end_date" = Some es -> es <> EmptyString ->
        fromisoformat es = Some ed ->
        exists t,
          c = Some (TenantAccount t)
          /\ book_unit c req st =
             (Json 200 true "Booking request created successfully",
              Db _ (users st) (tenant_users st) (properties st) (units st)
                (tenants st) (leases st) (payments st) (maintenance_requests st)
                (lease_requests st ++
                 [LeaseRequest.Build (next_id (lease_requests st)) uid
                    (TenantUser.id t) (Some sd) (Some ed)
                    (default EmptyString (form req !! "notes")) "pending"
                    (utcnow req)])
                (emergency_contacts st))).
Proof.
  intros Htenant. split.
  - intros Hbad.
    destruct (book_unit_outcome c req st Htenant)
      as [Hfail | [(uid & Huid & Hfit & _ & Hrun)
         | (t & su & uid & unit & ss & sd & es & ed & _ & Hsu & Huid & _
                   & Hunit & Hvac & Hss & Hsd & Hes & Hed & _)]];
      [left; exact Hfail | right; split; [exact Hrun | eauto] | exfalso].
    assert (Hparse : form req !! "unit_id" ≫= py_int = Some uid)
      by (rewrite Hsu; exact Huid).
    destruct Hbad as [H | [(k & H & Hk) | [(k & u & H & Hk & Hs) | [(s & H & Hs)
                     | (s & H & Hs)]]]]; congruence.
  - intros su uid unit ss sd es ed Hsu Huid Hnz Hunit Hvac Hss Hne Hsd Hes Hne' Hed.
    destruct (is_tenant_user_inv c Htenant) as [t ->]. exists t.
    split; [reflexivity|].
    unfold book_unit, login_required, parse_date_field.
    rewrite Htenant, Hsu, Hss, Hes. cbn [negb mbind option_bind].
    rewrite Huid, (truthy_Some ss Hne), (truthy_Some es Hne'), Hsd, Hed.
    cbn [fmap option_fmap option_map].
    destruct (Z.eqb_spec uid 0) as [|_]; [contradiction|]. cbn [negb andb].
    rewrite (query_lookup_Some _ _ _ Hunit), Hvac. cbn [col_eqb negb].
    rewrite String.eqb_refl. cbn [negb].
    rewrite tenant_uid_of_TenantAccount. reflexivity.
Qed.

Lemma book_unit_validates_witness :
  book_unit (Some (TenantAccount Sample.account))
    (Sample.post [("unit_id", "1"); ("start_date", "2025-07-01");
                  ("end_date", "2026-07-01")])
    Sample.store
  = (Json 400 false "Unit is not available", Sample.store)
  /\ book_unit (Some (TenantAccount Sample.account))
       (Sample.post [("unit_id", "9223372036854775808");
                     ("start_date", "2025-07-01"); ("end_date", "2026-07-01")])
       Sample.store
     = (ServerError, Sample.store)
  /\ exists st',
       book_unit (Some (TenantAccount Sample.account))
         (Sample.post [("unit_id", "5"); ("start_date", "2025-07-01");
                       ("end_date", "2026-07-01")])
         Sample.store
       = (Json 200 true "Booking request created successfully", st')
       /\ length (lease_requests st') = 3%nat.
Proof.
  split; [|split].
  - destruct (proj1 (book_unit_validates (Some (TenantAccount Sample.account))
                       (Sample.post [("unit_id", "1"); ("start_date", "2025-07-01");
                                     ("end_date", "2026-07-01")])
                       Sample.store eq_refl)) as [[message Hrun] | [Hrun _]].
    + right. right. left. exists 1, Sample.room1.
      split; [reflexivity|]. split; [reflexivity|]. discriminate.
    + reflexivity.
    + reflexivity.
  - destruct (proj1 (book_unit_validates (Some (TenantAccount Sample.account))
                       (Sample.post [("unit_id", "9223372036854775808");
                                     ("start_date", "2025-07-01");
                                     ("end_date", "2026-07-01")])
                       Sample.store eq_refl)) as [[message Hrun] | [Hrun _]].
    + right. left. exists 9223372036854775808. split; reflexivity.
    + reflexivity.
    + exact Hrun.
  - destruct (proj2 (book_unit_validates (Some (TenantAccount Sample.account))
                       (Sample.post [("unit_id", "5"); ("start_date", "2025-07-01");
                                     ("end_date", "2026-07-01")])
                       Sample.store eq_refl)
                "5" 5 Sample.room5 "2025-07-01" (Date 2025 7 1)
                "2026-07-01" (Date 2026 7 1)
                eq_refl eq_refl ltac:(discriminate) eq_refl eq_refl
                eq_refl ltac:(discriminate) eq_refl
                eq_refl ltac:(discriminate) eq_refl)
      as (t & _ & Hrun).
    eexists. split; [exact Hrun | reflexivity].
Defined.

(** ** Which handlers touch a booking request *)

Ltac case_handler :=
  repeat match goal with
         | |- context [match ?x with _ => _ end] => destruct x
         end;
  try reflexivity.

Section Frame.
Context {R : Runtime}.

Lemma query_get_filter (p : LeaseRequest.t -> bool) (k : Z)
    (tbl : list LeaseRequest.t) (r : LeaseRequest.t) :
  query_get k tbl = Some r -> p r = true ->
  query_get k (List.filter p tbl) = Some r.
Proof.
  unfold query_get. intros Hget Hp.
  induction tbl as [|x tbl IH]; simpl in *; [discriminate|].
  destruct (pk x =? k) eqn:E.
  - injection Hget as ->. rewrite Hp. simpl. rewrite E. reflexivity.
  - destruct (p x); simpl; [rewrite E|]; exact (IH Hget).
Qed.

Lemma approve_other_request (c : caller) (k k' : Z) (st : db) (r : LeaseRequest.t) :
  query_get k (lease_requests st) = Some r -> k <> k' ->
  query_get k (lease_requests (approve_booking_request c k' st).2) = Some r.
Proof.
  intros Hget Hne. unfold approve_booking_request, login_required.
  case_handler; try exact Hget; cbn [snd lease_requests];
    rewrite query_get_update_ne by (reflexivity || exact Hne); exact Hget.
Qed.

Lemma reject_other_request (c : caller) (k k' : Z) (st : db) (r : LeaseRequest.t) :
  query_get k (lease_requests st) = Some r -> k <> k' ->
  query_get k (lease_requests (reject_booking_request c k' st).2) = Some r.
Proof.
  intros Hget Hne. unfold reject_booking_request, login_required.
  case_handler; try exact Hget; cbn [snd lease_requests];
    rewrite query_get_update_ne by (reflexivity || exact Hne); exact Hget.
Qed.

Lemma purge_keeps_request (c : caller) (outcome : persistence) (k : Z) (st : db)
    (r : LeaseRequest.t) :
  query_get k (lease_requests st) = Some r -> is_rejected r = false ->
  query_get k (lease_requests (purge_rejected_requests c outcome st).2) = Some r.
Proof.
  intros Hget Hrej. unfold purge_rejected_requests, login_required.
  case_handler; try exact Hget; cbn [snd lease_requests].
  apply query_get_filter; [exact Hget | rewrite Hrej; reflexivity].
Qed.

Lemma book_unit_keeps_request (c : caller) (req : request) (k : Z) (st : db)
    (r : LeaseRequest.t) :
  query_get k (lease_requests st) = Some r ->
  query_get k (lease_requests (book_unit c req st).2) = Some r.
Proof.
  intros Hget. unfold book_unit, login_required.
  case_handler; try exact Hget; cbn [snd lease_requests];
    apply query_get_app_Some; exact Hget.
Qed.

(** The remaining handlers never write the booking-request table. *)
Lemma other_handlers_keep_requests (o : operation) (c : caller) (req : request)
    (st : db) :
  match o with
  | ApproveBookingRequest _ | RejectBookingRequest _ | PurgeRejectedRequests _
  | BookUnit => True
  | _ => lease_requests (handle o c req st).2 = lease_requests st
  end.
Proof.
  destruct o; try exact I; cbn [handle];
    unfold tenant_signup, change_password, maintenance_create, maintenance_edit,
      maintenance_delete, emergency_contact_create, emergency_contact_edit,
      emergency_contact_delete, tenant_create, tenant_edit, tenant_delete,
      lease_create, lease_edit, lease_delete, payment_create, login_required;
    case_handler.
Qed.

(** A stored request is changed only by its own approval or rejection and,
    when it is rejected, by the purge. *)
Lemma handle_keeps_request (o : operation) (c : caller) (req : request) (st : db)
    (k : Z) (r : LeaseRequest.t) :
  query_get k (lease_requests st) = Some r ->
  o <> ApproveBookingRequest k -> o <> RejectBookingRequest k ->
  (forall outcome, o = PurgeRejectedRequests outcome -> is_rejected r = false) ->
  query_get k (lease_requests (handle o c req st).2) = Some r.
Proof.
  intros Hget Happ Hrej Hpurge.
  pose proof (other_handlers_keep_requests o c req st) as Hother.
  destruct o; try (rewrite Hother; exact Hget); cbn [handle].
  - apply approve_other_request; [exact Hget | congruence].
  - apply reject_other_request; [exact Hget | congruence].
  - apply purge_keeps_request; [exact Hget | eauto].
  - apply book_unit_keeps_request; exact Hget.
Qed.

End Frame.

(** C2, as the handlers have it: a request that is approved or rejected is
    left as it is by every handler except its own approval, its own
    rejection and, for a rejected one, the purge.  Approval and rejection do
    not look at the current status: on such a request a rejection sets the
    status to rejected and writes no lease or tenant, and an approval (unit
    and account existing) sets the status to approved and appends a lease,
    as it does for a pending request. *)
Theorem settled_request_transitions {R : Runtime} (st : db) (k : Z)
    (r : LeaseRequest.t) :
  query_get k (lease_requests st) = Some r ->
  LeaseRequest.status r = "approved" \/ LeaseRequest.status r = "rejected" ->
  (forall o c req,
      o <> ApproveBookingRequest k -> o <> RejectBookingRequest k ->
      (forall outcome, o = PurgeRejectedRequests outcome ->
                       LeaseRequest.status r = "approved") ->
      query_get k (lease_requests (handle o c req st).2) = Some r)
  /\ (forall c, is_admin_user c = true ->
      exists st',
        reject_booking_request c k st
        = (Redirect "booking_requests" (Some (Flash "Booking request rejected.")),
           st')
        /\ LeaseRequest.status <$> query_get k (lease_requests st')
           = Some "rejected"
        /\ leases st' = leases st
        /\ tenants st' = tenants st)
  /\ (forall c unit account,
      is_admin_user c = true ->
      query_get (LeaseRequest.unit_id r) (units st) = Some unit ->
      query_get (LeaseRequest.tenant_user_id r) (tenant_users st) = Some account ->
      exists st' tenant_id,
        approve_booking_request c k st
        = (Redirect "booking_requests" (Some (FlashApproved (Unit.number unit))),
           st')
        /\ LeaseRequest.status <$> query_get k (lease_requests st')
           = Some "approved"
        /\ leases st' =
           leases st ++
           [Lease.Build _ (next_id (leases st)) (Int (LeaseRequest.unit_id r))
              (Int tenant_id) (LeaseRequest.start_date r) (LeaseRequest.end_date r)
              (Some (float_of_int 0))]).
Proof.
  intros Hget Hstatus. split; [|split].
  - intros o c req Happ Hrej Hpurge.
    apply handle_keeps_request; try assumption.
    intros outcome Ho. unfold is_rejected. rewrite (Hpurge outcome Ho). reflexivity.
  - intros c Hadmin.
    destruct (reject_effect c k st r Hadmin Hget)
      as (st' & Hrun & Hr & _ & _ & _ & _ & Ht & Hl & _).
    exists st'. split; [exact Hrun|]. split; [|split; assumption].
    rewrite Hr, query_get_update_eq by reflexivity. rewrite Hget. reflexivity.
  - intros c unit account Hadmin Hunit Hacc.
    destruct (approve_effect c k st r unit account Hadmin Hget Hunit Hacc)
      as (st' & tenant_id & Hrun & _ & Hl & Hr & _).
    exists st', tenant_id. split; [exact Hrun|]. split; [|exact Hl].
    rewrite Hr, query_get_update_eq by reflexivity. rewrite Hget. reflexivity.
Qed.

Lemma settled_request_transitions_witness :
  query_get 2
    (lease_requests
       (handle BookUnit (Some (TenantAccount Sample.account))
          (Sample.post [("unit_id", "5"); ("start_date", "2025-07-01");
                        ("end_date", "2026-07-01")])
          Sample.store).2)
  = Some Sample.rejected_request.
Proof.
  apply (proj1 (settled_request_transitions Sample.store 2 Sample.rejected_request
                  eq_refl (or_intror eq_refl)));
    discriminate.
Defined.

(** C2 as stated fails: approving the rejected request 2 of the sample
    store changes its status and writes a lease and a tenant. *)
Lemma approve_ignores_status_counterexample :
  LeaseRequest.status <$> query_get 2 (lease_requests Sample.store)
  = Some "rejected"
  /\ ~ (LeaseRequest.status <$>
          query_get 2
            (lease_requests
               (approve_booking_request (Some (Admin Sample.admin)) 2
                  Sample.store).2)
        = Some "rejected"
        /\ leases (approve_booking_request (Some (Admin Sample.admin)) 2
                     Sample.store).2
           = leases Sample.store
        /\ tenants (approve_booking_request (Some (Admin Sample.admin)) 2
                      Sample.store).2
           = tenants Sample.store).
Proof.
  split; [reflexivity|]. intros (Hstatus & _). vm_compute in Hstatus. discriminate.
Qed.

(** ** Dashboard balances *)

Section Balances.
Context {R : Runtime}.

(** The entries of [balances] a list of leases contributes, in order. *)
Lemma compute_balances_entries (st : db) (today : date) (ls : list Lease.t)
    (acc : list balance_entry * gmap Integer Float) :
  (fold_left (balances_step st today) ls acc).1 =
  acc.1 ++
  flat_map
    (fun l => match Lease.start_date l with
              | Some start => [lease_balance st today start l]
              | None => []
              end) ls.
Proof.
  revert acc. induction ls as [|l ls IH]; intros acc; simpl.
  - rewrite app_nil_r. reflexivity.
  - rewrite IH. unfold balances_step.
    destruct (Lease.start_date l); simpl; [|reflexivity].
    rewrite <- app_assoc. reflexivity.
Qed.

End Balances.

(** C4: for every lease with a start date the balance pass reports one
    entry with expected = max(0, (year difference) * 12 + (month
    difference)) times the monthly rent (0 when the rent is missing), paid =
    the sum of the amounts of the payments on that lease, and balance =
    expected - paid; leases without a start date are skipped.  With exact
    numbers, a lease started 3 calendar months ago at a rent of 5000 with
    payments totalling 8000 reports 15000, 8000 and 7000. *)
Theorem dashboard_lease_balances :
  (forall (R : Runtime) (st : db) (today : date) (ls : list Lease.t),
      dash_balances (dashboard st today ls) =
      flat_map
        (fun l =>
           match Lease.start_date l with
           | Some start =>
             let expected :=
               fmul
                 (float_of_int
                    (Z.max 0 ((year today - year start) * 12
                              + (month today - month start))))
                 (default (float_of_int 0) (Lease.monthly_rent l)) in
             let paid :=
               fold_left fadd
                 (List.map Payment.amount
                    (List.filter
                       (fun p => bool_decide (Payment.lease_id p = Int (Lease.id l)))
                       (payments st)))
                 (float_of_int 0) in
             [BalanceEntry l expected paid (fsub expected paid)]
           | None => []
           end) ls)
  /\ (forall (st : db (R := exact_runtime)) (today start : date)
        (l : Lease.t (R := exact_runtime)),
        (year today - year start) * 12 + (month today - month start) = 3 ->
        Lease.monthly_rent l = Some 5000 ->
        py_sum (Payment.amount <$> lease_payments st l) = 8000 ->
        lease_balance st today start l = BalanceEntry l 15000 8000 7000).
Proof.
  split.
  - intros R st today ls. unfold dashboard, compute_balances. cbn [dash_balances].
    rewrite compute_balances_entries. reflexivity.
  - intros st today start l Hmonths Hrent Hpaid.
    unfold lease_balance, months_elapsed. rewrite Hmonths, Hrent, Hpaid.
    reflexivity.
Qed.

Lemma dashboard_lease_balances_witness :
  lease_balance Sample.store Sample.today (Date 2025 3 15) Sample.lease1
  = BalanceEntry Sample.lease1 15000 8000 7000
  /\ In (BalanceEntry Sample.lease1 15000 8000 7000)
       (dash_balances (dashboard Sample.store Sample.today (leases Sample.store))).
Proof.
  split.
  - exact (proj2 dashboard_lease_balances Sample.store Sample.today
             (Date 2025 3 15) Sample.lease1 eq_refl eq_refl eq_refl).
  - rewrite (proj1 dashboard_lease_balances). left. reflexivity.
Defined.

(** ** Dashboard: latest tenant and latest rent per unit *)

Section Latest.
Context {R : Runtime}.

Lemma unit_tenants_step_insert (st : db) (acc : gmap Integer tenant_entry)
    (l : Lease.t) :
  Lease.id l <> 0 ->
  unit_tenants_step st acc l =
  <[Lease.unit_id l := TenantEntry (Tenant.name <$> lease_tenant st l) (Lease.id l)]>
    acc.
Proof.
  intros Hid. unfold unit_tenants_step, hasattr_id.
  destruct (acc !! Lease.unit_id l); [|reflexivity].
  destruct (Z.eqb_spec (Lease.id l) 0); [contradiction | reflexivity].
Qed.

(** What the latest-tenant loop leaves under a key: the lease iterated last
    among those of that unit, whatever its identifier. *)
Lemma unit_tenants_last_iterated (st : db) (ls : list Lease.t) (k : Integer) :
  Forall (fun l => Lease.id l <> 0) ls ->
  unit_tenants st ls !! k =
  (fun l => Tenant.name <$> lease_tenant st l) <$>
  last (List.filter (fun l => bool_decide (Lease.unit_id l = k)) ls).
Proof.
  unfold unit_tenants. rewrite lookup_fmap.
  induction ls as [|l ls IH] using rev_ind; intros Hids; [reflexivity|].
  apply Forall_app in Hids as [Hids Hl]. inversion Hl as [|? ? Hid _]; subst.
  rewrite fold_left_app. cbn [fold_left].
  rewrite unit_tenants_step_insert by exact Hid.
  rewrite List.filter_app. cbn [List.filter].
  destruct (decide (Lease.unit_id l = k)) as [->|Hne].
  - rewrite lookup_insert_eq, bool_decide_true by reflexivity.
    rewrite last_snoc. reflexivity.
  - rewrite lookup_insert_ne by exact Hne.
    rewrite bool_decide_false by exact Hne. rewrite app_nil_r. exact (IH Hids).
Qed.

Lemma latest_lease_fold (k : Z) (ls : list Lease.t) (best : option Lease.t) :
  match
    fold_left
      (fun best l =>
         if bool_decide (Lease.unit_id l = Int k) then
           match best with
           | Some b => if Lease.id b <? Lease.id l then Some l else best
           | None => Some l
           end
         else best) ls best
  with
  | None => best = None /\ forall l, In l ls -> Lease.unit_id l <> Int k
  | Some m =>
    (best = Some m \/ (In m ls /\ Lease.unit_id m = Int k))
    /\ (forall b, best = Some b -> Lease.id b <= Lease.id m)
    /\ (forall l, In l ls -> Lease.unit_id l = Int k -> Lease.id l <= Lease.id m)
  end.
Proof.
  revert best. induction ls as [|l ls IH]; intros best; cbn [fold_left].
  - destruct best as [b|].
    + split; [left; reflexivity|]. split; [intros ? [= ->]; lia | intros ? []].
    + split; [reflexivity | intros ? []].
  - match goal with |- context [fold_left ?f ls ?b] => specialize (IH b) end.
    destruct (fold_left _ ls _) as [m|].
    + destruct IH as (Hm & Hb & Hls).
      destruct (decide (Lease.unit_id l = Int k)) as [Hk|Hk].
      * rewrite bool_decide_true in Hm, Hb by exact Hk.
        destruct best as [b|].
        -- destruct (Z.ltb_spec (Lease.id b) (Lease.id l)).
           ++ split; [|split].
              ** right. destruct Hm as [[= <-]|[Hin Hu]];
                   [split; [left; reflexivity | exact Hk] | split; [right|]; assumption].
              ** intros b' [= <-]. specialize (Hb l eq_refl). lia.
              ** intros l' [<-|Hin] Hu; [apply Hb; reflexivity | apply Hls; assumption].
           ++ split; [|split].
              ** destruct Hm as [Hm|[Hin Hu]];
                   [left; exact Hm | right; split; [right|]; assumption].
              ** exact Hb.
              ** intros l' [<-|Hin] Hu;
                   [specialize (Hb b eq_refl); lia | apply Hls; assumption].
        -- split; [|split].
           ** right. destruct Hm as [[= <-]|[Hin Hu]];
                [split; [left; reflexivity | exact Hk] | split; [right|]; assumption].
           ** intros b [=].
           ** intros l' [<-|Hin] Hu; [apply Hb; reflexivity | apply Hls; assumption].
      * rewrite bool_decide_false in Hm, Hb by exact Hk.
        split; [|split].
        -- destruct Hm as [Hm|[Hin Hu]];
             [left; exact Hm | right; split; [right|]; assumption].
        -- exact Hb.
        -- intros l' [<-|Hin] Hu; [contradiction | apply Hls; assumption].
    + destruct IH as (Hnone & Hls).
      destruct (decide (Lease.unit_id l = Int k)) as [Hk|Hk].
      * rewrite bool_decide_true in Hnone by exact Hk.
        destruct best as [b|]; [destruct (Lease.id b <? Lease.id l)|]; discriminate.
      * rewrite bool_decide_false in Hnone by exact Hk.
        split; [exact Hnone|]. intros l' [<-|Hin]; [exact Hk | apply Hls; exact Hin].
Qed.

(** The rent half of the per-unit report: the lease picked for a unit is
    one of its leases and none of them has a larger identifier; a unit
    without a lease reports 0. *)
Lemma latest_rent_highest_id (st : db) (k : Z) :
  match latest_lease k (leases st) with
  | Some m =>
    In m (leases st) /\ Lease.unit_id m = Int k
    /\ (forall l, In l (leases st) -> Lease.unit_id l = Int k ->
                  Lease.id l <= Lease.id m)
    /\ latest_rent st k = Lease.monthly_rent m
  | None =>
    (forall l, In l (leases st) -> Lease.unit_id l <> Int k)
    /\ latest_rent st k = Some (float_of_int 0)
  end.
Proof.
  unfold latest_rent.
  pose proof (latest_lease_fold k (leases st) None) as Hfold.
  fold (latest_lease k (leases st)) in Hfold.
  destruct (latest_lease k (leases st)) as [m|].
  - destruct Hfold as ([Hm|[Hin Hu]] & _ & Hmax); [discriminate|].
    repeat split; assumption.
  - destruct Hfold as [_ Hnone]. split; [exact Hnone | reflexivity].
Qed.

End Latest.

(** C7 at a failing input: unit 1 has lease 1 (Juan Dela Cruz) and lease 2
    (Maria Santos).  With the same rows iterated as lease 2, lease 1, the
    loop reports Juan Dela Cruz for the unit, the tenant of the lower
    identifier; iterated as lease 1, lease 2 it reports Maria Santos.  The
    rent query picks lease 2 either way. *)
Theorem unit_tenants_depends_on_order :
  Permutation [Sample.lease2; Sample.lease1] (leases Sample.store)
  /\ dash_unit_tenants
    (dashboard Sample.store Sample.today [Sample.lease2; Sample.lease1]) !! Int 1
  = Some (Some "Juan Dela Cruz")
  /\ dash_unit_tenants
       (dashboard Sample.store Sample.today [Sample.lease1; Sample.lease2]) !! Int 1
     = Some (Some "Maria Santos")
  /\ latest_lease 1 (leases Sample.store) = Some Sample.lease2
  /\ Tenant.name <$> lease_tenant Sample.store Sample.lease2 = Some "Maria Santos".
Proof. split; [apply perm_swap|]. repeat split; vm_compute; reflexivity. Qed.

(** ** Password checks *)

Section Passwords.
Context {R : Runtime}.

(** The administrator login goes through the hash verification. *)
Lemma login_checks_hash (req : request) (st : db) (user : User.t)
    (password : string) :
  method req = POST ->
  user_by_username (form req !! "username") (users st) = Some user ->
  form req !! "password" = Some password ->
  (login req st).2 =
  if check_password_hash (User.password_hash user) password
  then Some (Admin user) else None.
Proof.
  intros Hm Hu Hp. unfold login, check_password. rewrite Hm, Hu, Hp. cbn.
  destruct (check_password_hash _ _); reflexivity.
Qed.

(** So does the tenant login. *)
Lemma tenant_login_checks_hash (req : request) (st : db) (tenant : TenantUser.t)
    (password : string) :
  method req = POST ->
  tenant_user_by_username (form req !! "username") (tenant_users st)
    = Some tenant ->
  form req !! "password" = Some password ->
  (tenant_login req st).2 =
  if check_password_hash (TenantUser.password_hash tenant) password
  then Some (TenantAccount tenant) else None.
Proof.
  intros Hm Hu Hp. unfold tenant_login, check_password. rewrite Hm, Hu, Hp. cbn.
  destruct (check_password_hash _ _); reflexivity.
Qed.

(** So does the current-password test of the password change. *)
Lemma change_password_checks_hash (p : principal) (req : request) (st : db)
    (current : string) :
  method req = POST ->
  form req !! "current_password" = Some current ->
  check_password_hash (principal_hash p) current = false ->
  change_password (Some p) req st
  = (Redirect "change_password" (Some (Flash "Current password is incorrect.")),
     st).
Proof.
  intros Hm Hc Hcheck. unfold change_password, check_password.
  rewrite Hm, Hc. cbn. rewrite Hcheck. reflexivity.
Qed.

(** The quick administrator login never consults the stored hash: the
    literal it compares against decides alone. *)
Lemma admin_autologin_literal (req : request) (st : db) (password : string) :
  form req !! "password" = Some password -> password <> EmptyString ->
  admin_autologin req st =
  if bool_decide (password = "admin1234") then
    match user_by_username (Some "admin") (users st) with
    | Some admin => (Json 200 true "", Some (Admin admin))
    | None => (Json 404 false "Admin user not found.", None)
    end
  else (Json 401 false "Incorrect password.", None).
Proof.
  intros Hp Hne. unfold admin_autologin. rewrite Hp, (truthy_Some _ Hne).
  cbn [negb]. destruct (decide (password = "admin1234")) as [->|Hd].
  - rewrite !bool_decide_true by reflexivity. reflexivity.
  - rewrite !bool_decide_false by congruence. reflexivity.
Qed.

End Passwords.

(** C9 at a failing input: the administrator of the sample store changes
    the password from admin1234 to s3cret99.  The login form then accepts
    s3cret99 and refuses admin1234, as the stored hash says, while the quick
    login still accepts admin1234 and refuses s3cret99. *)
Theorem admin_autologin_ignores_stored_hash :
  let changed :=
    (change_password (Some (Admin Sample.admin))
       (Sample.post [("current_password", "admin1234");
                     ("new_password", "s3cret99");
                     ("confirm_password", "s3cret99")])
       Sample.store).2 in
  users changed = [User.Build 1 "admin" "salt$s3cret99"]
  /\ (login (Sample.post [("username", "admin"); ("password", "s3cret99")])
        changed).2
     = Some (Admin (User.Build 1 "admin" "salt$s3cret99"))
  /\ (login (Sample.post [("username", "admin"); ("password", "admin1234")])
        changed).2
     = None
  /\ admin_autologin (Sample.post [("password", "admin1234")]) changed
     = (Json 200 true "", Some (Admin (User.Build 1 "admin" "salt$s3cret99")))
  /\ admin_autologin (Sample.post [("password", "s3cret99")]) changed
     = (Json 401 false "Incorrect password.", None).
Proof. repeat split; vm_compute; reflexivity. Qed.

(** ** Handlers without an access check *)

(** For contrast, a guarded handler: nobody logged in is sent to the login
    view, a tenant account is turned away, and the store is not written. *)
Lemma tenant_delete_guarded {R : Runtime} (tid : Z) (st : db) (t : TenantUser.t) :
  tenant_delete None tid st = (LoginRedirect, st)
  /\ denies (tenant_delete (Some (TenantAccount t)) tid st).1 = true
  /\ (tenant_delete (Some (TenantAccount t)) tid st).2 = st.
Proof. repeat split. Qed.

Lemma float_field_eq {R : Runtime} (field : option string) :
  float_field field =
  match field with
  | Some (String a s) => py_float (String a s)
  | _ => Some (float_of_int 0)
  end.
Proof. destruct field as [[|a s]|]; reflexivity. Qed.

Lemma bind_date_field_eq {R : Runtime} (field : option string) :
  bind_date_field field =
  match field with
  | Some (String a s) => Some <$> bind_Date (String a s)
  | _ => Some None
  end.
Proof. destruct field as [[|a s]|]; reflexivity. Qed.

(** C10: the create and edit handlers of tenants, leases, payments,
    maintenance requests and emergency contacts, and the emergency-contact
    delete handler, answer every caller, nobody logged in included, as they
    answer anyone else, and they never answer with a refusal of access.  On
    a submission the handler can store (the row to edit or delete exists,
    the required fields are present, [float] reads the number, the Date
    column takes the date, the payment is no NaN) the write is committed:
    the store afterwards is given table by table.  A payment that is a NaN
    is refused by the store, for every caller alike. *)
Theorem unguarded_handlers_serve_everyone {R : Runtime} (c : caller)
    (req : request) (st : db) :
  (forall o, unguarded o = true ->
             handle o c req st = handle o None req st
             /\ denies (handle o c req st).1 = false)
  /\ (method req = POST ->
      (forall name, form req !! "name" = Some name ->
         tenant_create c req st =
         (Redirect "tenants_list" (Some (Flash "Tenant created.")),
          Db _ (users st) (tenant_users st) (properties st) (units st)
            (tenants st ++
             [Tenant.Build (next_id (tenants st)) name (form req !! "phone")
                (form req !! "email")])
            (leases st) (payments st) (maintenance_requests st)
            (lease_requests st) (emergency_contacts st)))
      /\ (forall tid t name,
            query_get tid (tenants st) = Some t ->
            form req !! "name" = Some name ->
            tenant_edit c tid req st =
            (Redirect "tenants_list" (Some (Flash "Tenant updated.")),
             Db _ (users st) (tenant_users st) (properties st) (units st)
               (update tid
                  (fun t => Tenant.Build (Tenant.id t) name (form req !! "phone")
                              (form req !! "email"))
                  (tenants st))
               (leases st) (payments st) (maintenance_requests st)
               (lease_requests st) (emergency_contacts st)))
      /\ (forall unit_id tenant_id rent start_date end_date,
            form req !! "unit_id" = Some unit_id ->
            form req !! "tenant_id" = Some tenant_id ->
            match form req !! "monthly_rent" with
            | Some (String a s) => py_float (String a s)
            | _ => Some (float_of_int 0)
            end = Some rent ->
            match form req !! "start_date" with
            | Some (String a s) => Some <$> bind_Date (String a s)
            | _ => Some None
            end = Some start_date ->
            match form req !! "end_date" with
            | Some (String a s) => Some <$> bind_Date (String a s)
            | _ => Some None
            end = Some end_date ->
            lease_create c req st =
            (Redirect "leases_list" (Some (Flash "Lease created.")),
             Db _ (users st) (tenant_users st) (properties st)
               match bind_Integer unit_id with
               | Int n =>
                 match query_get n (units st) with
                 | Some u =>
                   update n
                     (fun u => Unit.Build (Unit.id u) (Unit.number u)
                                 (Some "occupied") (Unit.property_id u))
                     (units st)
                 | None => units st
                 end
               | _ => units st
               end
               (tenants st)
               (leases st ++
                [Lease.Build _ (next_id (leases st)) (bind_Integer unit_id)
                   (bind_Integer tenant_id) start_date end_date
                   (if is_nan rent then None else Some rent)])
               (payments st) (maintenance_requests st) (lease_requests st)
               (emergency_contacts st)))
      /\ (forall lid l unit_id tenant_id rent start_date end_date,
            query_get lid (leases st) = Some l ->
            form req !! "unit_id" = Some unit_id ->
            form req !! "tenant_id" = Some tenant_id ->
            match form req !! "monthly_rent" with
            | Some (String a s) => py_float (String a s)
            | _ => Some (float_of_int 0)
            end = Some rent ->
            match form req !! "start_date" with
            | Some (String a s) => Some <$> bind_Date (String a s)
            | _ => Some None
            end = Some start_date ->
            match form req !! "end_date" with
            | Some (String a s) => Some <$> bind_Date (String a s)
            | _ => Some None
            end = Some end_date ->
            lease_edit c lid req st =
            (Redirect "leases_list" (Some (Flash "Lease updated.")),
             Db _ (users st) (tenant_users st) (properties st) (units st)
               (tenants st)
               (update lid
                  (fun l => Lease.Build _ (Lease.id l) (bind_Integer unit_id)
                              (bind_Integer tenant_id) start_date end_date
                              (if is_nan rent then None else Some rent))
                  (leases st))
               (payments st) (maintenance_requests st) (lease_requests st)
               (emergency_contacts st)))
      /\ (forall lease_id amount paid,
            form req !! "lease_id" = Some lease_id ->
            form req !! "amount" = Some amount ->
            match amount with
            | String a s => py_float (String a s)
            | EmptyString => Some (float_of_int 0)
            end = Some paid ->
            payment_create c req st =
            if is_nan paid then (ServerError, st)
            else
              (Redirect "payments_list" (Some (Flash "Payment logged.")),
               Db _ (users st) (tenant_users st) (properties st) (units st)
                 (tenants st) (leases st)
                 (payments st ++
                  [Payment.Build _ (next_id (payments st)) (bind_Integer lease_id)
                     paid (utcnow req)])
                 (maintenance_requests st) (lease_requests st)
                 (emergency_contacts st)))
      /\ maintenance_create c req st =
         (Redirect "maintenance_list" (Some (Flash "Maintenance request created.")),
          Db _ (users st) (tenant_users st) (properties st) (units st)
            (tenants st) (leases st) (payments st)
            (maintenance_requests st ++
             [MaintenanceRequest.Build (next_id (maintenance_requests st))
                match form req !! "unit_id" with
                | Some unit_id => bind_Integer unit_id
                | None => Null
                end
                (form req !! "description") (Some "open") (utcnow req)])
            (lease_requests st) (emergency_contacts st))
      /\ (forall mid m,
            query_get mid (maintenance_requests st) = Some m ->
            maintenance_edit c mid req st =
            (Redirect "maintenance_list"
               (Some (Flash "Maintenance request updated.")),
             Db _ (users st) (tenant_users st) (properties st) (units st)
               (tenants st) (leases st) (payments st)
               (update mid
                  (fun m => MaintenanceRequest.Build (MaintenanceRequest.id m)
                              (MaintenanceRequest.unit_id m)
                              (form req !! "description") (form req !! "status")
                              (MaintenanceRequest.created_at m))
                  (maintenance_requests st))
               (lease_requests st) (emergency_contacts st)))
      /\ emergency_contact_create c req st =
         (Redirect "emergency_contacts_list"
            (Some (Flash "Emergency contact added.")),
          Db _ (users st) (tenant_users st) (properties st) (units st)
            (tenants st) (leases st) (payments st) (maintenance_requests st)
            (lease_requests st)
            (emergency_contacts st ++
             [EmergencyContact.Build (next_id (emergency_contacts st))
                (form req !! "unit_identifier") (form req !! "name")
                (form req !! "phone")]))
      /\ (forall cid e,
            query_get cid (emergency_contacts st) = Some e ->
            emergency_contact_edit c cid req st =
            (Redirect "emergency_contacts_list"
               (Some (Flash "Emergency contact updated.")),
             Db _ (users st) (tenant_users st) (properties st) (units st)
               (tenants st) (leases st) (payments st) (maintenance_requests st)
               (lease_requests st)
               (update cid
                  (fun e => EmergencyContact.Build (EmergencyContact.id e)
                              (form req !! "unit_identifier") (form req !! "name")
                              (form req !! "phone"))
                  (emergency_contacts st)))))
  /\ (forall cid e,
        query_get cid (emergency_contacts st) = Some e ->
        emergency_contact_delete c cid st =
        (Redirect "emergency_contacts_list"
           (Some (Flash "Emergency contact deleted.")),
         Db _ (users st) (tenant_users st) (properties st) (units st)
           (tenants st) (leases st) (payments st) (maintenance_requests st)
           (lease_requests st)
           (List.filter (fun e => negb (EmergencyContact.id e =? cid))
              (emergency_contacts st)))).
Proof.
  split; [|split].
  - intros o Ho. split; [destruct o; try discriminate Ho; reflexivity|].
    destruct o; try discriminate Ho; cbn [handle];
      unfold tenant_create, tenant_edit, lease_create, lease_edit, payment_create,
        maintenance_create, maintenance_edit, emergency_contact_create,
        emergency_contact_edit, emergency_contact_delete;
      case_handler.
  - intros Hpost.
    split; [intros name Hname; unfold tenant_create;
            rewrite Hpost, Hname; reflexivity|].
    split; [intros tid t name Ht Hname; unfold tenant_edit;
            rewrite (query_lookup_Some _ _ _ Ht), Hpost, Hname; reflexivity|].
    split.
    { intros unit_id tenant_id rent sd ed Hu Ht Hr Hs He. unfold lease_create.
      rewrite Hpost, Hu, Ht, float_field_eq, !bind_date_field_eq, Hr, Hs, He.
      unfold with_units_leases, mark_unit, query_get_col, store_Float.
      destruct (bind_Integer unit_id) as [|n|raw]; try reflexivity.
      destruct (query_get n (units st)) as [u|] eqn:Hget; [|reflexivity].
      apply query_get_Some in Hget as [_ Hk].
      change (Unit.id u = n) in Hk. rewrite Hk. reflexivity. }
    split.
    { intros lid l unit_id tenant_id rent sd ed Hl Hu Ht Hr Hs He.
      unfold lease_edit.
      rewrite (query_lookup_Some _ _ _ Hl), Hpost, Hu, Ht, float_field_eq,
        !bind_date_field_eq, Hr, Hs, He.
      reflexivity. }
    split.
    { intros lease_id amount paid Hl Ha Hf. unfold payment_create.
      rewrite Hpost, Hl, Ha, float_field_eq.
      assert (Hparse : match Some amount with
                       | Some (String a s) => py_float (String a s)
                       | _ => Some (float_of_int 0)
                       end = Some paid) by (destruct amount; exact Hf).
      rewrite Hparse. cbn [mbind option_bind]. unfold store_Float.
      destruct (is_nan paid); reflexivity. }
    split; [unfold maintenance_create; rewrite Hpost; reflexivity|].
    split; [intros mid m Hm; unfold maintenance_edit;
            rewrite (query_lookup_Some _ _ _ Hm), Hpost; reflexivity|].
    split; [unfold emergency_contact_create; rewrite Hpost; reflexivity|].
    intros cid e He. unfold emergency_contact_edit.
    rewrite (query_lookup_Some _ _ _ He), Hpost. reflexivity.
  - intros cid e He. unfold emergency_contact_delete.
    rewrite (query_lookup_Some _ _ _ He). reflexivity.
Qed.

Lemma unguarded_handlers_serve_everyone_witness :
  handle TenantCreate None (Sample.post [("name", "Ana Reyes")]) Sample.store
  = handle TenantCreate (Some (Admin Sample.admin))
      (Sample.post [("name", "Ana Reyes")]) Sample.store
  /\ tenants (tenant_create None (Sample.post [("name", "Ana Reyes")])
                Sample.store).2
     = [Sample.juan; Sample.maria; Tenant.Build 3 "Ana Reyes" None None]
  /\ tenants (tenant_edit None 2 (Sample.post [("name", "Maria Cruz")])
                Sample.store).2
     = [Sample.juan; Tenant.Build 2 "Maria Cruz" None None]
  /\ (let st' := (lease_create None
                    (Sample.post [("unit_id", "5"); ("tenant_id", "2");
                                  ("monthly_rent", "7000")])
                    Sample.store).2 in
      units st' = [Sample.room1; Unit.Build 5 "Room 5" (Some "occupied") (Int 1)]
      /\ leases st' =
         [Sample.lease1; Sample.lease2;
          Lease.Build _ 3 (Int 5) (Int 2) None None (Some 7000)])
  /\ leases (lease_edit None 2
               (Sample.post [("unit_id", "1"); ("tenant_id", "2");
                             ("monthly_rent", "7000")])
               Sample.store).2
     = [Sample.lease1; Lease.Build _ 2 (Int 1) (Int 2) None None (Some 7000)]
  /\ payments (payment_create None
                 (Sample.post [("lease_id", "2"); ("amount", "6500")])
                 Sample.store).2
     = [Sample.payment1; Sample.payment2;
        Payment.Build _ 3 (Int 2) 6500 (Sample.noon Sample.today)]
  /\ maintenance_requests
       (maintenance_create None
          (Sample.post [("unit_id", "5"); ("description", "No water")])
          Sample.store).2
     = [Sample.ticket;
        MaintenanceRequest.Build 2 (Int 5) (Some "No water") (Some "open")
          (Sample.noon Sample.today)]
  /\ maintenance_requests
       (maintenance_edit None 1
          (Sample.post [("description", "Leaky faucet"); ("status", "completed")])
          Sample.store).2
     = [MaintenanceRequest.Build 1 (Int 1) (Some "Leaky faucet")
          (Some "completed") (Sample.noon (Date 2025 6 3))]
  /\ emergency_contacts
       (emergency_contact_create None
          (Sample.post [("unit_identifier", "Room 5"); ("name", "Ana Reyes");
                        ("phone", "0917")])
          Sample.store).2
     = [Sample.contact;
        EmergencyContact.Build 2 (Some "Room 5") (Some "Ana Reyes") (Some "0917")]
  /\ emergency_contacts
       (emergency_contact_edit None 1
          (Sample.post [("unit_identifier", "Room 1"); ("name", "Maria Santos");
                        ("phone", "0918")])
          Sample.store).2
     = [EmergencyContact.Build 1 (Some "Room 1") (Some "Maria Santos")
          (Some "0918")]
  /\ emergency_contacts (emergency_contact_delete None 1 Sample.store).2 = [].
Proof.
  split.
  { symmetry.
    apply (proj1 (unguarded_handlers_serve_everyone (Some (Admin Sample.admin))
                    (Sample.post [("name", "Ana Reyes")]) Sample.store)
             TenantCreate eq_refl). }
  split.
  { destruct (unguarded_handlers_serve_everyone None
                (Sample.post [("name", "Ana Reyes")]) Sample.store)
      as (_ & Hpost & _).
    destruct (Hpost eq_refl) as (H & _).
    rewrite (H "Ana Reyes" eq_refl). reflexivity. }
  split.
  { destruct (unguarded_handlers_serve_everyone None
                (Sample.post [("name", "Maria Cruz")]) Sample.store)
      as (_ & Hpost & _).
    destruct (Hpost eq_refl) as (_ & H & _).
    rewrite (H 2 Sample.maria "Maria Cruz" eq_refl eq_refl). reflexivity. }
  split.
  { destruct (unguarded_handlers_serve_everyone None
                (Sample.post [("unit_id", "5"); ("tenant_id", "2");
                              ("monthly_rent", "7000")]) Sample.store)
      as (_ & Hpost & _).
    destruct (Hpost eq_refl) as (_ & _ & H & _).
    cbv zeta.
    rewrite (H "5" "2" 7000 None None eq_refl eq_refl eq_refl eq_refl eq_refl).
    split; reflexivity. }
  split.
  { destruct (unguarded_handlers_serve_everyone None
                (Sample.post [("unit_id", "1"); ("tenant_id", "2");
                              ("monthly_rent", "7000")]) Sample.store)
      as (_ & Hpost & _).
    destruct (Hpost eq_refl) as (_ & _ & _ & H & _).
    rewrite (H 2 Sample.lease2 "1" "2" 7000 None None
               eq_refl eq_refl eq_refl eq_refl eq_refl eq_refl).
    reflexivity. }
  split.
  { destruct (unguarded_handlers_serve_everyone None
                (Sample.post [("lease_id", "2"); ("amount", "6500")]) Sample.store)
      as (_ & Hpost & _).
    destruct (Hpost eq_refl) as (_ & _ & _ & _ & H & _).
    rewrite (H "2" "6500" 6500 eq_refl eq_refl eq_refl). reflexivity. }
  split.
  { destruct (unguarded_handlers_serve_everyone None
                (Sample.post [("unit_id", "5"); ("description", "No water")])
                Sample.store)
      as (_ & Hpost & _).
    destruct (Hpost eq_refl) as (_ & _ & _ & _ & _ & H & _).
    rewrite H. reflexivity. }
  split.
  { destruct (unguarded_handlers_serve_everyone None
                (Sample.post [("description", "Leaky faucet");
                              ("status", "completed")])
                Sample.store)
      as (_ & Hpost & _).
    destruct (Hpost eq_refl) as (_ & _ & _ & _ & _ & _ & H & _).
    rewrite (H 1 Sample.ticket eq_refl). reflexivity. }
  split.
  { destruct (unguarded_handlers_serve_everyone None
                (Sample.post [("unit_identifier", "Room 5"); ("name", "Ana Reyes");
                              ("phone", "0917")])
                Sample.store)
      as (_ & Hpost & _).
    destruct (Hpost eq_refl) as (_ & _ & _ & _ & _ & _ & _ & H & _).
    rewrite H. reflexivity. }
  split.
  { destruct (unguarded_handlers_serve_everyone None
                (Sample.post [("unit_identifier", "Room 1");
                              ("name", "Maria Santos"); ("phone", "0918")])
                Sample.store)
      as (_ & Hpost & _).
    destruct (Hpost eq_refl) as (_ & _ & _ & _ & _ & _ & _ & _ & H).
    rewrite (H 1 Sample.contact eq_refl). reflexivity. }
  destruct (unguarded_handlers_serve_everyone None (Sample.post []) Sample.store)
    as (_ & _ & H).
  rewrite (H 1 Sample.contact eq_refl). reflexivity.
Defined.

(** * Further properties of the handlers *)

(** ** Sessions and roles *)

(** The identifier a principal stores in the session leads [load_user] back
    to the principal's own table and key, with that one lookup: an
    administrator and a tenant account with the same key are never
    confused, and a deleted account restores nobody. *)
Theorem load_user_get_id {R : Runtime} (st : db) (p : principal) :
  load_user st (get_id p) =
  match p with
  | Admin u =>
    (Restored (Admin <$> query_get (User.id u) (users st)),
     [QueryUser (User.id u)])
  | TenantAccount t =>
    (Restored (TenantAccount <$> query_get (TenantUser.id t) (tenant_users st)),
     [QueryTenantUser (TenantUser.id t)])
  end.
Proof.
  destruct p as [u|t]; unfold get_id.
  - apply (load_user_prefixed st (py_str (User.id u)) (User.id u)), py_int_str.
  - apply (load_user_prefixed st (py_str (TenantUser.id t)) (TenantUser.id t)),
      py_int_str.
Qed.

(** The two administrator tests of the handlers, the identifier prefix and
    the class name, accept the same callers; nobody is administrator and
    tenant at once, and nobody logged in is neither. *)
Theorem role_tests_agree {R : Runtime} (c : caller) :
  is_admin_user c = class_is_User c
  /\ is_tenant_user c =
     match c with Some (TenantAccount _) => true | _ => false end
  /\ is_admin_user c && is_tenant_user c = false.
Proof.
  destruct c as [[u|t]|].
  - rewrite is_admin_user_Admin, is_tenant_user_Admin. repeat split.
  - rewrite is_admin_user_TenantAccount, is_tenant_user_TenantAccount.
    repeat split.
  - repeat split.
Qed.

Lemma class_is_User_admin {R : Runtime} (c : caller) :
  class_is_User c = is_admin_user c.
Proof.
  destruct c as [[u|t]|]; [| |reflexivity].
  - rewrite is_admin_user_Admin. reflexivity.
  - rewrite is_admin_user_TenantAccount. reflexivity.
Qed.

(** The administrator-only handlers (approve, reject, purge and the three
    guarded deletes) turn away every caller who is not an administrator
    and leave the store as it is. *)
Theorem admin_only_handlers_refuse {R : Runtime} (o : operation) (c : caller)
    (req : request) (st : db) :
  admin_only o = true -> is_admin_user c = false ->
  (handle o c req st).2 = st /\ denies (handle o c req st).1 = true.
Proof.
  intros Ho Hc.
  destruct o; try discriminate Ho; cbn [handle];
    unfold approve_booking_request, reject_booking_request,
      purge_rejected_requests, maintenance_delete, tenant_delete, lease_delete,
      login_required;
    rewrite ?class_is_User_admin, ?Hc;
    destruct c; split; reflexivity.
Qed.

Lemma admin_only_handlers_refuse_witness :
  (handle (LeaseDelete 1) (Some (TenantAccount Sample.account)) (Sample.post [])
     Sample.store).2 = Sample.store
  /\ denies
       (handle (ApproveBookingRequest 1) None (Sample.post []) Sample.store).1
     = true.
Proof.
  split.
  - apply (admin_only_handlers_refuse (LeaseDelete 1)
             (Some (TenantAccount Sample.account)) (Sample.post []) Sample.store
             eq_refl eq_refl).
  - apply (admin_only_handlers_refuse (ApproveBookingRequest 1) None
             (Sample.post []) Sample.store eq_refl eq_refl).
Defined.

(** Booking is for tenant accounts only: an administrator gets a 403,
    nobody logged in is sent to the login view, and no request is stored. *)
Theorem book_unit_tenants_only {R : Runtime} (c : caller) (req : request)
    (st : db) :
  is_tenant_user c = false ->
  book_unit c req st =
  (match c with
   | None => LoginRedirect
   | Some _ => Json 403 false "Only tenants can book units"
   end, st).
Proof.
  intros Hc. unfold book_unit, login_required. rewrite Hc.
  destruct c; reflexivity.
Qed.

Lemma book_unit_tenants_only_witness :
  book_unit (Some (Admin Sample.admin))
    (Sample.post [("unit_id", "5"); ("start_date", "2025-07-01");
                  ("end_date", "2026-07-01")])
    Sample.store
  = (Json 403 false "Only tenants can book units", Sample.store).
Proof.
  exact (book_unit_tenants_only (Some (Admin Sample.admin)) _ Sample.store
           eq_refl).
Defined.

(** ** Logging in *)

Lemma user_by_username_Some {R : Runtime} (name : option string)
    (tbl : list User.t) (u : User.t) :
  user_by_username name tbl = Some u ->
  In u tbl /\ name = Some (User.username u).
Proof.
  destruct name as [n|]; [|discriminate]. cbn. intros Hf.
  apply find_some in Hf as [Hin He]. apply String.eqb_eq in He.
  split; [assumption | congruence].
Qed.

Lemma tenant_user_by_username_Some {R : Runtime} (name : option string)
    (tbl : list TenantUser.t) (u : TenantUser.t) :
  tenant_user_by_username name tbl = Some u ->
  In u tbl /\ name = Some (TenantUser.username u).
Proof.
  destruct name as [n|]; [|discriminate]. cbn. intros Hf.
  apply find_some in Hf as [Hin He]. apply String.eqb_eq in He.
  split; [assumption | congruence].
Qed.

(** The login form logs in only a stored administrator whose name was
    submitted and whose stored hash verifies the submitted password. *)
Theorem login_sound {R : Runtime} (req : request) (st : db) (p : principal) :
  (login req st).2 = Some p ->
  exists user password,
    p = Admin user /\ In user (users st) /\ method req = POST
    /\ form req !! "username" = Some (User.username user)
    /\ form req !! "password" = Some password
    /\ check_password_hash (User.password_hash user) password = true.
Proof.
  unfold login, check_password.
  destruct (method req); [discriminate|].
  destruct (user_by_username _ _) as [user|] eqn:Hu; [|discriminate].
  apply user_by_username_Some in Hu as [Hin Hname].
  destruct (form req !! "password") as [password|]; [|discriminate]. cbn.
  destruct (check_password_hash _ _) eqn:Hc; [|discriminate].
  intros [= <-]. exists user, password. repeat split; assumption.
Qed.

Lemma login_sound_witness :
  exists user password,
    In user (users Sample.store)
    /\ check_password_hash (User.password_hash user) password = true.
Proof.
  destruct (login_sound
              (Sample.post [("username", "admin"); ("password", "admin1234")])
              Sample.store (Admin Sample.admin) eq_refl)
    as (user & password & _ & Hin & _ & _ & _ & Hc).
  exists user, password. split; assumption.
Defined.

(** The tenant login logs in only a stored tenant account whose name was
    submitted and whose stored hash verifies the submitted password. *)
Theorem tenant_login_sound {R : Runtime} (req : request) (st : db)
    (p : principal) :
  (tenant_login req st).2 = Some p ->
  exists tenant password,
    p = TenantAccount tenant /\ In tenant (tenant_users st) /\ method req = POST
    /\ form req !! "username" = Some (TenantUser.username tenant)
    /\ form req !! "password" = Some password
    /\ check_password_hash (TenantUser.password_hash tenant) password = true.
Proof.
  unfold tenant_login, check_password.
  destruct (method req); [discriminate|].
  destruct (tenant_user_by_username _ _) as [tenant|] eqn:Hu; [|discriminate].
  apply tenant_user_by_username_Some in Hu as [Hin Hname].
  destruct (form req !! "password") as [password|]; [|discriminate]. cbn.
  destruct (check_password_hash _ _) eqn:Hc; [|discriminate].
  intros [= <-]. exists tenant, password. repeat split; assumption.
Qed.

Lemma tenant_login_sound_witness :
  exists tenant password,
    In tenant (tenant_users Sample.store)
    /\ check_password_hash (TenantUser.password_hash tenant) password = true.
Proof.
  destruct (tenant_login_sound
              (Sample.post [("username", "tenant"); ("password", "tenant123")])
              Sample.store (TenantAccount Sample.account) eq_refl)
    as (tenant & password & _ & Hin & _ & _ & _ & Hc).
  exists tenant, password. split; assumption.
Defined.

(** ** Signing up *)

Section Signup.
Context {R : Runtime}.

Lemma tenant_user_by_username_None (name : string) (tbl : list TenantUser.t) :
  tenant_user_by_username (Some name) tbl = None ->
  forall a, In a tbl -> TenantUser.username a <> name.
Proof.
  cbn. intros Hf a Hin He. pose proof (find_none _ _ Hf a Hin) as Hn.
  cbn in Hn. apply String.eqb_neq in Hn. contradiction.
Qed.

Lemma tenant_user_by_email_None (e : string) (tbl : list TenantUser.t) :
  tenant_user_by_email (Some e) tbl = None ->
  forall a, In a tbl -> TenantUser.email a <> e.
Proof.
  cbn. intros Hf a Hin He. pose proof (find_none _ _ Hf a Hin) as Hn.
  cbn in Hn. apply String.eqb_neq in Hn. contradiction.
Qed.

(** Every way [tenant_signup] ends: the store untouched, or one account
    appended from a submission that passed every test. *)
Lemma tenant_signup_outcome (req : request) (st : db) :
  ((tenant_signup req st).2 = st
   /\ (tenant_signup req st).1 <>
      Redirect "tenant_login" (Some (Flash "Account created! Please log in.")))
  \/ exists username email password,
       method req = POST
       /\ form req !! "username" = Some username /\ username <> EmptyString
       /\ form req !! "email" = Some email /\ email <> EmptyString
       /\ form req !! "password" = Some password
       /\ form req !! "confirm_password" = Some password
       /\ (6 <= String.length password)%nat
       /\ tenant_user_by_username (Some username) (tenant_users st) = None
       /\ tenant_user_by_email (Some email) (tenant_users st) = None
       /\ tenant_signup req st =
          (Redirect "tenant_login" (Some (Flash "Account created! Please log in.")),
           Db _ (users st)
             (tenant_users st ++
              [TenantUser.Build (next_id (tenant_users st)) username email
                 (generate_password_hash (salt req) password)
                 (form req !! "phone") (utcnow req)])
             (properties st) (units st) (tenants st) (leases st) (payments st)
             (maintenance_requests st) (lease_requests st)
             (emergency_contacts st)).
Proof.
  unfold tenant_signup.
  destruct (method req); [left; split; [reflexivity | discriminate]|].
  destruct (form req !! "username") as [[|c0 username]|] eqn:Hu;
    [left; split; [reflexivity | discriminate]
    |
    |left; split; [reflexivity | discriminate]].
  destruct (form req !! "email") as [[|c1 email]|] eqn:He;
    [left; split; [reflexivity | discriminate]
    |
    |left; split; [reflexivity | discriminate]].
  destruct (form req !! "password") as [[|c2 password]|] eqn:Hp;
    [left; split; [reflexivity | discriminate]
    |
    |left; split; [reflexivity | discriminate]].
  destruct (decide (Some (String c2 password) = form req !! "confirm_password"))
    as [Hc|Hc].
  2:{ rewrite bool_decide_false by exact Hc. left. split; [reflexivity | discriminate]. }
  rewrite bool_decide_true by exact Hc. cbn [negb].
  destruct (Nat.ltb_spec (String.length (String c2 password)) 6) as [Hlen|Hlen];
    [left; split; [reflexivity | discriminate]|].
  destruct (tenant_user_by_username (Some (String c0 username)) (tenant_users st))
    eqn:Hfu.
  { rewrite bool_decide_true by eauto. left. split; [reflexivity | discriminate]. }
  rewrite bool_decide_false by (intros [? [=]]).
  destruct (tenant_user_by_email (Some (String c1 email)) (tenant_users st))
    eqn:Hfe.
  { rewrite bool_decide_true by eauto. left. split; [reflexivity | discriminate]. }
  rewrite bool_decide_false by (intros [? [=]]).
  right. exists (String c0 username), (String c1 email), (String c2 password).
  repeat (split; [first [reflexivity | assumption | discriminate | congruence]|]).
  reflexivity.
Qed.

End Signup.

(** Signing up stores an account only for a non-empty user name and email,
    a password of at least 6 characters that was typed twice alike, and a
    user name and an email no stored account has; otherwise the store is
    left as it is.  The store after a signup that went through is the
    store before with the one account appended to the tenant accounts and
    every other table as it was; the account keeps the hash, not the
    password. *)
Theorem tenant_signup_policy {R : Runtime} (req : request) (st : db) :
  (tenant_signup req st).2 = st
  \/ exists username email password,
       form req !! "username" = Some username /\ username <> EmptyString
       /\ form req !! "email" = Some email /\ email <> EmptyString
       /\ form req !! "password" = Some password
       /\ form req !! "confirm_password" = Some password
       /\ (6 <= String.length password)%nat
       /\ (forall a, In a (tenant_users st) ->
                     TenantUser.username a <> username
                     /\ TenantUser.email a <> email)
       /\ (tenant_signup req st).2 =
          Db _ (users st)
            (tenant_users st ++
             [TenantUser.Build (next_id (tenant_users st)) username email
                (generate_password_hash (salt req) password)
                (form req !! "phone") (utcnow req)])
            (properties st) (units st) (tenants st) (leases st) (payments st)
            (maintenance_requests st) (lease_requests st)
            (emergency_contacts st).
Proof.
  destruct (tenant_signup_outcome req st)
    as [[H _] | (username & email & password & _ & Hu & Hune & He & Hene & Hp & Hc
                 & Hlen & Hfu & Hfe & Hrun)]; [left; exact H | right].
  exists username, email, password.
  repeat (split; [assumption|]). split.
  - intros a Hin. split;
      [eapply tenant_user_by_username_None | eapply tenant_user_by_email_None];
      eassumption.
  - rewrite Hrun. reflexivity.
Qed.

(** Signing up keeps user names and emails of the tenant accounts pairwise
    distinct. *)
Theorem tenant_signup_keeps_accounts_distinct {R : Runtime} (req : request)
    (st : db) :
  NoDup (TenantUser.username <$> tenant_users st) ->
  NoDup (TenantUser.email <$> tenant_users st) ->
  NoDup (TenantUser.username <$> tenant_users (tenant_signup req st).2)
  /\ NoDup (TenantUser.email <$> tenant_users (tenant_signup req st).2).
Proof.
  intros Hnames Hemails.
  destruct (tenant_signup_outcome req st)
    as [[-> _] | (username & email & password & _ & _ & _ & _ & _ & _ & _ & _
                  & Hfu & Hfe & ->)]; [split; assumption|].
  cbn [snd tenant_users]. rewrite !fmap_app. cbn [fmap list_fmap].
  split; apply NoDup_app; (split; [assumption|]);
    (split; [|apply NoDup_singleton]);
    intros x Hx Hx'; apply list_elem_of_singleton in Hx'; subst x;
    apply list_elem_of_fmap in Hx as (a & Ha & Hin);
    apply list_elem_of_In in Hin.
  - eapply tenant_user_by_username_None; eauto.
  - eapply tenant_user_by_email_None; eauto.
Qed.

Lemma tenant_signup_keeps_accounts_distinct_witness :
  NoDup
    (TenantUser.username <$>
     tenant_users
       (tenant_signup
          (Sample.post [("username", "ana"); ("email", "ana@example.com");
                        ("password", "secret1"); ("confirm_password", "secret1")])
          Sample.store).2).
Proof.
  apply (tenant_signup_keeps_accounts_distinct
           (Sample.post [("username", "ana"); ("email", "ana@example.com");
                         ("password", "secret1"); ("confirm_password", "secret1")])
           Sample.store);
    cbn; apply NoDup_singleton.
Defined.

Lemma find_app_first {A} (f : A -> bool) (l1 l2 : list A) :
  find f (l1 ++ l2) =
  match find f l1 with Some x => Some x | None => find f l2 end.
Proof.
  induction l1 as [|x l1 IH]; cbn; [reflexivity|].
  destruct (f x); [reflexivity | exact IH].
Qed.

(** An account that signed up can log in with the password it chose, as
    long as the hashing library verifies what it hashed. *)
Theorem tenant_signup_then_login {R : Runtime} (req req' : request) (st : db)
    (username password : string) :
  (tenant_signup req st).1 =
    Redirect "tenant_login" (Some (Flash "Account created! Please log in.")) ->
  form req !! "username" = Some username ->
  form req !! "password" = Some password ->
  check_password_hash (generate_password_hash (salt req) password) password
    = true ->
  method req' = POST ->
  form req' !! "username" = Some username ->
  form req' !! "password" = Some password ->
  exists account,
    tenant_login req' (tenant_signup req st).2 =
      (Redirect "dashboard" (Some (Flash "Logged in as tenant.")),
       Some (TenantAccount account))
    /\ TenantUser.username account = username
    /\ TenantUser.id account = next_id (tenant_users st).
Proof.
  intros Hok Hu Hp Hcheck Hm' Hu' Hp'.
  destruct (tenant_signup_outcome req st)
    as [[_ Hno] | (u & e & pw & _ & Hu2 & _ & _ & _ & Hp2 & _ & _ & Hfu & _ & Hrun)];
    [contradiction|].
  assert (u = username) as -> by congruence.
  assert (pw = password) as -> by congruence.
  rewrite Hrun. cbn [snd]. eexists.
  unfold tenant_login, check_password. rewrite Hm', Hu', Hp'.
  cbn [tenant_users tenant_user_by_username].
  rewrite find_app_first. cbn in Hfu. rewrite Hfu. cbn [find TenantUser.username].
  rewrite String.eqb_refl. cbn. rewrite Hcheck.
  split; [reflexivity|]. split; reflexivity.
Qed.

Lemma tenant_signup_then_login_witness :
  exists account,
    tenant_login (Sample.post [("username", "ana"); ("password", "secret1")])
      (tenant_signup
         (Sample.post [("username", "ana"); ("email", "ana@example.com");
                       ("password", "secret1"); ("confirm_password", "secret1")])
         Sample.store).2
    = (Redirect "dashboard" (Some (Flash "Logged in as tenant.")),
       Some (TenantAccount account))
    /\ TenantUser.id account = 8.
Proof.
  destruct (tenant_signup_then_login
              (Sample.post [("username", "ana"); ("email", "ana@example.com");
                            ("password", "secret1");
                            ("confirm_password", "secret1")])
              (Sample.post [("username", "ana"); ("password", "secret1")])
              Sample.store "ana" "secret1"
              eq_refl eq_refl eq_refl eq_refl eq_refl eq_refl eq_refl)
    as (account & Hrun & _ & Hid).
  exists account. split; [exact Hrun | exact Hid].
Defined.

(** ** Changing a password *)

Section ChangePassword.
Context {R : Runtime}.

(** Every way [change_password] ends: the store untouched and no success
    notice, or the hash of the administrator rows under the caller's key
    replaced after every test passed. *)
Lemma change_password_outcome (c : caller) (req : request) (st : db) :
  ((change_password c req st).2 = st
   /\ (change_password c req st).1 <>
      Redirect "dashboard" (Some (Flash "Password changed successfully.")))
  \/ exists p current new u,
       c = Some p /\ method req = POST
       /\ form req !! "current_password" = Some current
       /\ check_password_hash (principal_hash p) current = true
       /\ form req !! "new_password" = Some new
       /\ form req !! "confirm_password" = Some new
       /\ (6 <= String.length new)%nat
       /\ query_get (principal_id p) (users st) = Some u
       /\ change_password c req st =
          (Redirect "dashboard" (Some (Flash "Password changed successfully.")),
           Db _ (update (principal_id p)
                   (set_user_password (generate_password_hash (salt req) new))
                   (users st))
             (tenant_users st) (properties st) (units st) (tenants st)
             (leases st) (payments st) (maintenance_requests st)
             (lease_requests st) (emergency_contacts st)).
Proof.
  unfold change_password, check_password.
  destruct (method req); [left; split; [reflexivity | discriminate]|].
  destruct c as [p|]; [|left; split; [reflexivity | discriminate]].
  destruct (form req !! "current_password") as [current|] eqn:Hcur;
    cbn [fmap option_fmap option_map];
    [|left; split; [reflexivity | discriminate]].
  destruct (check_password_hash (principal_hash p) current) eqn:Hcheck;
    [|left; split; [reflexivity | discriminate]].
  destruct (decide (form req !! "new_password" = form req !! "confirm_password"))
    as [Hc|Hc].
  2:{ rewrite bool_decide_false by exact Hc.
      left; split; [reflexivity | discriminate]. }
  rewrite bool_decide_true by exact Hc. cbn [negb].
  destruct (form req !! "new_password") as [new|] eqn:Hnew;
    [|left; split; [reflexivity | discriminate]].
  destruct (Nat.ltb_spec (String.length new) 6) as [Hlen|Hlen];
    [left; split; [reflexivity | discriminate]|].
  destruct (query_get (principal_id p) (users st)) as [u|] eqn:Hu;
    [|left; split; [reflexivity | discriminate]].
  right. exists p, current, new, u.
  assert (Hk : User.id u = principal_id p)
    by (apply query_get_Some in Hu as [_ Hk]; exact Hk).
  rewrite Hk.
  repeat (split; [first [reflexivity | assumption | congruence]|]).
  reflexivity.
Qed.

Lemma user_by_username_update (name : option string) (k : Z) (h : string)
    (tbl : list User.t) :
  user_by_username name (update k (set_user_password h) tbl) =
  (fun r => if pk r =? k then set_user_password h r else r) <$>
  user_by_username name tbl.
Proof.
  destruct name as [n|]; [|reflexivity]. cbn.
  induction tbl as [|x tbl IH]; cbn; [reflexivity|].
  destruct (pk x =? k) eqn:E; cbn; destruct (String.eqb (User.username x) n);
    cbn; rewrite ?E; first [reflexivity | exact IH].
Qed.

End ChangePassword.

(** A password change writes only when somebody is logged in, the current
    password verifies against the caller's stored hash, and the new
    password was typed twice alike and has at least 6 characters.  It then
    writes nothing but the hash of the administrator row under the
    caller's key: the other administrator rows, that row's name, and every
    other table stay as they are. *)
Theorem change_password_policy {R : Runtime} (c : caller) (req : request)
    (st : db) :
  (change_password c req st).2 = st
  \/ exists p current new u,
       c = Some p
       /\ form req !! "current_password" = Some current
       /\ check_password_hash (principal_hash p) current = true
       /\ form req !! "new_password" = Some new
       /\ form req !! "confirm_password" = Some new
       /\ (6 <= String.length new)%nat
       /\ query_get (principal_id p) (users st) = Some u
       /\ query_get (principal_id p) (users (change_password c req st).2)
          = Some (User.Build (User.id u) (User.username u)
                    (generate_password_hash (salt req) new))
       /\ (forall k, k <> principal_id p ->
             query_get k (users (change_password c req st).2)
             = query_get k (users st))
       /\ length (users (change_password c req st).2) = length (users st)
       /\ tenant_users (change_password c req st).2 = tenant_users st
       /\ properties (change_password c req st).2 = properties st
       /\ units (change_password c req st).2 = units st
       /\ tenants (change_password c req st).2 = tenants st
       /\ leases (change_password c req st).2 = leases st
       /\ payments (change_password c req st).2 = payments st
       /\ maintenance_requests (change_password c req st).2
          = maintenance_requests st
       /\ lease_requests (change_password c req st).2 = lease_requests st
       /\ emergency_contacts (change_password c req st).2
          = emergency_contacts st.
Proof.
  destruct (change_password_outcome c req st)
    as [[H _] | (p & current & new & u & Hc & _ & Hcur & Hcheck & Hnew & Hconf
                 & Hlen & Hu & Hrun)]; [left; exact H | right].
  exists p, current, new, u. rewrite Hrun. cbn [snd users].
  repeat (split; [assumption|]). split.
  { rewrite query_get_update_eq by reflexivity. rewrite Hu. reflexivity. }
  split.
  { intros k Hk. apply query_get_update_ne; [reflexivity | exact Hk]. }
  split; [apply update_length|].
  repeat split.
Qed.

(** The row rewritten is looked up in the administrator table with the
    caller's key, whatever the caller is.  A tenant account that changes
    its password keeps its own hash; the administrator with the same key,
    if there is one, gets the new password, and with no such administrator
    the request ends in a server error. *)
Theorem tenant_password_change_hits_admin {R : Runtime} (t : TenantUser.t)
    (req : request) (st : db) (current new : string) :
  method req = POST ->
  form req !! "current_password" = Some current ->
  check_password_hash (TenantUser.password_hash t) current = true ->
  form req !! "new_password" = Some new ->
  form req !! "confirm_password" = Some new ->
  (6 <= String.length new)%nat ->
  match query_get (TenantUser.id t) (users st) with
  | Some u =>
    exists st',
      change_password (Some (TenantAccount t)) req st
      = (Redirect "dashboard" (Some (Flash "Password changed successfully.")),
         st')
      /\ tenant_users st' = tenant_users st
      /\ query_get (TenantUser.id t) (users st')
         = Some (User.Build (User.id u) (User.username u)
                   (generate_password_hash (salt req) new))
  | None => change_password (Some (TenantAccount t)) req st = (ServerError, st)
  end.
Proof.
  intros Hm Hcur Hcheck Hnew Hconf Hlen.
  unfold change_password, check_password.
  rewrite Hm, Hcur, Hnew, Hconf.
  cbn [fmap option_fmap option_map principal_hash principal_id].
  rewrite Hcheck, bool_decide_true by reflexivity. cbn [negb].
  destruct (Nat.ltb_spec (String.length new) 6) as [Hlt|_]; [lia|].
  destruct (query_get (TenantUser.id t) (users st)) as [u|] eqn:Hu;
    [|reflexivity].
  assert (Hk : User.id u = TenantUser.id t)
    by (apply query_get_Some in Hu as [_ Hk]; exact Hk).
  eexists. split; [reflexivity|]. cbn [tenant_users users].
  split; [reflexivity|].
  rewrite <- Hk, query_get_update_eq by reflexivity.
  replace (query_get (User.id u) (users st)) with (Some u)
    by (rewrite Hk; symmetry; exact Hu).
  reflexivity.
Qed.

Lemma tenant_password_change_hits_admin_witness :
  exists st',
    change_password
      (Some (TenantAccount
               (TenantUser.Build 1 "tenant" "tenant@example.com" "pepper$tenant123"
                  None (Sample.noon (Date 2025 1 10)))))
      (Sample.post [("current_password", "tenant123");
                    ("new_password", "tenant456");
                    ("confirm_password", "tenant456")])
      Sample.store
    = (Redirect "dashboard" (Some (Flash "Password changed successfully.")), st')
    /\ tenant_users st' = tenant_users Sample.store
    /\ query_get 1 (users st') = Some (User.Build 1 "admin" "salt$tenant456").
Proof.
  exact (tenant_password_change_hits_admin
           (TenantUser.Build 1 "tenant" "tenant@example.com" "pepper$tenant123"
              None (Sample.noon (Date 2025 1 10)))
           (Sample.post [("current_password", "tenant123");
                         ("new_password", "tenant456");
                         ("confirm_password", "tenant456")])
           Sample.store "tenant123" "tenant456"
           eq_refl eq_refl eq_refl eq_refl eq_refl ltac:(cbn; lia)).
Defined.

(** After a password change the login form answers by the new hash alone:
    the administrator whose row was rewritten is logged in exactly when
    the new hash verifies the submitted password. *)
Theorem change_password_then_login {R : Runtime} (p : principal)
    (req req' : request) (st : db) (u : User.t) (name new password : string) :
  (change_password (Some p) req st).1 =
    Redirect "dashboard" (Some (Flash "Password changed successfully.")) ->
  form req !! "new_password" = Some new ->
  user_by_username (Some name) (users st) = Some u ->
  User.id u = principal_id p ->
  method req' = POST ->
  form req' !! "username" = Some name ->
  form req' !! "password" = Some password ->
  (login req' (change_password (Some p) req st).2).2 =
  if check_password_hash (generate_password_hash (salt req) new) password
  then Some (Admin (User.Build (User.id u) (User.username u)
                      (generate_password_hash (salt req) new)))
  else None.
Proof.
  intros Hok Hnew Hu Hid Hm' Hname Hpw.
  destruct (change_password_outcome (Some p) req st)
    as [[_ Hno] | (p' & current & new' & u' & [= <-] & _ & _ & _ & Hnew' & _ & _
                   & _ & Hrun)]; [contradiction|].
  assert (new' = new) as -> by congruence.
  rewrite Hrun. cbn [snd]. unfold login, check_password.
  rewrite Hm', Hname, Hpw. cbn [users].
  rewrite user_by_username_update, Hu. cbn [fmap option_fmap option_map].
  replace (pk u =? principal_id p) with true
    by (symmetry; apply Z.eqb_eq; exact Hid).
  cbn. destruct (check_password_hash _ _); reflexivity.
Qed.

Lemma change_password_then_login_witness :
  (login (Sample.post [("username", "admin"); ("password", "admin1234")])
     (change_password (Some (Admin Sample.admin))
        (Sample.post [("current_password", "admin1234");
                      ("new_password", "s3cret99");
                      ("confirm_password", "s3cret99")])
        Sample.store).2).2
  = None.
Proof.
  exact (change_password_then_login (Admin Sample.admin)
           (Sample.post [("current_password", "admin1234");
                         ("new_password", "s3cret99");
                         ("confirm_password", "s3cret99")])
           (Sample.post [("username", "admin"); ("password", "admin1234")])
           Sample.store Sample.admin "admin" "s3cret99" "admin1234"
           eq_refl eq_refl eq_refl eq_refl eq_refl eq_refl eq_refl).
Defined.

(** ** Dashboard: balance per unit and available units *)

Section Availability.
Context {R : Runtime}.

Lemma compute_balances_units (st : db) (today : date) (ls : list Lease.t)
    (k : Integer) :
  (compute_balances st today ls).2 !! k =
  last
    (omap
       (fun l =>
          if bool_decide (Lease.unit_id l = k)
          then (fun start => balance (lease_balance st today start l))
                 <$> Lease.start_date l
          else None) ls).
Proof.
  unfold compute_balances.
  induction ls as [|l ls IH] using rev_ind; [reflexivity|].
  rewrite fold_left_app, omap_app. cbn [fold_left omap list_omap].
  unfold balances_step at 1.
  destruct (Lease.start_date l) as [start|]; cbn [fmap option_fmap option_map].
  - cbn [snd]. destruct (decide (Lease.unit_id l = k)) as [->|Hne].
    + rewrite lookup_insert_eq, bool_decide_true by reflexivity.
      rewrite last_snoc. reflexivity.
    + rewrite lookup_insert_ne by exact Hne.
      rewrite bool_decide_false by exact Hne. rewrite app_nil_r. exact IH.
  - destruct (bool_decide (Lease.unit_id l = k)); rewrite app_nil_r; exact IH.
Qed.

Lemma unit_latest_rent_lookup (st : db) (u : Unit.t) :
  In u (units st) ->
  unit_latest_rent st !! Unit.id u = Some (latest_rent st (Unit.id u)).
Proof.
  unfold unit_latest_rent. intros Hin.
  induction (units st) as [|x us IH] using rev_ind; [destruct Hin|].
  rewrite fold_left_app. cbn [fold_left].
  destruct (decide (Unit.id x = Unit.id u)) as [->|Hne].
  - apply lookup_insert_eq.
  - rewrite lookup_insert_ne by exact Hne. apply IH.
    apply in_app_or in Hin as [Hin|[->|[]]]; [exact Hin | contradiction].
Qed.

Lemma available_units_In (st : db) (a : available_unit) :
  In a (available_units st) <->
  exists u,
    In u (units st) /\ Unit.status u = Some "vacant"
    /\ a = AvailableUnit u (latest_rent st (Unit.id u))
             (match unit_property st u with
              | Some p => Property.name p
              | None => "Unknown"
              end).
Proof.
  unfold available_units. rewrite in_flat_map. split.
  - intros (u & Hin & Ha).
    destruct (col_eqb (Unit.status u) "vacant") eqn:Hv; [|destruct Ha].
    destruct Ha as [<-|[]]. exists u. apply col_eqb_true in Hv.
    rewrite (unit_latest_rent_lookup st u Hin). repeat split; assumption.
  - intros (u & Hin & Hv & ->). exists u. split; [exact Hin|].
    apply col_eqb_true in Hv. rewrite Hv.
    rewrite (unit_latest_rent_lookup st u Hin). left. reflexivity.
Qed.

End Availability.

(** The per-unit balance shown on the dashboard is the balance of the
    lease iterated last among the unit's leases that have a start date:
    balances of earlier leases of the same unit are overwritten, not
    added, and a unit without such a lease has no entry. *)
Theorem unit_balances_last_lease {R : Runtime} (st : db) (today : date)
    (ls : list Lease.t) (k : Integer) :
  dash_unit_balances (dashboard st today ls) !! k =
  last
    (omap
       (fun l =>
          if bool_decide (Lease.unit_id l = k)
          then (fun start => balance (lease_balance st today start l))
                 <$> Lease.start_date l
          else None) ls).
Proof. unfold dashboard. cbn [dash_unit_balances]. apply compute_balances_units. Qed.

(** The units offered to tenants are exactly the units whose status is
    vacant, in the order of the unit table and each once per row.  The rent
    offered is the rent of the unit's lease with the highest identifier, 0
    when no lease names the unit; the property name is the name of the
    property the unit points at, Unknown without one. *)
Theorem available_units_are_vacant {R : Runtime} (st : db) :
  available_unit_row <$> available_units st
  = List.filter (fun u => bool_decide (Unit.status u = Some "vacant")) (units st)
  /\ forall a, In a (available_units st) ->
       (((forall l, In l (leases st) ->
                    Lease.unit_id l <> Int (Unit.id (available_unit_row a)))
         /\ available_monthly_rent a = Some (float_of_int 0))
        \/ exists m,
             In m (leases st)
             /\ Lease.unit_id m = Int (Unit.id (available_unit_row a))
             /\ (forall l, In l (leases st) ->
                   Lease.unit_id l = Int (Unit.id (available_unit_row a)) ->
                   Lease.id l <= Lease.id m)
             /\ available_monthly_rent a = Lease.monthly_rent m)
       /\ available_property_name a =
          match Unit.property_id (available_unit_row a) with
          | Int n =>
            match List.find (fun p => Property.id p =? n) (properties st) with
            | Some p => Property.name p
            | None => "Unknown"
            end
          | _ => "Unknown"
          end.
Proof.
  split.
  - unfold available_units.
    induction (units st) as [|u us IH]; [reflexivity|].
    cbn [flat_map List.filter]. rewrite fmap_app, IH.
    destruct (Unit.status u) as [s|]; cbn [col_eqb].
    + destruct (String.eqb_spec s "vacant") as [->|Hne].
      * rewrite bool_decide_true by reflexivity. reflexivity.
      * rewrite bool_decide_false by congruence. reflexivity.
    + rewrite bool_decide_false by discriminate. reflexivity.
  - intros a Ha. apply available_units_In in Ha as (u & Hin & Hv & ->).
    cbn [available_unit_row available_monthly_rent available_property_name].
    split.
    + pose proof (latest_rent_highest_id st (Unit.id u)) as Hrent.
      destruct (latest_lease (Unit.id u) (leases st)) as [m|].
      * right. exists m. exact Hrent.
      * left. exact Hrent.
    + unfold unit_property, query_get_col.
      destruct (Unit.property_id u); reflexivity.
Qed.

Lemma available_units_are_vacant_witness :
  let st :=
    Db _ [] [] [Property.Build 1 "Greenfield Heights" None]
      [Sample.room5; Unit.Build 1 "Room 1" (Some "vacant") Null] []
      [Sample.lease2; Sample.lease1] [] [] [] [] in
  let a := AvailableUnit (Unit.Build 1 "Room 1" (Some "vacant") Null)
             (Some 6500) "Unknown" in
  available_units st =
  [AvailableUnit Sample.room5 (Some 0) "Greenfield Heights"; a]
  /\ (((forall l, In l (leases st) -> Lease.unit_id l <> Int 1)
       /\ available_monthly_rent a = Some 0)
      \/ exists m,
           In m (leases st) /\ Lease.unit_id m = Int 1
           /\ (forall l, In l (leases st) -> Lease.unit_id l = Int 1 ->
                         Lease.id l <= Lease.id m)
           /\ available_monthly_rent a = Lease.monthly_rent m)
  /\ available_unit_row <$> available_units Sample.store = [Sample.room5].
Proof.
  intros st a. split; [reflexivity|]. split.
  - apply (proj2 (available_units_are_vacant st) a). right. left. reflexivity.
  - exact (proj1 (available_units_are_vacant Sample.store)).
Defined.

(** ** The booking workflow, step after step *)

Section Workflow.
Context {R : Runtime}.

Lemma book_unit_run (t : TenantUser.t) (req : request) (st : db) (uid : Z)
    (sd ed : date) :
  booking_accepted req st uid sd ed ->
  book_unit (Some (TenantAccount t)) req st =
  (Json 200 true "Booking request created successfully",
   Db _ (users st) (tenant_users st) (properties st) (units st) (tenants st)
     (leases st) (payments st) (maintenance_requests st)
     (lease_requests st ++ [booked_request req st t uid sd ed])
     (emergency_contacts st)).
Proof.
  intros (su & unit & ss & es & Hsu & Huid & Hnz & Hunit & Hvac & Hss & Hne & Hsd
          & Hes & Hne' & Hed).
  unfold book_unit, login_required, parse_date_field.
  rewrite is_tenant_user_TenantAccount, Hsu, Hss, Hes.
  cbn [negb mbind option_bind].
  rewrite Huid, (truthy_Some ss Hne), (truthy_Some es Hne'), Hsd, Hed.
  cbn [fmap option_fmap option_map].
  destruct (Z.eqb_spec uid 0) as [|_]; [contradiction|]. cbn [negb andb].
  rewrite (query_lookup_Some _ _ _ Hunit), Hvac. cbn [col_eqb negb].
  rewrite String.eqb_refl. cbn [negb].
  rewrite tenant_uid_of_TenantAccount. reflexivity.
Qed.

(** A 200 answer of [book_unit] comes from an accepted submission of a
    tenant account. *)
Lemma book_unit_ok_inv (c : caller) (req : request) (st : db) (message : string) :
  (book_unit c req st).1 = Json 200 true message ->
  exists t uid sd ed,
    c = Some (TenantAccount t) /\ booking_accepted req st uid sd ed.
Proof.
  intros Hok.
  destruct (is_tenant_user c) eqn:Hc.
  - destruct (book_unit_outcome c req st Hc)
      as [[m Hfail] | [(k & _ & _ & _ & Hfail)
         | (t & su & uid & unit & ss & sd & es & ed & -> & Hsu & Huid
                       & Hnz & Hunit & Hvac & Hss & Hsd & Hes & Hed & Hrun)]].
    + rewrite Hfail in Hok. discriminate.
    + rewrite Hfail in Hok. discriminate.
    + exists t, uid, sd, ed. split; [reflexivity|].
      exists su, unit, ss, es.
      assert (Hne : ss <> EmptyString).
      { intros ->. revert Hrun.
        unfold book_unit, login_required, parse_date_field.
        rewrite is_tenant_user_TenantAccount, Hsu, Hss, Hes.
        cbn [negb mbind option_bind truthy]. rewrite Huid.
        destruct es; cbn [truthy fmap option_fmap option_map];
          rewrite ?Hed; cbn [fmap option_fmap option_map];
          rewrite ?andb_false_r; cbn [negb andb]; intros [=]. }
      assert (Hne' : es <> EmptyString).
      { intros ->. revert Hrun.
        unfold book_unit, login_required, parse_date_field.
        rewrite is_tenant_user_TenantAccount, Hsu, Hss, Hes.
        cbn [negb mbind option_bind truthy]. rewrite Huid.
        destruct ss; cbn [truthy fmap option_fmap option_map];
          rewrite ?Hsd; cbn [fmap option_fmap option_map];
          rewrite ?andb_false_r; cbn [negb andb]; intros [=]. }
      repeat (split; [assumption|]). assumption.
  - unfold book_unit, login_required in Hok. rewrite Hc in Hok.
    destruct c; discriminate.
Qed.

(** The store an approval commits, given the request, its unit and its
    tenant account. *)
Lemma approve_run (c : caller) (k : Z) (st : db) (r : LeaseRequest.t)
    (unit : Unit.t) (account : TenantUser.t) :
  is_admin_user c = true ->
  query_get k (lease_requests st) = Some r ->
  query_get (LeaseRequest.unit_id r) (units st) = Some unit ->
  query_get (LeaseRequest.tenant_user_id r) (tenant_users st) = Some account ->
  approve_booking_request c k st =
  (Redirect "booking_requests" (Some (FlashApproved (Unit.number unit))),
   let found := tenant_by_email (TenantUser.email account) (tenants st) in
   let tenant_id :=
     match found with Some t => Tenant.id t | None => next_id (tenants st) end in
   Db _ (users st) (tenant_users st) (properties st)
     (update (LeaseRequest.unit_id r) (set_unit_status "occupied") (units st))
     (match found with
      | Some _ => tenants st
      | None => tenants st ++ [tenant_of_account tenant_id account]
      end)
     (leases st ++ [lease_of_request (next_id (leases st)) tenant_id r])
     (payments st) (maintenance_requests st)
     (update k (set_request_status "approved") (lease_requests st))
     (emergency_contacts st)).
Proof.
  intros Hadmin Hreq Hunit Hacc.
  destruct (is_admin_user_inv c Hadmin) as [u ->].
  unfold approve_booking_request, login_required.
  rewrite Hadmin, (query_lookup_Some _ _ _ Hreq), Hacc, Hunit. cbn [negb].
  assert (Hk : Unit.id unit = LeaseRequest.unit_id r)
    by (apply query_get_Some in Hunit as [_ Hk]; exact Hk).
  rewrite Hk. cbv zeta.
  destruct (tenant_by_email (TenantUser.email account) (tenants st));
    reflexivity.
Qed.

Lemma tenant_by_email_app_new (account : TenantUser.t) (k : Z)
    (tbl : list Tenant.t) :
  tenant_by_email (TenantUser.email account) tbl = None ->
  tenant_by_email (TenantUser.email account)
    (tbl ++ [tenant_of_account k account])
  = Some (tenant_of_account k account).
Proof.
  unfold tenant_by_email. intros Hnone. rewrite find_app_first, Hnone.
  cbn. rewrite String.eqb_refl. reflexivity.
Qed.

End Workflow.

(** A booking is accepted only for a unit the dashboard offers as
    available. *)
Theorem book_unit_only_available {R : Runtime} (c : caller) (req : request)
    (st : db) (message : string) :
  (book_unit c req st).1 = Json 200 true message ->
  exists a,
    In a (available_units st)
    /\ form req !! "unit_id" ≫= py_int = Some (Unit.id (available_unit_row a)).
Proof.
  intros Hok.
  destruct (book_unit_ok_inv c req st message Hok)
    as (t & uid & sd & ed & _ & su & unit & ss & es & Hsu & Huid & _ & Hunit
        & Hvac & _).
  apply query_get_Some in Hunit as [Hin Hk].
  eexists. split.
  - apply available_units_In. exists unit. repeat split; eassumption.
  - cbn [available_unit_row]. rewrite Hsu. cbn. rewrite Huid, <- Hk. reflexivity.
Qed.

Lemma book_unit_only_available_witness :
  exists a,
    In a (available_units Sample.store)
    /\ Unit.id (available_unit_row a) = 5.
Proof.
  destruct (book_unit_only_available (Some (TenantAccount Sample.account))
              (Sample.post [("unit_id", "5"); ("start_date", "2025-07-01");
                            ("end_date", "2026-07-01")])
              Sample.store "Booking request created successfully" eq_refl)
    as (a & Hin & Hid).
  exists a. split; [exact Hin|]. injection Hid as Hid. symmetry. exact Hid.
Defined.

(** Booking does not reserve the unit.  Once a submission was accepted, the
    same submission is accepted again for any tenant account, and the store
    then holds two pending requests with different keys for the same unit. *)
Theorem book_unit_twice {R : Runtime} (c : caller) (t' : TenantUser.t)
    (req : request) (st : db) (message : string) :
  (book_unit c req st).1 = Json 200 true message ->
  exists r1 r2,
    book_unit (Some (TenantAccount t')) req (book_unit c req st).2
    = (Json 200 true "Booking request created successfully",
       Db _ (users st) (tenant_users st) (properties st) (units st) (tenants st)
         (leases st) (payments st) (maintenance_requests st)
         (lease_requests st ++ [r1; r2]) (emergency_contacts st))
    /\ LeaseRequest.unit_id r1 = LeaseRequest.unit_id r2
    /\ LeaseRequest.status r1 = "pending" /\ LeaseRequest.status r2 = "pending"
    /\ LeaseRequest.id r1 < LeaseRequest.id r2.
Proof.
  intros Hok.
  destruct (book_unit_ok_inv c req st message Hok)
    as (t & uid & sd & ed & -> & Hacc).
  rewrite (book_unit_run t req st uid sd ed Hacc). cbn [snd].
  erewrite book_unit_run by exact Hacc.
  eexists _, _. cbn [lease_requests users tenant_users properties units tenants
                       leases payments maintenance_requests emergency_contacts].
  rewrite <- app_assoc. split; [reflexivity|].
  repeat split. cbn [booked_request LeaseRequest.id lease_requests].
  assert (Hin : In (booked_request req st t uid sd ed)
                  (lease_requests st ++ [booked_request req st t uid sd ed]))
    by (apply in_or_app; right; left; reflexivity).
  exact (next_id_above _ _ Hin).
Qed.

Lemma book_unit_twice_witness :
  length
    (lease_requests
       (book_unit (Some (TenantAccount Sample.account))
          (Sample.post [("unit_id", "5"); ("start_date", "2025-07-01");
                        ("end_date", "2026-07-01")])
          (book_unit (Some (TenantAccount Sample.account))
             (Sample.post [("unit_id", "5"); ("start_date", "2025-07-01");
                           ("end_date", "2026-07-01")])
             Sample.store).2).2)
  = 4%nat.
Proof.
  destruct (book_unit_twice (Some (TenantAccount Sample.account)) Sample.account
              (Sample.post [("unit_id", "5"); ("start_date", "2025-07-01");
                            ("end_date", "2026-07-01")])
              Sample.store "Booking request created successfully" eq_refl)
    as (r1 & r2 & Hrun & _).
  rewrite Hrun. reflexivity.
Defined.

(** After an approval the unit is no longer among the available units. *)
Theorem approved_unit_not_available {R : Runtime} (c : caller) (k : Z) (st : db)
    (r : LeaseRequest.t) (unit : Unit.t) (account : TenantUser.t) :
  is_admin_user c = true ->
  query_get k (lease_requests st) = Some r ->
  query_get (LeaseRequest.unit_id r) (units st) = Some unit ->
  query_get (LeaseRequest.tenant_user_id r) (tenant_users st) = Some account ->
  forall a, In a (available_units (approve_booking_request c k st).2) ->
            Unit.id (available_unit_row a) <> LeaseRequest.unit_id r.
Proof.
  intros Hadmin Hreq Hunit Hacc a Hin Hid.
  rewrite (approve_run c k st r unit account Hadmin Hreq Hunit Hacc) in Hin.
  cbn [snd] in Hin. apply available_units_In in Hin as (u & Hu & Hv & ->).
  cbn [available_unit_row units] in *. unfold update in Hu.
  apply in_map_iff in Hu as (x & <- & _).
  destruct (pk x =? LeaseRequest.unit_id r) eqn:E.
  - discriminate Hv.
  - apply Z.eqb_neq in E. contradiction.
Qed.

Lemma approved_unit_not_available_witness :
  Forall (fun a => Unit.id (available_unit_row a) <> 5)
    (available_units
       (approve_booking_request (Some (Admin Sample.admin)) 1 Sample.store).2).
Proof.
  apply List.Forall_forall.
  exact (approved_unit_not_available (Some (Admin Sample.admin)) 1 Sample.store
           Sample.pending_request Sample.room5 Sample.account
           eq_refl eq_refl eq_refl eq_refl).
Defined.

(** From submission to lease: when a tenant account that is in the store
    books a vacant unit and an administrator approves the request just
    stored, the unit is occupied, the lease table has grown by exactly one
    lease for that unit with the submitted dates and a rent of zero, and
    the request is approved. *)
Theorem booking_end_to_end {R : Runtime} (c : caller) (t account : TenantUser.t)
    (req : request) (st : db) (uid : Z) (sd ed : date) :
  is_admin_user c = true ->
  query_get (TenantUser.id t) (tenant_users st) = Some account ->
  booking_accepted req st uid sd ed ->
  exists st' tenant_id,
    (approve_booking_request c (next_id (lease_requests st))
       (book_unit (Some (TenantAccount t)) req st).2).2 = st'
    /\ Unit.status <$> query_get uid (units st') = Some (Some "occupied")
    /\ leases st' =
       leases st ++
       [Lease.Build _ (next_id (leases st)) (Int uid) (Int tenant_id) (Some sd)
          (Some ed) (Some (float_of_int 0))]
    /\ LeaseRequest.status <$>
         query_get (next_id (lease_requests st)) (lease_requests st')
       = Some "approved".
Proof.
  intros Hadmin Haccount Hacc.
  rewrite (book_unit_run t req st uid sd ed Hacc). cbn [snd].
  pose proof Hacc as (su & unit & ss & es & _ & _ & _ & Hunit & _).
  assert (Hreq : query_get (next_id (lease_requests st))
                   (lease_requests st ++ [booked_request req st t uid sd ed])
                 = Some (booked_request req st t uid sd ed)).
  { rewrite query_get_app, next_id_fresh. cbn. rewrite Z.eqb_refl. reflexivity. }
  match goal with
  | |- context [approve_booking_request c _ ?s] => set (st1 := s)
  end.
  rewrite (approve_run c (next_id (lease_requests st)) st1
             (booked_request req st t uid sd ed) unit account
             Hadmin Hreq Hunit Haccount).
  subst st1. eexists _, _. split; [reflexivity|]. cbv zeta.
  cbn [snd units leases lease_requests tenants booked_request
         LeaseRequest.unit_id].
  split; [|split].
  - rewrite query_get_update_eq by reflexivity. rewrite Hunit. reflexivity.
  - reflexivity.
  - rewrite query_get_update_eq by reflexivity.
    fold (booked_request req st t uid sd ed). rewrite Hreq. reflexivity.
Qed.

Lemma booking_end_to_end_witness :
  exists st',
    (approve_booking_request (Some (Admin Sample.admin)) 3
       (book_unit (Some (TenantAccount Sample.account))
          (Sample.post [("unit_id", "5"); ("start_date", "2025-07-01");
                        ("end_date", "2026-07-01")])
          Sample.store).2).2 = st'
    /\ Unit.status <$> query_get 5 (units st') = Some (Some "occupied")
    /\ length (leases st') = 3%nat.
Proof.
  destruct (booking_end_to_end (Some (Admin Sample.admin)) Sample.account
              Sample.account
              (Sample.post [("unit_id", "5"); ("start_date", "2025-07-01");
                            ("end_date", "2026-07-01")])
              Sample.store 5 (Date 2025 7 1) (Date 2026 7 1) eq_refl eq_refl)
    as (st' & tenant_id & Hrun & Hocc & Hl & _).
  { exists "5", Sample.room5, "2025-07-01", "2026-07-01".
    repeat split; try reflexivity; discriminate. }
  exists st'. split; [exact Hrun|]. split; [exact Hocc|].
  rewrite Hl. reflexivity.
Defined.

(** Approval can be repeated.  Approving the same request a second time
    appends a second lease for the same unit, dates and tenant, and adds no
    tenant record: the one found or created by the first approval is
    reused. *)
Theorem approve_twice {R : Runtime} (c : caller) (k : Z) (st : db)
    (r : LeaseRequest.t) (unit : Unit.t) (account : TenantUser.t) :
  is_admin_user c = true ->
  query_get k (lease_requests st) = Some r ->
  query_get (LeaseRequest.unit_id r) (units st) = Some unit ->
  query_get (LeaseRequest.tenant_user_id r) (tenant_users st) = Some account ->
  exists tenant_id,
    leases (approve_booking_request c k (approve_booking_request c k st).2).2
    = leases st ++
      [lease_of_request (next_id (leases st)) tenant_id r;
       lease_of_request
         (next_id (leases st ++
                   [lease_of_request (next_id (leases st)) tenant_id r]))
         tenant_id r]
    /\ tenants (approve_booking_request c k (approve_booking_request c k st).2).2
       = tenants (approve_booking_request c k st).2.
Proof.
  intros Hadmin Hreq Hunit Hacc.
  rewrite (approve_run c k st r unit account Hadmin Hreq Hunit Hacc).
  cbn [snd]. cbv zeta.
  erewrite (approve_run c k _ (set_request_status "approved" r)
              (set_unit_status "occupied" unit) account Hadmin).
  2:{ cbn [lease_requests]. rewrite query_get_update_eq by reflexivity.
      rewrite Hreq. reflexivity. }
  2:{ cbn [units LeaseRequest.unit_id set_request_status].
      rewrite query_get_update_eq by reflexivity. rewrite Hunit. reflexivity. }
  2:{ exact Hacc. }
  cbn [snd leases tenants]. cbv zeta.
  destruct (tenant_by_email (TenantUser.email account) (tenants st))
    as [found|] eqn:Hfind.
  - rewrite Hfind. exists (Tenant.id found). rewrite <- app_assoc.
    split; reflexivity.
  - rewrite (tenant_by_email_app_new account _ _ Hfind).
    exists (next_id (tenants st)). rewrite <- app_assoc. split; reflexivity.
Qed.

Lemma approve_twice_witness :
  length
    (leases
       (approve_booking_request (Some (Admin Sample.admin)) 1
          (approve_booking_request (Some (Admin Sample.admin)) 1
             Sample.store).2).2)
  = 4%nat
  /\ length
       (tenants
          (approve_booking_request (Some (Admin Sample.admin)) 1
             (approve_booking_request (Some (Admin Sample.admin)) 1
                Sample.store).2).2)
     = 3%nat.
Proof.
  destruct (approve_twice (Some (Admin Sample.admin)) 1 Sample.store
              Sample.pending_request Sample.room5 Sample.account
              eq_refl eq_refl eq_refl eq_refl)
    as (tenant_id & Hl & Ht).
  split; [rewrite Hl; reflexivity | rewrite Ht; reflexivity].
Defined.

(** ** Deleting a lease *)

Lemma query_get_delete_eq {A} `{Model A} (k : Z) (tbl : list A) :
  query_get k (delete_row k tbl) = None.
Proof.
  unfold query_get, delete_row.
  induction tbl as [|x tbl IH]; cbn; [reflexivity|].
  destruct (pk x =? k) eqn:E; cbn; [exact IH | rewrite E; exact IH].
Qed.

(** Deleting a lease sets its unit to vacant without looking for other
    leases: the deleted lease is gone, every other lease is kept, also one
    that references the same unit, and the unit reads vacant. *)
Theorem lease_delete_vacates_unit {R : Runtime} (c : caller) (lid : Z) (st : db)
    (lease : Lease.t) (uid : Z) (unit : Unit.t) :
  is_admin_user c = true ->
  query_get lid (leases st) = Some lease ->
  Lease.unit_id lease = Int uid ->
  query_get uid (units st) = Some unit ->
  exists st',
    lease_delete c lid st
    = (Redirect "leases_list" (Some (Flash "Lease deleted.")), st')
    /\ Unit.status <$> query_get uid (units st') = Some (Some "vacant")
    /\ query_get lid (leases st') = None
    /\ (forall l, In l (leases st) -> Lease.id l <> lid -> In l (leases st')).
Proof.
  intros Hadmin Hlease Huid Hunit.
  destruct (is_admin_user_inv c Hadmin) as [u ->].
  unfold lease_delete, login_required. cbn [class_is_User negb].
  rewrite (query_lookup_Some _ _ _ Hlease). eexists. split; [reflexivity|].
  cbn [units leases]. unfold mark_unit. rewrite Huid. cbn [query_get_col].
  rewrite Hunit.
  assert (Hk : Unit.id unit = uid)
    by (apply query_get_Some in Hunit as [_ Hk]; exact Hk).
  rewrite Hk. split; [|split].
  - rewrite query_get_update_eq by reflexivity. rewrite Hunit. reflexivity.
  - apply query_get_delete_eq.
  - intros l Hin Hne. unfold delete_row. apply filter_In. split; [exact Hin|].
    apply negb_true_iff, Z.eqb_neq. exact Hne.
Qed.

Lemma lease_delete_vacates_unit_witness :
  exists st',
    lease_delete (Some (Admin Sample.admin)) 1 Sample.store
    = (Redirect "leases_list" (Some (Flash "Lease deleted.")), st')
    /\ Unit.status <$> query_get 1 (units st') = Some (Some "vacant")
    /\ In Sample.lease2 (leases st').
Proof.
  destruct (lease_delete_vacates_unit (Some (Admin Sample.admin)) 1 Sample.store
              Sample.lease1 1 Sample.room1 eq_refl eq_refl eq_refl eq_refl)
    as (st' & Hrun & Hvac & _ & Hkeep).
  exists st'. split; [exact Hrun|]. split; [exact Hvac|].
  apply Hkeep; [right; left; reflexivity | discriminate].
Defined.

(** ** The booking-request screen *)

Lemma datetime_leb_total (a b : datetime) :
  datetime_leb a b = false -> datetime_leb b a = true.
Proof.
  unfold datetime_leb.
  repeat match goal with
         | |- context [?x ?= ?y] => destruct (Z.compare_spec x y)
         end;
    intros Hle; try discriminate Hle; try reflexivity; lia.
Qed.

Lemma insert_newest_first_perm (r : LeaseRequest.t) (rows : list LeaseRequest.t) :
  Permutation (insert_newest_first r rows) (r :: rows).
Proof.
  induction rows as [|x rows IH]; cbn; [reflexivity|].
  destruct (datetime_leb _ _); [reflexivity|].
  rewrite IH. apply perm_swap.
Qed.

Lemma order_by_created_at_desc_perm (rows : list LeaseRequest.t) :
  Permutation (order_by_created_at_desc rows) rows.
Proof.
  induction rows as [|x rows IH]; cbn; [reflexivity|].
  rewrite insert_newest_first_perm, IH. reflexivity.
Qed.

Lemma insert_newest_first_sorted (r : LeaseRequest.t)
    (rows : list LeaseRequest.t) :
  Sorted (fun a b =>
            datetime_leb (LeaseRequest.created_at b) (LeaseRequest.created_at a)
            = true) rows ->
  Sorted (fun a b =>
            datetime_leb (LeaseRequest.created_at b) (LeaseRequest.created_at a)
            = true) (insert_newest_first r rows).
Proof.
  induction rows as [|x rows IH]; intros Hs; cbn.
  - repeat constructor.
  - destruct (datetime_leb _ _) eqn:E.
    + constructor; [exact Hs | constructor; exact E].
    + inversion Hs as [|? ? Hs' Hhd]; subst.
      constructor; [apply IH; exact Hs'|].
      destruct rows as [|y rows]; cbn.
      * constructor. apply datetime_leb_total. exact E.
      * destruct (datetime_leb (LeaseRequest.created_at y) _).
        -- constructor. apply datetime_leb_total. exact E.
        -- inversion Hhd; subst. constructor. assumption.
Qed.

Lemma order_by_created_at_desc_sorted (rows : list LeaseRequest.t) :
  Sorted (fun a b =>
            datetime_leb (LeaseRequest.created_at b) (LeaseRequest.created_at a)
            = true) (order_by_created_at_desc rows).
Proof.
  induction rows as [|x rows IH]; cbn; [constructor|].
  apply insert_newest_first_sorted. exact IH.
Qed.

Lemma filter_filter_same {A} (f : A -> bool) (l : list A) :
  List.filter f (List.filter f l) = List.filter f l.
Proof.
  induction l as [|x l IH]; cbn; [reflexivity|].
  destruct (f x) eqn:E; cbn; [rewrite E, IH|]; auto.
Qed.

(** The administrator's booking-request screen shows exactly the stored
    requests whose status is not rejected, newest first; anybody else gets
    no rows. *)
Theorem booking_requests_listing {R : Runtime} (c : caller) (st : db) :
  (is_admin_user c = true ->
   (forall r, In r (booking_requests c st).2 <->
              In r (lease_requests st) /\ LeaseRequest.status r <> "rejected")
   /\ Sorted (fun a b =>
                datetime_leb (LeaseRequest.created_at b)
                  (LeaseRequest.created_at a) = true)
        (booking_requests c st).2)
  /\ (is_admin_user c = false ->
      (booking_requests c st).2 = []
      /\ denies (booking_requests c st).1 = true).
Proof.
  split.
  - intros Hadmin. destruct (is_admin_user_inv c Hadmin) as [u ->].
    unfold booking_requests, login_required. rewrite Hadmin. cbn [negb snd].
    split; [|apply order_by_created_at_desc_sorted].
    intros r. rewrite <- !list_elem_of_In.
    rewrite (order_by_created_at_desc_perm _).
    rewrite !list_elem_of_In, filter_In. unfold is_rejected.
    destruct (String.eqb_spec (LeaseRequest.status r) "rejected"); cbn;
      intuition congruence.
  - intros Hc. unfold booking_requests, login_required. rewrite Hc.
    destruct c; split; reflexivity.
Qed.

Lemma booking_requests_listing_witness :
  In Sample.pending_request
    (booking_requests (Some (Admin Sample.admin)) Sample.store).2
  /\ (booking_requests (Some (TenantAccount Sample.account)) Sample.store).2 = [].
Proof.
  split.
  - apply (proj1 (booking_requests_listing (Some (Admin Sample.admin))
                    Sample.store) eq_refl).
    split; [left; reflexivity | discriminate].
  - apply (proj2 (booking_requests_listing (Some (TenantAccount Sample.account))
                    Sample.store) eq_refl).
Defined.

(** Purging is invisible on the booking-request screen: whoever calls the
    purge and however it ends, the screen shows the same rows before and
    after. *)
Theorem purge_keeps_listing {R : Runtime} (c c' : caller) (outcome : persistence)
    (st : db) :
  (booking_requests c (purge_rejected_requests c' outcome st).2).2
  = (booking_requests c st).2.
Proof.
  unfold booking_requests, purge_rejected_requests, login_required.
  destruct c as [p|]; [|reflexivity].
  destruct (is_admin_user (Some p)); [|reflexivity]. cbn [negb snd].
  destruct c' as [p'|]; [|reflexivity].
  destruct (is_admin_user (Some p')); [|reflexivity]. cbn [negb].
  destruct outcome; cbn [snd lease_requests]; try reflexivity.
  rewrite filter_filter_same. reflexivity.
Qed.

(** A rejected request leaves the booking-request screen and the other
    rows stay: after the rejection of request [k] the screen has no row
    with that key, and a row with another key is shown exactly when it was
    shown before. *)
Theorem reject_hides_request {R : Runtime} (c : caller) (k : Z) (st : db)
    (r0 : LeaseRequest.t) :
  is_admin_user c = true ->
  query_get k (lease_requests st) = Some r0 ->
  forall r,
    (In r (booking_requests c (reject_booking_request c k st).2).2 ->
     LeaseRequest.id r <> k)
    /\ (LeaseRequest.id r <> k ->
        (In r (booking_requests c (reject_booking_request c k st).2).2 <->
         In r (booking_requests c st).2)).
Proof.
  intros Hadmin Hreq r.
  destruct (is_admin_user_inv c Hadmin) as [u ->].
  unfold booking_requests, reject_booking_request, login_required.
  rewrite Hadmin, (query_lookup_Some _ _ _ Hreq). cbn [negb snd lease_requests].
  rewrite <- !list_elem_of_In, !(order_by_created_at_desc_perm _).
  rewrite !list_elem_of_In, !filter_In. unfold update. rewrite in_map_iff.
  split.
  - intros [(x & <- & Hx) Hstatus] Hid.
    destruct (pk x =? k) eqn:E; [discriminate Hstatus|].
    apply Z.eqb_neq in E. contradiction.
  - intros Hid. split.
    + intros [(x & <- & Hx) Hstatus]. destruct (pk x =? k) eqn:E.
      * discriminate Hstatus.
      * split; assumption.
    + intros [Hin Hstatus]. split; [|exact Hstatus].
      exists r. split; [|exact Hin].
      replace (pk r =? k) with false; [reflexivity|].
      symmetry. apply Z.eqb_neq. exact Hid.
Qed.

Lemma reject_hides_request_witness :
  Forall (fun r => LeaseRequest.id r <> 1)
    (booking_requests (Some (Admin Sample.admin))
       (reject_booking_request (Some (Admin Sample.admin)) 1 Sample.store).2).2.
Proof.
  apply List.Forall_forall. intros r.
  exact (proj1 (reject_hides_request (Some (Admin Sample.admin)) 1 Sample.store
                  Sample.pending_request eq_refl eq_refl r)).
Defined.

(** ** Seeding *)

Section Seeding.
Context {R : Runtime}.

Lemma user_by_username_app_new (name h : string) (k : Z) (tbl : list User.t) :
  user_by_username (Some name) tbl = None ->
  user_by_username (Some name) (tbl ++ [User.Build k name h])
  = Some (User.Build k name h).
Proof.
  cbn. intros Hnone. rewrite find_app_first, Hnone. cbn.
  rewrite String.eqb_refl. reflexivity.
Qed.

(** What [init_db] leaves behind, block by block. *)
Lemma init_db_blocks (env : seed_env) (st : db) :
  properties (init_db env st).1 <> []
  /\ (exists a, user_by_username (Some "admin") (users (init_db env st).1)
                = Some a)
  /\ ((init_db env st).2 = false ->
      exists t, tenant_user_by_username (Some "tenant")
                  (tenant_users (init_db env st).1) = Some t)
  /\ ((init_db env st).2 = true ->
      tenant_user_by_username (Some "tenant") (tenant_users (init_db env st).1)
      = None
      /\ exists t, tenant_user_by_email (Some "tenant@example.com")
                     (tenant_users (init_db env st).1) = Some t).
Proof.
  unfold init_db.
  set (st1 := match properties st with [] => seed_properties env st | _ => st end).
  assert (Hp : properties st1 <> []).
  { subst st1. destruct (properties st) eqn:E.
    - unfold seed_properties. cbn [properties]. rewrite E. discriminate.
    - rewrite E. discriminate. }
  clearbody st1. unfold seed_tenant_user, seed_admin.
  destruct (user_by_username (Some "admin") (users st1)) as [a|] eqn:Ha.
  - destruct (tenant_user_by_username (Some "tenant") (tenant_users st1))
      as [t|] eqn:Ht; cbn [fst snd].
    + repeat split; eauto; discriminate.
    + destruct (tenant_user_by_email _ _) as [t|] eqn:He; cbn [fst snd].
      * repeat split; eauto; discriminate.
      * cbn [properties users tenant_users].
        split; [exact Hp|]. split; [eauto|]. split; [|discriminate].
        intros _. eexists. cbn in Ht |- *. rewrite find_app_first, Ht. cbn.
        reflexivity.
  - cbn [tenant_users].
    destruct (tenant_user_by_username (Some "tenant") (tenant_users st1))
      as [t|] eqn:Ht; cbn [fst snd].
    + cbn [properties users tenant_users].
      split; [exact Hp|]. split.
      { eexists. apply user_by_username_app_new. exact Ha. }
      split; [eauto | discriminate].
    + destruct (tenant_user_by_email _ _) as [t|] eqn:He; cbn [fst snd].
      * cbn [properties users tenant_users].
        split; [exact Hp|]. split.
        { eexists. apply user_by_username_app_new. exact Ha. }
        split; [discriminate | eauto].
      * cbn [properties users tenant_users].
        split; [exact Hp|]. split.
        { eexists. apply user_by_username_app_new. exact Ha. }
        split; [|discriminate].
        intros _. eexists. cbn in Ht |- *. rewrite find_app_first, Ht. cbn.
        reflexivity.
Qed.

End Seeding.

(** Seeding is idempotent: run on a store it has already seeded, whatever
    that store was before and whatever the clock and the salts are now,
    [init_db] changes nothing and ends as it ended the first time. *)
Theorem init_db_idempotent {R : Runtime} (env env' : seed_env) (st : db) :
  init_db env' (init_db env st).1 = init_db env st.
Proof.
  destruct (init_db_blocks env st) as (Hp & [a Ha] & Hok & Hraised).
  destruct (init_db env st) as [st1 raised] eqn:Hrun. cbn [fst snd] in *.
  unfold init_db. destruct (properties st1) as [|p ps] eqn:E; [contradiction|].
  unfold seed_admin. rewrite Ha. unfold seed_tenant_user.
  destruct raised.
  - destruct (Hraised eq_refl) as [Hnone [t Ht]]. rewrite Hnone, Ht. reflexivity.
  - destruct (Hok eq_refl) as [t Ht]. rewrite Ht. reflexivity.
Qed.

(** On a seeded store the quick administrator login with the built-in
    password always finds its account: it answers 200 and logs in a user
    named admin, never 404. *)
Theorem init_db_then_autologin {R : Runtime} (env : seed_env) (st : db)
    (req : request) :
  form req !! "password" = Some "admin1234" ->
  exists a,
    admin_autologin req (init_db env st).1 = (Json 200 true "", Some (Admin a))
    /\ User.username a = "admin"
    /\ In a (users (init_db env st).1).
Proof.
  intros Hpw. destruct (init_db_blocks env st) as (_ & [a Ha] & _).
  exists a. unfold admin_autologin. rewrite Hpw. cbn [truthy negb].
  rewrite bool_decide_true by reflexivity. rewrite Ha.
  apply user_by_username_Some in Ha as [Hin [= Hname]].
  repeat split; [symmetry; exact Hname | exact Hin].
Qed.

Lemma init_db_then_autologin_witness :
  exists a,
    admin_autologin (Sample.post [("password", "admin1234")])
      (init_db (SeedEnv (Sample.noon Sample.today) (Date 2026 6 15) "s1" "s2")
         (Db exact_runtime [] [] [] [] [] [] [] [] [] [])).1
    = (Json 200 true "", Some (Admin a))
    /\ User.username a = "admin".
Proof.
  destruct (init_db_then_autologin
              (SeedEnv (Sample.noon Sample.today) (Date 2026 6 15) "s1" "s2")
              (Db exact_runtime [] [] [] [] [] [] [] [] [] [])
              (Sample.post [("password", "admin1234")]) eq_refl)
    as (a & Hrun & Hname & _).
  exists a. split; assumption.
Defined.

(** ** Primary keys *)

Section Keys.
Context {A : Type} `{Model A}.

Lemma keys_add (tbl : list A) (x : A) :
  NoDup (pk <$> tbl) -> pk x = next_id tbl -> NoDup (pk <$> tbl ++ [x]).
Proof.
  intros Hnd Hx. rewrite fmap_app. cbn [fmap list_fmap].
  apply NoDup_app. split; [exact Hnd|]. split; [|apply NoDup_singleton].
  intros k Hk Hk'. apply list_elem_of_singleton in Hk'. subst k.
  apply list_elem_of_fmap in Hk as (r & Hr & Hin).
  apply list_elem_of_In in Hin. pose proof (next_id_above tbl r Hin). lia.
Qed.

Lemma keys_update (k : Z) (f : A -> A) (tbl : list A) :
  (forall r, pk (f r) = pk r) -> NoDup (pk <$> tbl) ->
  NoDup (pk <$> update k f tbl).
Proof.
  intros Hf Hnd. replace (pk <$> update k f tbl) with (pk <$> tbl); [exact Hnd|].
  unfold update. induction tbl as [|x tbl IH]; cbn; [reflexivity|].
  inversion Hnd; subst. rewrite <- IH by assumption.
  destruct (pk x =? k); [rewrite Hf|]; reflexivity.
Qed.

Lemma keys_filter (p : A -> bool) (tbl : list A) :
  NoDup (pk <$> tbl) -> NoDup (pk <$> List.filter p tbl).
Proof.
  induction tbl as [|x tbl IH]; cbn; [auto|].
  intros Hnd. apply NoDup_cons in Hnd as [Hx Hnd].
  destruct (p x); [|auto]. cbn. apply NoDup_cons. split; [|auto].
  intros Hin. apply Hx. apply list_elem_of_fmap in Hin as (r & Hr & Hin).
  apply list_elem_of_fmap. exists r. split; [exact Hr|].
  apply list_elem_of_In. apply list_elem_of_In in Hin.
  apply filter_In in Hin as [Hin _]. exact Hin.
Qed.

Lemma keys_delete (k : Z) (tbl : list A) :
  NoDup (pk <$> tbl) -> NoDup (pk <$> delete_row k tbl).
Proof. apply keys_filter. Qed.

(** With distinct keys a stored row is the one found under its key. *)
Lemma query_get_stored (tbl : list A) (r : A) :
  NoDup (pk <$> tbl) -> In r tbl -> query_get (pk r) tbl = Some r.
Proof.
  unfold query_get. induction tbl as [|x tbl IH]; cbn; [intros _ []|].
  intros Hnd Hin. apply NoDup_cons in Hnd as [Hx Hnd].
  destruct Hin as [->|Hin]; [rewrite Z.eqb_refl; reflexivity|].
  destruct (Z.eqb_spec (pk x) (pk r)) as [E|_]; [|auto].
  exfalso. apply Hx. rewrite E. apply list_elem_of_fmap. exists r.
  split; [reflexivity | apply list_elem_of_In; exact Hin].
Qed.

End Keys.

Section KeysOfHandlers.
Context {R : Runtime}.

Lemma keys_mark_unit (k : Integer) (s : string) (us : list Unit.t) :
  NoDup (pk <$> us) -> NoDup (pk <$> mark_unit k s us).
Proof.
  intros Hnd. unfold mark_unit. destruct (query_get_col k us); [|exact Hnd].
  apply keys_update; [reflexivity | exact Hnd].
Qed.

Lemma keys_orphan_leases (tid : Z) (ls : list Lease.t) :
  NoDup (pk <$> ls) -> NoDup (pk <$> orphan_leases tid ls).
Proof.
  intros Hnd. replace (pk <$> orphan_leases tid ls) with (pk <$> ls); [exact Hnd|].
  unfold orphan_leases. induction ls as [|x ls IH]; cbn; [reflexivity|].
  inversion Hnd; subst. rewrite <- IH by assumption.
  destruct (bool_decide _); reflexivity.
Qed.

Lemma keys_orphan_payments (lid : Z) (ps : list Payment.t) :
  NoDup (pk <$> ps) -> NoDup (pk <$> orphan_payments lid ps).
Proof.
  intros Hnd. replace (pk <$> orphan_payments lid ps) with (pk <$> ps);
    [exact Hnd|].
  unfold orphan_payments. induction ps as [|x ps IH]; cbn; [reflexivity|].
  inversion Hnd; subst. rewrite <- IH by assumption.
  destruct (bool_decide _); reflexivity.
Qed.

End KeysOfHandlers.

Ltac keys_step :=
  first
    [ assumption
    | apply keys_add; [keys_step | reflexivity]
    | apply keys_update; [intros ?; reflexivity | keys_step]
    | apply keys_delete; keys_step
    | apply keys_filter; keys_step
    | apply keys_mark_unit; keys_step
    | apply keys_orphan_leases; keys_step
    | apply keys_orphan_payments; keys_step ].

Ltac keys_store :=
  cbn [snd];
  unfold keys_unique, with_tenants, with_maintenance_requests,
    with_emergency_contacts, with_payments, with_units_leases;
  cbn [users tenant_users properties units tenants leases payments
         maintenance_requests lease_requests emergency_contacts];
  repeat split; keys_step.

(** Every handler that writes keeps the primary keys of every table
    pairwise distinct, whoever calls it and whatever is submitted; so
    does seeding. *)
Theorem handlers_keep_keys_unique {R : Runtime} (st : db) :
  keys_unique st ->
  (forall o c req, keys_unique (handle o c req st).2)
  /\ (forall env, keys_unique (init_db env st).1).
Proof.
  intros (Hu & Hta & Hp & Hun & Ht & Hl & Hpay & Hm & Hr & He).
  split.
  - intros o c req.
    destruct o; cbn [handle];
      unfold approve_booking_request, reject_booking_request,
        purge_rejected_requests, book_unit, tenant_signup, change_password,
        maintenance_create, maintenance_edit, maintenance_delete,
        emergency_contact_create, emergency_contact_edit,
        emergency_contact_delete, tenant_create, tenant_edit, tenant_delete,
        lease_create, lease_edit, lease_delete, payment_create, login_required;
      repeat match goal with
             | |- context [match match ?x with _ => _ end with _ => _ end] =>
               destruct x
             | |- context [match ?x with _ => _ end] => destruct x
             end;
      keys_store.
  - intros env. unfold init_db.
    assert (Hseeded : keys_unique
                        match properties st with
                        | [] => seed_properties env st
                        | _ :: _ => st
                        end).
    { destruct (properties st) eqn:E; rewrite <- E in Hp;
        [unfold seed_properties; cbv zeta|]; keys_store. }
    revert Hseeded. generalize (match properties st with
                                | [] => seed_properties env st
                                | _ :: _ => st
                                end).
    clear. intros st1 (Hu & Hta & Hp & Hun & Ht & Hl & Hpay & Hm & Hr & He).
    unfold seed_tenant_user, seed_admin.
    repeat match goal with
           | |- context [match ?x with _ => _ end] => destruct x
           end;
      keys_store.
Qed.

Lemma handlers_keep_keys_unique_witness :
  keys_unique
    (handle (ApproveBookingRequest 1) (Some (Admin Sample.admin)) (Sample.post [])
       Sample.store).2.
Proof.
  apply (proj1 (handlers_keep_keys_unique Sample.store
                  ltac:(repeat split; vm_compute;
                        repeat (apply NoDup_cons_2;
                                [rewrite list_elem_of_In; cbn; lia|]);
                        apply NoDup_nil_2))).
Defined.
